(** * Lumi-IA: mood classification and personality adaptation

    A shallow embedding of the mood classifier of the Lumi backend:

    - [config/personality_config.py]  (the rule table and the mood states),
    - [services/mood_detector.py]     (class [MoodDetectorService]),
    - [core/personality_engine.py]    (class [PersonalityEngine]),

    and of their callers:

    - [core/ai_engine.py]             ([AIEngine.generate_response] and its
                                       rate limiter),
    - [api/analytics_handler.py]      (the mood-history and summary routes).

    Conventions of the embedding.

    - Python numbers are exact rationals ([Q]); [int] counts coming from the
      database are [Z] and are injected where Python promotes them.  Every
      comparison is the boolean one the source writes.
      Two things follow.  A float result is the exact value of the
      expression, not its rounding: a statement about floats is made with
      the slack that rounding needs.  And an [int] beyond the range of a
      float, which makes Python raise [OverflowError] where it meets a
      float, is just a number here: the embedded classifiers are total, and
      a statement that needs the source not to raise is made for a snapshot
      in range ([snapshot_in_range]: every integer fits a [bigint], as
      those of the database do).
    - A naive [datetime] is the number of microseconds since a fixed
      midnight ([Z]); [timedelta] is a difference of two such numbers.
    - A dict that is only looked up is a [gmap]; a dict that is iterated
      (where Python fixes the insertion order) is an association list.
    - An f-string is kept as the list of its pieces ([fstring]); how a format
      specification prints a float is not modelled.
    - Exceptions are values ([pyresult]); code that talks to the clock and to
      the database runs in the monad [Eff].  One call of a public method is
      taken to run within one reading of the clock: every [datetime.now()] of
      the call returns the time of the world it starts in.
    - The [async] methods are sequential code here; two calls never
      interleave. *)

From Stdlib Require Import ZArith QArith Lqa String List Lia.
From stdpp Require Import base option list strings gmap.

Set Default Proof Using "Type".
Local Open Scope string_scope.

(** ** Python primitives *)

Module Py.

Local Open Scope Q_scope.

(** [a < b] on numbers, as a boolean. *)
Definition Qlt_bool (a b : Q) : bool := negb (Qle_bool b a).

(** [min(a, b)]: the first argument is kept unless the second is
    strictly smaller. *)
Definition min (a b : Q) : Q := if Qlt_bool b a then b else a.

(** [max(a, b)]: the first argument is kept unless the second is
    strictly greater. *)
Definition max (a b : Q) : Q := if Qlt_bool a b then b else a.

(** [abs(x)]. *)
Definition abs (x : Q) : Q := if Qlt_bool x 0 then - x else x.

(** [max(items, key=lambda x: x[1])] on a non-empty sequence: the first
    item whose key is maximal. *)
Definition max_by_snd {A : Type} (first : A * Q) (rest : list (A * Q)) : A * Q :=
  fold_left (fun best item => if Qlt_bool (snd best) (snd item) then item else best)
            rest first.

(** [max(values)] on a non-empty sequence of numbers. *)
Definition max_list (first : Q) (rest : list Q) : Q :=
  fold_left max rest first.

(** [sum(...)] over integers and over numbers. *)
Definition sumZ (l : list Z) : Z := fold_left Z.add l 0%Z.

(** [d.get(key, dflt)] on a dict. *)
Definition get {V : Type} (d : gmap string V) (key : string) (dflt : V) : V :=
  default dflt (d !! key).

(** The outcome of a Python call: a value, or an exception carrying
    [str(e)]. *)
Inductive pyresult (A : Type) : Type :=
| Return (a : A)
| Raise (e : string).
Arguments Return {A} a.
Arguments Raise {A} e.

(** An f-string, piece by piece. *)
Inductive fpiece : Type :=
| Lit (s : string)          (* literal text, or an interpolated [str] *)
| FInt (z : Z)              (* [{n}] for an [int] *)
| FPct1 (q : Q)             (* [{x:.1%}] *)
| FFix1 (q : Q)             (* [{x:.1f}] *)
| FFix2 (q : Q).            (* [{x:.2f}] *)

Definition fstring : Type := list fpiece.

Definition plain (s : string) : fstring := [Lit s].

End Py.

Import Py.

(** ** config/personality_config.py *)

Module Config.

Local Open Scope Q_scope.

(** The value attached to a rule key: a dict of thresholds, or [True]. *)
Inductive rule_condition : Type :=
| CondDict (d : gmap string Q)
| CondTrue.

Definition cond (k : string) (v : Q) : rule_condition := CondDict {[ k := v ]}.

(** [MOOD_DETECTION_RULES], in declaration order. *)
Definition MOOD_DETECTION_RULES : list (string * list (string * rule_condition)) :=
  [ ("motivated",
      [ ("tasks_completed_today", cond "min" 3);
        ("streak_days", cond "min" 2);
        ("pomodoros_completed_today", cond "min" 4);
        ("recent_activity", cond "hours" 2) ]);
    ("struggling",
      [ ("tasks_overdue", cond "min" 2);
        ("days_since_completion", cond "min" 3);
        ("completion_rate_week", cond "max" 0.3);
        ("inactive_days", cond "min" 2) ]);
    ("focused",
      [ ("avg_pomodoro_duration", cond "min" 20);
        ("consecutive_pomodoros", cond "min" 3);
        ("task_switches_today", cond "max" 2);
        ("current_session_length", cond "min" 40) ]);
    ("overwhelmed",
      [ ("pending_tasks", cond "min" 10);
        ("tasks_created_vs_completed", cond "ratio" 3.0);
        ("priority_high_pending", cond "min" 5);
        ("completion_rate_week", cond "max" 0.4) ]);
    ("celebrating",
      [ ("goals_achieved_week", cond "min" 1);
        ("streak_days", cond "min" 7);
        ("completion_rate_week", cond "min" 0.8);
        ("personal_best", CondTrue) ]);
    ("returning",
      [ ("days_since_last_activity", cond "min" 3);
        ("previous_streak", cond "min" 5);
        ("total_tasks_completed", cond "min" 10);
        ("welcome_back", CondTrue) ]) ].

(** The keys of [MOOD_STATES], in declaration order, and the ["tone"] of
    each state (the only field the engine reads). *)
Definition MOOD_STATES : list (string * string) :=
  [ ("motivated", "casual");
    ("struggling", "supportive");
    ("focused", "direct");
    ("overwhelmed", "calming");
    ("celebrating", "enthusiastic");
    ("returning", "welcoming") ].

(** The keys of [COMMUNICATION_PATTERNS], in declaration order (the engine
    only ever names a pattern, it reads none of its fields). *)
Definition COMMUNICATION_PATTERNS : list string :=
  [ "casual"; "supportive"; "direct"; "calming"; "enthusiastic"; "welcoming" ].

End Config.

Import Config.

(** ** The user context handed to both classifiers

    [DatabaseManager.fetch_user_context] builds this dict.  A field is
    [None] when the key is absent; the readers then fall back to the
    default they pass to [.get]. *)

Record pomodoro : Type := Pomodoro {
  p_status : option string;
  p_duration : option Z;
  p_title : option string
}.

Record user_info_t : Type := UserInfo {
  ui_id : option string
}.

Record user_context : Type := UserContext {
  user_info : option user_info_t;
  tasks_stats : option (gmap string Z);
  recent_activity : option (list (gmap string Z));
  productivity_patterns : option (gmap string Z);
  current_streak : option Z;
  today_pomodoros : option (list pomodoro);
  lumi_memory : option (gmap string Z)
}.

(** [p.get("status") == "completed"] *)
Definition is_completed (p : pomodoro) : bool :=
  bool_decide (p_status p = Some "completed").

(** ** Clock and database *)

(** The fields of a naive [datetime] that the code reads. *)
Definition usec_per_second : Z := 1000000.
Definition usec_per_minute : Z := 60 * usec_per_second.
Definition usec_per_hour : Z := 60 * usec_per_minute.

Definition dt_hour (t : Z) : Z := (t / usec_per_hour) mod 24.
Definition dt_minute (t : Z) : Z := (t / usec_per_minute) mod 60.

(** [timedelta.seconds]: the seconds field of the normalised
    (days, seconds, microseconds) triple, always in [0, 86400). *)
Definition td_seconds (delta : Z) : Z := (delta / usec_per_second) mod 86400.

(** The [lumi_memory] table as the mood detector sees it: one row per
    ["userId"] (the upsert of [update_lumi_memory] is [ON CONFLICT ("userId")]),
    of which the detector reads ["currentMood"] and ["updatedAt"].  The pool
    may be uninitialised and a query may fail. *)
Record lumi_row : Type := LumiRow {
  currentMood : string;
  updatedAt : Z
}.

Record database : Type := Database {
  pool_initialized : bool;
  query_ok : bool;
  lumi_memory_rows : gmap string lumi_row
}.

Record world : Type := World {
  w_now : Z;
  w_db : database
}.

(** Computations that read the clock, use the database and may raise. *)
Definition Eff (A : Type) : Type := world -> pyresult A * world.

Definition ret {A : Type} (a : A) : Eff A := fun w => (Return a, w).

Definition raise {A : Type} (e : string) : Eff A := fun w => (Raise e, w).

Definition bind {A B : Type} (m : Eff A) (k : A -> Eff B) : Eff B :=
  fun w =>
    match m w with
    | (Return a, w') => k a w'
    | (Raise e, w') => (Raise e, w')
    end.

(** [try: m  except Exception as e: h e] *)
Definition try_except {A : Type} (m : Eff A) (h : string -> Eff A) : Eff A :=
  fun w =>
    match m w with
    | (Return a, w') => (Return a, w')
    | (Raise e, w') => h e w'
    end.

Notation "'let*' x ':=' m 'in' k" := (bind m (fun x => k))
  (at level 10, x pattern, m at level 100, k at level 200).

(** [datetime.now()] *)
Definition datetime_now : Eff Z := fun w => (Return (w_now w), w).

(** [async with self.db_manager.get_connection() as conn]: [RuntimeError]
    when the pool was never initialised. *)
Definition get_connection : Eff unit :=
  fun w =>
    if pool_initialized (w_db w) then (Return tt, w)
    else (Raise "Database pool not initialized", w).

(** [await conn.fetch(...)], [conn.fetchrow(...)], [conn.execute(...)]: the
    driver raises when the query fails, otherwise the query runs on the
    table at the current time. *)
Definition run_query {A : Type}
    (query : Z -> gmap string lumi_row -> A * gmap string lumi_row) : Eff A :=
  fun w =>
    if query_ok (w_db w) then
      let '(a, rows) := query (w_now w) (lumi_memory_rows (w_db w)) in
      (Return a, World (w_now w) (Database (pool_initialized (w_db w)) true rows))
    else (Raise "query failed", w).

(** [DatabaseManager.update_lumi_memory], as far as ["currentMood"] and
    ["updatedAt"] go: the upsert runs inside the method's own [try], the
    connection is taken outside it. *)
Definition update_lumi_memory (user_id : string) (current_mood : string) : Eff bool :=
  let* _ := get_connection in
  try_except
    (let* _ := run_query (fun t rows =>
                 (tt, <[ user_id := LumiRow current_mood t ]> rows)) in
     ret true)
    (fun _ => ret false).

(** ** services/mood_detector.py *)

Module MoodDetector.

Local Open Scope Q_scope.
Local Open Scope list_scope.

Record MoodIndicator : Type := mkMoodIndicator {
  indicator_type : string;
  value : Q;
  weight : Q;
  description : fstring
}.

Record MoodTransition : Type := mkMoodTransition {
  from_mood : string;
  to_mood : string;
  timestamp : Z;
  trigger_factors : list string;
  confidence : Q
}.

(** The dict returned by [detect_current_mood]. *)
Record MoodResult : Type := mkMoodResult {
  r_current_mood : string;
  r_confidence : Q;
  r_mood_scores : list (string * Q);
  r_indicators : list MoodIndicator;
  r_transition : option MoodTransition;
  r_insights : list fstring;
  r_recommendations : list string
}.

(** *** Indicator extractor *)

(** The body of [_calculate_mood_indicators] once [datetime.now().hour]
    (line 214) is known as [current_hour]; the rest of the method does
    not touch the clock or the database.  Where the source divides by a
    float (lines 146, 205, 217) an [int] beyond the range of a float makes
    it raise; the function below is total (see [snapshot_in_range]). *)
Definition mood_indicators_at (current_hour : Z) (user_context : user_context)
    : list MoodIndicator :=
  let indicators : list MoodIndicator := [] in
  let tasks_stats := default ∅ (tasks_stats user_context) in
  let recent_activity := default [] (recent_activity user_context) in
  let current_streak := default 0%Z (current_streak user_context) in
  let today_pomodoros := default [] (today_pomodoros user_context) in
  let productivity_patterns := default ∅ (productivity_patterns user_context) in
  (* Task completion indicators *)
  let total_tasks := get tasks_stats "total_tasks" 0%Z in
  let completed_tasks := get tasks_stats "completed_tasks" 0%Z in
  let overdue_tasks := get tasks_stats "overdue_tasks" 0%Z in
  let pending_tasks := get tasks_stats "pending_tasks" 0%Z in
  let indicators :=
    if (0 <? total_tasks)%Z then
      let completion_rate := inject_Z completed_tasks / inject_Z total_tasks in
      indicators ++ [ mkMoodIndicator "completion_rate" completion_rate 0.8
                        [Lit "Taxa de conclusão: "; FPct1 completion_rate] ]
    else indicators in
  (* Overdue tasks indicator *)
  let indicators :=
    if (0 <? overdue_tasks)%Z then
      indicators ++ [ mkMoodIndicator "overdue_tasks" (inject_Z overdue_tasks) 0.9
                        [FInt overdue_tasks; Lit " tarefas em atraso"] ]
    else indicators in
  (* Streak indicator *)
  let indicators :=
    indicators ++ [ mkMoodIndicator "current_streak" (inject_Z current_streak) 0.7
                      [Lit "Sequência de "; FInt current_streak; Lit " dias"] ] in
  (* Daily activity indicator *)
  let today_completed_pomodoros :=
    Z.of_nat (length (filter (fun p => is_completed p = true) today_pomodoros)) in
  let indicators :=
    indicators ++ [ mkMoodIndicator "today_pomodoros"
                      (inject_Z today_completed_pomodoros) 0.6
                      [FInt today_completed_pomodoros; Lit " pomodoros hoje"] ] in
  (* Recent activity trend *)
  let indicators :=
    match recent_activity with
    | day0 :: day1 :: _ =>
        let recent_trend :=
          (get day0 "tasks_completed" 0 - get day1 "tasks_completed" 0)%Z in
        indicators ++ [ mkMoodIndicator "activity_trend" (inject_Z recent_trend) 0.5
                          [Lit "Tendência de atividade: ";
                           Lit (if (0 <=? recent_trend)%Z then "+" else "");
                           FInt recent_trend] ]
    | _ => indicators
    end in
  (* Focus quality indicator *)
  let indicators :=
    match today_pomodoros with
    | [] => indicators
    | _ :: _ =>
        let avg_duration :=
          sumZ (map (fun p => default 0%Z (p_duration p))
                    (filter (fun p => is_completed p = true) today_pomodoros)) in
        if (0 <? today_completed_pomodoros)%Z then
          let avg_duration := inject_Z avg_duration / inject_Z today_completed_pomodoros in
          indicators ++ [ mkMoodIndicator "focus_quality" avg_duration 0.4
                            [Lit "Duração média de foco: "; FFix1 avg_duration; Lit "min"] ]
        else indicators
    end in
  (* Overwhelm indicator *)
  let indicators :=
    if (0 <? pending_tasks)%Z then
      let overwhelm_score := min (inject_Z pending_tasks / 10.0) 1.0 in
      indicators ++ [ mkMoodIndicator "overwhelm_level" overwhelm_score 0.6
                        [Lit "Nível de sobrecarga: "; FPct1 overwhelm_score] ]
    else indicators in
  (* Productivity timing indicator *)
  let peak_hour := productivity_patterns !! "peak_hour" in
  let indicators :=
    match peak_hour with
    | Some peak_hour =>
        if negb (peak_hour =? 0)%Z then     (* [if peak_hour:] *)
          let time_alignment :=
            1.0 - inject_Z (Z.abs (current_hour - peak_hour)) / 12.0 in
          indicators ++ [ mkMoodIndicator "timing_alignment" time_alignment 0.3
                            [Lit "Alinhamento com horário de pico: ";
                             FPct1 time_alignment] ]
        else indicators
    | None => indicators
    end in
  indicators.

Definition _calculate_mood_indicators (user_id : string) (user_context : user_context)
    : Eff (list MoodIndicator) :=
  let* t := datetime_now in
  ret (mood_indicators_at (dt_hour t) user_context).

(** *** Mood scorer *)

(** [{ind.indicator_type: ind.value for ind in indicators}]: a later
    indicator of the same type overwrites an earlier one. *)
Definition indicator_lookup (indicators : list MoodIndicator) : gmap string Q :=
  fold_left (fun d ind => <[ indicator_type ind := value ind ]> d) indicators ∅.

(** [next((ind.weight for ind in indicators if ind.indicator_type == rule_key), 1.0)] *)
Fixpoint first_weight (indicators : list MoodIndicator) (rule_key : string) : Q :=
  match indicators with
  | [] => 1.0
  | ind :: rest =>
      if String.eqb (indicator_type ind) rule_key then weight ind
      else first_weight rest rule_key
  end.

Definition _calculate_motivated_bonus (indicators : gmap string Q) : Q :=
  let bonus := 0.0 in
  let bonus := if Qlt_bool 0.7 (get indicators "completion_rate" 0) then bonus + 0.3 else bonus in
  let bonus := if Qle_bool 3 (get indicators "current_streak" 0) then bonus + 0.2 else bonus in
  let bonus := if Qle_bool 3 (get indicators "today_pomodoros" 0) then bonus + 0.2 else bonus in
  let bonus := if Qlt_bool 0 (get indicators "activity_trend" 0) then bonus + 0.1 else bonus in
  bonus.

Definition _calculate_struggling_bonus (indicators : gmap string Q) : Q :=
  let bonus := 0.0 in
  let bonus := if Qle_bool 2 (get indicators "overdue_tasks" 0) then bonus + 0.4 else bonus in
  let bonus := if Qlt_bool (get indicators "completion_rate" 0) 0.3 then bonus + 0.3 else bonus in
  let bonus := if Qeq_bool (get indicators "current_streak" 0) 0 then bonus + 0.2 else bonus in
  let bonus := if Qeq_bool (get indicators "today_pomodoros" 0) 0 then bonus + 0.2 else bonus in
  bonus.

Definition _calculate_focused_bonus (indicators : gmap string Q) : Q :=
  let bonus := 0.0 in
  let focus_quality := get indicators "focus_quality" 0 in
  let bonus := if Qle_bool 20 focus_quality then bonus + 0.3 else bonus in
  let bonus := if Qle_bool 3 (get indicators "today_pomodoros" 0) then bonus + 0.2 else bonus in
  let timing_alignment := get indicators "timing_alignment" 0 in
  let bonus := if Qlt_bool 0.8 timing_alignment then bonus + 0.2 else bonus in
  bonus.

Definition _calculate_overwhelmed_bonus (indicators : gmap string Q) : Q :=
  let bonus := 0.0 in
  let overwhelm_level := get indicators "overwhelm_level" 0 in
  let bonus := if Qlt_bool 0.7 overwhelm_level then bonus + 0.4 else bonus in
  let bonus := if Qle_bool 3 (get indicators "overdue_tasks" 0) then bonus + 0.3 else bonus in
  let completion_rate := get indicators "completion_rate" 0 in
  let bonus := if Qlt_bool completion_rate 0.4 then bonus + 0.2 else bonus in
  bonus.

Definition _calculate_celebrating_bonus (indicators : gmap string Q) : Q :=
  let bonus := 0.0 in
  let bonus := if Qle_bool 7 (get indicators "current_streak" 0) then bonus + 0.4 else bonus in
  let bonus := if Qle_bool 0.8 (get indicators "completion_rate" 0) then bonus + 0.3 else bonus in
  let bonus := if Qlt_bool 1 (get indicators "activity_trend" 0) then bonus + 0.2 else bonus in
  bonus.

Definition _calculate_returning_bonus (indicators : gmap string Q) : Q :=
  let bonus := 0.0 in
  let bonus := if Qeq_bool (get indicators "current_streak" 0) 0 then bonus + 0.2 else bonus in
  let bonus := if Qeq_bool (get indicators "today_pomodoros" 0) 0 then bonus + 0.1 else bonus in
  bonus.

(** The [if mood == ... elif ...] chain of bonuses (lines 258-269). *)
Definition mood_bonus (mood : string) (indicator_values : gmap string Q) : Q :=
  if String.eqb mood "motivated" then _calculate_motivated_bonus indicator_values
  else if String.eqb mood "struggling" then _calculate_struggling_bonus indicator_values
  else if String.eqb mood "focused" then _calculate_focused_bonus indicator_values
  else if String.eqb mood "overwhelmed" then _calculate_overwhelmed_bonus indicator_values
  else if String.eqb mood "celebrating" then _calculate_celebrating_bonus indicator_values
  else if String.eqb mood "returning" then _calculate_returning_bonus indicator_values
  else 0.

(** One turn of [for rule_key, rule_condition in rules.items()] on the
    pair [(score, total_weight)]. *)
Definition apply_rule (indicators : list MoodIndicator) (indicator_values : gmap string Q)
    (acc : Q * Q) (rule : string * rule_condition) : Q * Q :=
  let '(score, total_weight) := acc in
  let '(rule_key, rule_condition) := rule in
  match indicator_values !! rule_key with
  | Some value =>
      let weight := first_weight indicators rule_key in
      let score :=
        match rule_condition with
        | CondDict d =>
            let score :=
              match d !! "min" with
              | Some lo => if Qle_bool lo value then score + weight else score
              | None => score
              end in
            let score :=
              match d !! "max" with
              | Some hi => if Qle_bool value hi then score + weight else score
              | None => score
              end in
            score                     (* ["ratio"]: [pass] *)
        | CondTrue => score + weight
        end in
      (score, total_weight + weight)
  | None => acc
  end.

(** The body of [for mood, rules in MOOD_DETECTION_RULES.items()]: the
    value stored in [mood_scores[mood]]. *)
Definition mood_score (indicators : list MoodIndicator) (indicator_values : gmap string Q)
    (mood : string) (rules : list (string * rule_condition)) : Q :=
  let '(score, total_weight) :=
    fold_left (apply_rule indicators indicator_values) rules (0.0, 0.0) in
  let score := score + mood_bonus mood indicator_values in
  if Qlt_bool 0 total_weight then score / max total_weight 1.0 else 0.0.

(** [_apply_detection_rules], over any rule table; the dict it returns
    lists the moods in the order of the table. *)
Definition apply_detection_rules_with
    (rule_table : list (string * list (string * rule_condition)))
    (indicators : list MoodIndicator) : list (string * Q) :=
  let indicator_values := indicator_lookup indicators in
  map (fun '(mood, rules) => (mood, mood_score indicators indicator_values mood rules))
      rule_table.

Definition _apply_detection_rules (indicators : list MoodIndicator) : list (string * Q) :=
  apply_detection_rules_with MOOD_DETECTION_RULES indicators.

(** [mood_scores[mood]] *)
Definition score_of (mood_scores : list (string * Q)) (mood : string) : option Q :=
  snd <$> find (fun item => String.eqb (fst item) mood) mood_scores.

Definition _determine_primary_mood (mood_scores : list (string * Q)) : string * Q :=
  match mood_scores with
  | [] => ("encouraging"%string, 0.5)
  | first :: rest =>
      if forallb (fun item => Qeq_bool (snd item) 0) mood_scores then
        ("encouraging"%string, 0.5)
      else
        let '(mood_name, confidence) := max_by_snd first rest in
        if Qlt_bool confidence 0.3 then ("encouraging"%string, confidence)
        else (mood_name, min confidence 1.0)
  end.

(** *** Transition tracker *)

Definition _identify_transition_triggers (from_mood to_mood : string) : list string :=
  let triggers : list string := [] in
  if String.eqb from_mood "motivated" && String.eqb to_mood "overwhelmed" then
    triggers ++ ["Aumento na carga de trabalho"%string]
  else if String.eqb from_mood "struggling" && String.eqb to_mood "motivated" then
    triggers ++ ["Conclusão de tarefas pendentes"%string]
  else if String.eqb from_mood "focused" && String.eqb to_mood "celebrating" then
    triggers ++ ["Atingimento de objetivos"%string]
  else if String.eqb to_mood "returning" then
    triggers ++ ["Retorno após período de inatividade"%string]
  else triggers.

(** [SELECT "currentMood", "updatedAt" FROM lumi_memory WHERE "userId" = $1
    ORDER BY "updatedAt" DESC LIMIT 1] *)
Definition fetch_previous_mood (user_id : string) : Eff (option lumi_row) :=
  run_query (fun _ rows => (rows !! user_id, rows)).

Definition _analyze_mood_transition (user_id current_mood : string)
    : Eff (option MoodTransition) :=
  try_except
    (let* _ := get_connection in
     let* previous_mood_data := fetch_previous_mood user_id in
     match previous_mood_data with
     | Some row =>
         let previous_mood := currentMood row in
         if negb (String.eqb previous_mood current_mood) then
           let trigger_factors := _identify_transition_triggers previous_mood current_mood in
           let* t := datetime_now in
           ret (Some (mkMoodTransition previous_mood current_mood t trigger_factors 0.7))
         else ret None
     | None => ret None
     end)
    (fun _ => ret None).

(** *** Insight and recommendation generator *)

Definition _generate_mood_insights (mood : string) (indicators : list MoodIndicator)
    (transition : option MoodTransition) : list fstring :=
  let insights : list fstring := [] in
  (* Primary mood insights *)
  let insights :=
    if String.eqb mood "motivated" then
      insights ++ [plain "Você está em um excelente momento de produtividade!"]
    else if String.eqb mood "struggling" then
      insights ++ [plain "Detectei alguns desafios em sua rotina"]
    else if String.eqb mood "focused" then
      insights ++ [plain "Seu foco está em alta qualidade"]
    else if String.eqb mood "overwhelmed" then
      insights ++ [plain "Há sinais de sobrecarga em suas atividades"]
    else if String.eqb mood "celebrating" then
      insights ++ [plain "Parabéns pelos resultados conquistados!"]
    else if String.eqb mood "returning" then
      insights ++ [plain "Bem-vindo de volta à sua rotina produtiva"]
    else insights in
  (* Indicator-based insights *)
  let high_weight_indicators :=
    filter (fun ind => Qle_bool 0.7 (weight ind) = true) indicators in
  let insights := insights ++ map description (take 2 high_weight_indicators) in
  (* Transition insights *)
  let insights :=
    match transition with
    | Some transition =>
        insights ++ [ [Lit "Transição de "; Lit (from_mood transition);
                       Lit " para "; Lit (to_mood transition)] ]
    | None => insights
    end in
  insights.

Definition _generate_mood_recommendations (mood : string) (indicators : list MoodIndicator)
    : list string :=
  let recommendations : list string := [] in
  let recommendations :=
    if String.eqb mood "motivated" then
      recommendations ++ [ "Aproveite esse momento para tackle tarefas desafiadoras"%string;
                           "Considere aumentar suas metas diárias"%string ]
    else if String.eqb mood "struggling" then
      recommendations ++ [ "Comece com tarefas pequenas para reconstruir momentum"%string;
                           "Considere reduzir temporariamente suas expectativas"%string ]
    else if String.eqb mood "focused" then
      recommendations ++ [ "Continue no ritmo atual para maximizar a produtividade"%string;
                           "Evite interrupções durante este período de foco"%string ]
    else if String.eqb mood "overwhelmed" then
      recommendations ++ [ "Priorize apenas 3 tarefas mais importantes"%string;
                           "Considere delegar ou adiar tarefas menos críticas"%string ]
    else if String.eqb mood "celebrating" then
      recommendations ++ [ "Defina novas metas desafiadoras"%string;
                           "Compartilhe seus sucessos para manter motivação"%string ]
    else if String.eqb mood "returning" then
      recommendations ++ [ "Comece gradualmente com tarefas simples"%string;
                           "Foque em reestabelecer sua rotina"%string ]
    else recommendations in
  take 3 recommendations.

(** *** Persistence of the new mood *)

Definition _update_mood_history (user_id mood : string) (confidence : Q)
    (indicators : list MoodIndicator) : Eff bool :=
  try_except
    (let* _ := datetime_now in       (* ["timestamp": datetime.now().isoformat()] *)
     let* _ := update_lumi_memory user_id mood in
     ret true)
    (fun _ => ret false).

Definition _get_default_mood_detection : MoodResult :=
  mkMoodResult "encouraging" 0.5 [] [] None
    [plain "Analisando seus padrões..."]
    ["Continue usando o sistema para análises mais precisas"%string].

(** *** The classification *)

Definition detect_current_mood (user_id : string) (user_context : user_context)
    : Eff MoodResult :=
  try_except
    (let* mood_indicators := _calculate_mood_indicators user_id user_context in
     let mood_scores := _apply_detection_rules mood_indicators in
     let '(primary_mood, confidence) := _determine_primary_mood mood_scores in
     let* mood_transition := _analyze_mood_transition user_id primary_mood in
     let insights := _generate_mood_insights primary_mood mood_indicators mood_transition in
     let* _ := _update_mood_history user_id primary_mood confidence mood_indicators in
     ret (mkMoodResult primary_mood confidence mood_scores mood_indicators
            mood_transition insights
            (_generate_mood_recommendations primary_mood mood_indicators)))
    (fun _ => ret _get_default_mood_detection).

(** *** History analyzer *)

(** [analyze_mood_history] calls four methods on [self]:
    [_analyze_mood_patterns], [_identify_mood_triggers],
    [_calculate_mood_stability] and [_generate_pattern_recommendations].
    A method is [None] here when the class does not define it; calling it
    then raises [AttributeError]. *)
Section History.

Variables Patterns Triggers Recs : Type.

Record history_methods : Type := HistoryMethods {
  _analyze_mood_patterns : option (list lumi_row -> pyresult Patterns);
  _identify_mood_triggers : option (string -> Z -> Eff Triggers);
  _calculate_mood_stability : option (list lumi_row -> pyresult Q);
  _generate_pattern_recommendations : option (Patterns -> pyresult Recs)
}.

(** The dict returned by [analyze_mood_history]: [{"error": message}] or
    the five-field report. *)
Inductive history_result : Type :=
| HistoryError (message : string)
| HistoryReport (period_days : Z) (mood_patterns : Patterns) (mood_triggers : Triggers)
                (stability_score : Q) (recommendations : Recs).

Definition insufficient_data : history_result :=
  HistoryError "Insufficient mood history data".

Definition no_attribute (name : string) : string :=
  ("'MoodDetectorService' object has no attribute '" ++ name ++ "'")%string.

(** [self.<name>(arg)] *)
Definition call_method {A B : Type} (name : string) (method : option (A -> Eff B))
    (arg : A) : Eff B :=
  match method with
  | Some f => f arg
  | None => raise (no_attribute name)
  end.

Definition lift {A : Type} (r : pyresult A) : Eff A := fun w => (r, w).

(** [SELECT ... FROM lumi_memory WHERE "userId" = $1
    AND "updatedAt" >= NOW() - INTERVAL $2 ORDER BY "updatedAt" DESC] *)
Definition fetch_mood_history (user_id : string) (days : Z) : Eff (list lumi_row) :=
  run_query (fun t rows =>
    (match rows !! user_id with
     | Some row =>
         if (t - days * 24 * usec_per_hour <=? updatedAt row)%Z then [row] else []
     | None => []
     end, rows)).

(** What [analyze_mood_history] does with the rows it fetched
    (lines 77-95). *)
Definition analyze_fetched_history (self : history_methods) (user_id : string) (days : Z)
    (mood_history : list lumi_row) : Eff history_result :=
  match mood_history with
  | [] => ret insufficient_data
  | _ :: _ =>
      let* mood_patterns :=
        call_method "_analyze_mood_patterns"
          (option_map (fun f x => lift (f x)) (_analyze_mood_patterns self))
          mood_history in
      let* mood_triggers :=
        call_method "_identify_mood_triggers"
          (option_map (fun f '(u, d) => f u d) (_identify_mood_triggers self))
          (user_id, days) in
      let* stability_score :=
        call_method "_calculate_mood_stability"
          (option_map (fun f x => lift (f x)) (_calculate_mood_stability self))
          mood_history in
      let* recommendations :=
        call_method "_generate_pattern_recommendations"
          (option_map (fun f x => lift (f x)) (_generate_pattern_recommendations self))
          mood_patterns in
      ret (HistoryReport days mood_patterns mood_triggers stability_score recommendations)
  end.

Definition analyze_mood_history (self : history_methods) (user_id : string) (days : Z)
    : Eff history_result :=
  try_except
    (let* _ := get_connection in
     let* mood_history := fetch_mood_history user_id days in
     analyze_fetched_history self user_id days mood_history)
    (fun e => ret (HistoryError e)).

End History.

Arguments HistoryError {Patterns Triggers Recs} message.
Arguments HistoryReport {Patterns Triggers Recs} _ _ _ _ _.
Arguments insufficient_data {Patterns Triggers Recs}.
Arguments HistoryMethods {Patterns Triggers Recs} _ _ _ _.
Arguments analyze_fetched_history {Patterns Triggers Recs} self user_id days mood_history.
Arguments analyze_mood_history {Patterns Triggers Recs} self user_id days.

(** [MoodDetectorService] as the source has it: none of the four methods
    is defined in the class (nor inherited: the class has no base). *)
Definition MoodDetectorService : history_methods unit unit unit :=
  HistoryMethods None None None None.

(** *** Mood prediction *)

(** [predict_mood_changes] calls four more methods on [self]:
    [_analyze_mood_risk_factors], [_predict_mood_transitions],
    [_generate_preventive_actions] and [_calculate_overall_risk]; as above,
    a method is [None] when the class does not define it. *)
Section Prediction.

Variables Risks Transitions Actions Level : Type.

Record prediction_methods : Type := PredictionMethods {
  _analyze_mood_risk_factors : option (string -> user_context -> Eff Risks);
  _predict_mood_transitions : option (string -> Risks -> pyresult Transitions);
  _generate_preventive_actions : option (Risks -> Transitions -> pyresult Actions);
  _calculate_overall_risk : option (Risks -> pyresult Level)
}.

(** The dict returned by [predict_mood_changes]. *)
Inductive prediction_result : Type :=
| PredictionError (message : string)
| Prediction (current_mood : string) (risk_factors : Risks)
             (likely_transitions : Transitions) (preventive_actions : Actions)
             (overall_risk_level : Level).

Definition predict_mood_changes (self : prediction_methods) (user_id : string)
    (user_context : user_context) : Eff prediction_result :=
  try_except
    (let* current_mood_data := detect_current_mood user_id user_context in
     let current_mood := r_current_mood current_mood_data in
     let* risk_factors :=
       call_method "_analyze_mood_risk_factors"
         (option_map (fun f '(u, c) => f u c) (_analyze_mood_risk_factors self))
         (user_id, user_context) in
     let* likely_transitions :=
       call_method "_predict_mood_transitions"
         (option_map (fun f '(m, r) => lift (f m r)) (_predict_mood_transitions self))
         (current_mood, risk_factors) in
     let* preventive_actions :=
       call_method "_generate_preventive_actions"
         (option_map (fun f '(r, t) => lift (f r t)) (_generate_preventive_actions self))
         (risk_factors, likely_transitions) in
     let* overall_risk_level :=
       call_method "_calculate_overall_risk"
         (option_map (fun f r => lift (f r)) (_calculate_overall_risk self))
         risk_factors in
     ret (Prediction current_mood risk_factors likely_transitions preventive_actions
            overall_risk_level))
    (fun e => ret (PredictionError e)).

End Prediction.

Arguments PredictionError {Risks Transitions Actions Level} message.
Arguments Prediction {Risks Transitions Actions Level} _ _ _ _ _.
Arguments PredictionMethods {Risks Transitions Actions Level} _ _ _ _.
Arguments predict_mood_changes {Risks Transitions Actions Level} self user_id user_context.

(** The prediction methods of [MoodDetectorService] as the source has it:
    none of the four is defined. *)
Definition MoodDetectorService_prediction : prediction_methods unit unit unit unit :=
  PredictionMethods None None None None.

End MoodDetector.

(** ** core/personality_engine.py *)

Module PersonalityEngine.

Local Open Scope Q_scope.
Local Open Scope list_scope.

(** The dict built by [analyze_user_mood]. *)
Record MoodAnalysis : Type := mkMoodAnalysis {
  detected_mood : string;
  confidence : Q;
  personality_tone : string;
  adaptation_applied : bool;
  contributing_factors : list fstring;
  recommendations : list string;
  mood_scores : list (string * Q)
}.

Record cache_entry : Type := CacheEntry {
  mood_analysis : MoodAnalysis;
  timestamp : Z
}.

(** [self]: the engine's [mood_cache] dict. *)
Record engine : Type := Engine {
  mood_cache : gmap string cache_entry
}.

Definition completed_count (today_pomodoros : list pomodoro) : Z :=
  Z.of_nat (length (filter (fun p => is_completed p = true) today_pomodoros)).

Definition tasks_completed (day : gmap string Z) : Z := get day "tasks_completed" 0%Z.
Definition tasks_created (day : gmap string Z) : Z := get day "tasks_created" 0%Z.

(** [if lumi_memory:] *)
Definition dict_truthy (lumi_memory : option (gmap string Z)) : bool :=
  match lumi_memory with
  | Some d => negb (bool_decide (d = ∅))
  | None => false
  end.

Definition _calculate_motivated_score (tasks_stats : gmap string Z)
    (recent_activity : list (gmap string Z)) (current_streak : Z)
    (today_pomodoros : list pomodoro) : Q :=
  let score := 0.0 in
  (* Recent completions *)
  let today_completions := completed_count today_pomodoros in
  let score := if (3 <=? today_completions)%Z then score + 0.3 else score in
  (* Current streak *)
  let score :=
    if (2 <=? current_streak)%Z
    then score + (0.2 + min (inject_Z current_streak * 0.05) 0.3)
    else score in
  (* Completion rate *)
  let total_tasks := get tasks_stats "total_tasks" 0%Z in
  let completed_tasks := get tasks_stats "completed_tasks" 0%Z in
  let score :=
    if (0 <? total_tasks)%Z then
      let completion_rate := inject_Z completed_tasks / inject_Z total_tasks in
      if Qlt_bool 0.7 completion_rate then score + 0.2 else score
    else score in
  (* Recent activity trend *)
  let score :=
    match recent_activity with
    | day0 :: day1 :: _ =>
        let recent_trend := (tasks_completed day0 - tasks_completed day1)%Z in
        if (0 <? recent_trend)%Z then score + 0.1 else score
    | _ => score
    end in
  min score 1.0.

Definition _calculate_struggling_score (tasks_stats : gmap string Z)
    (recent_activity : list (gmap string Z)) (current_streak : Z)
    (lumi_memory : option (gmap string Z)) : Q :=
  let score := 0.0 in
  (* Overdue tasks *)
  let overdue_tasks := get tasks_stats "overdue_tasks" 0%Z in
  let score :=
    if (2 <=? overdue_tasks)%Z
    then score + (0.3 + min (inject_Z overdue_tasks * 0.1) 0.2)
    else score in
  (* Low completion rate *)
  let total_tasks := get tasks_stats "total_tasks" 0%Z in
  let completed_tasks := get tasks_stats "completed_tasks" 0%Z in
  let score :=
    if (0 <? total_tasks)%Z then
      let completion_rate := inject_Z completed_tasks / inject_Z total_tasks in
      if Qlt_bool completion_rate 0.3 then score + 0.3 else score
    else score in
  (* Broken streak *)
  let score := if (current_streak =? 0)%Z then score + 0.2 else score in
  (* Declining activity *)
  let score :=
    match recent_activity with
    | day0 :: day1 :: day2 :: _ =>
        if (tasks_completed day1 <=? tasks_completed day0)%Z
           && (tasks_completed day2 <=? tasks_completed day1)%Z
        then score + 0.2 else score
    | _ => score
    end in
  min score 1.0.

(** The leading run of completed sessions (the [for ... else: break] loop). *)
Fixpoint consecutive_completed (today_pomodoros : list pomodoro) : Z :=
  match today_pomodoros with
  | p :: rest => if is_completed p then 1 + consecutive_completed rest else 0
  | [] => 0
  end.

(** [current_time] is [datetime.now().hour], read at line 204. *)
Definition _calculate_focused_score (current_time : Z) (today_pomodoros : list pomodoro)
    (productivity_patterns : gmap string Z) (tasks_stats : gmap string Z) : Q :=
  let score := 0.0 in
  (* Long pomodoro sessions *)
  let completed_pomodoros := filter (fun p => is_completed p = true) today_pomodoros in
  let score :=
    match completed_pomodoros with
    | [] => score
    | _ :: _ =>
        let avg_duration :=
          inject_Z (sumZ (map (fun p => default 0%Z (p_duration p)) completed_pomodoros))
          / inject_Z (Z.of_nat (length completed_pomodoros)) in
        if Qle_bool 20 avg_duration then score + 0.3 else score
    end in
  (* Consecutive sessions *)
  let consecutive_count := consecutive_completed today_pomodoros in
  let score := if (3 <=? consecutive_count)%Z then score + 0.2 else score in
  (* Current focus time *)
  let peak_hour := productivity_patterns !! "peak_hour" in
  let score :=
    match peak_hour with
    | Some peak_hour =>
        if negb (peak_hour =? 0)%Z && (Z.abs (current_time - peak_hour) <=? 1)%Z
        then score + 0.2 else score
    | None => score
    end in
  (* Task switching (low switching = high focus) *)
  let titles := remove_dups (map (fun p => default ""%string (p_title p)) today_pomodoros) in
  let score :=
    if (length titles <=? 2)%nat && (3 <=? length today_pomodoros)%nat
    then score + 0.3 else score in
  min score 1.0.

Definition _calculate_overwhelmed_score (tasks_stats : gmap string Z)
    (recent_activity : list (gmap string Z)) (today_pomodoros : list pomodoro) : Q :=
  let score := 0.0 in
  (* Too many pending tasks *)
  let pending_tasks := get tasks_stats "pending_tasks" 0%Z in
  let score :=
    if (10 <=? pending_tasks)%Z then score + 0.4
    else if (5 <=? pending_tasks)%Z then score + 0.2
    else score in
  (* Poor task creation vs completion ratio *)
  let score :=
    match recent_activity with
    | [] => score
    | _ :: _ =>
        let recent_created := sumZ (map tasks_created (take 3 recent_activity)) in
        let recent_completed := sumZ (map tasks_completed (take 3 recent_activity)) in
        if (0 <? recent_created)%Z
           && Qlt_bool (inject_Z recent_completed / inject_Z recent_created) 0.4
        then score + 0.3 else score
    end in
  (* Many high priority pending tasks *)
  let score := if (5 <=? pending_tasks)%Z then score + 0.2 else score in
  (* Many started but not completed pomodoros today *)
  let incomplete_pomodoros :=
    length (filter (fun p => is_completed p = false) today_pomodoros) in
  let score := if (3 <=? incomplete_pomodoros)%nat then score + 0.2 else score in
  min score 1.0.

Definition _calculate_celebrating_score (current_streak : Z) (tasks_stats : gmap string Z)
    (recent_activity : list (gmap string Z)) (lumi_memory : option (gmap string Z)) : Q :=
  let score := 0.0 in
  (* Long streak *)
  let score :=
    if (7 <=? current_streak)%Z
    then score + (0.4 + min (inject_Z (current_streak - 7) * 0.05) 0.2)
    else score in
  (* High completion rate *)
  let total_tasks := get tasks_stats "total_tasks" 0%Z in
  let completed_tasks := get tasks_stats "completed_tasks" 0%Z in
  let score :=
    if (0 <? total_tasks)%Z then
      let completion_rate := inject_Z completed_tasks / inject_Z total_tasks in
      if Qle_bool 0.8 completion_rate then score + 0.3 else score
    else score in
  (* Recent achievement *)
  let score :=
    match recent_activity with
    | day0 :: ((_ :: _) as others) =>
        let today_completed := tasks_completed day0 in
        let avg_completion :=
          inject_Z (sumZ (map tasks_completed others))
          / inject_Z (Z.of_nat (length recent_activity) - 1) in
        if Qlt_bool (avg_completion * 1.5) (inject_Z today_completed)
        then score + 0.3 else score
    | _ => score
    end in
  min score 1.0.

Definition _calculate_returning_score (recent_activity : list (gmap string Z))
    (lumi_memory : option (gmap string Z)) (current_streak : Z) : Q :=
  let score := 0.0 in
  (* Days since last activity *)
  let score :=
    if (length recent_activity =? 0)%nat then score + 0.5
    else if (length recent_activity <? 3)%nat then score + 0.3
    else score in
  (* Previous streak was good but broken *)
  let interaction_count := get (default ∅ lumi_memory) "interaction_count" 0%Z in
  let score :=
    if (current_streak =? 0)%Z && dict_truthy lumi_memory then
      if (10 <? interaction_count)%Z then score + 0.3 else score
    else score in
  (* User has history but low recent activity *)
  let total_tasks :=
    match recent_activity with
    | [] => 0%Z
    | _ :: _ => sumZ (map tasks_completed recent_activity)
    end in
  let score :=
    if dict_truthy lumi_memory && (5 <? interaction_count)%Z && (total_tasks <? 3)%Z
    then score + 0.2 else score in
  min score 1.0.

(** The six raw scores, in the key order of [MOOD_STATES]. *)
Definition raw_mood_scores (current_time : Z) (user_context : user_context)
    : list (string * Q) :=
  let tasks_stats := default ∅ (tasks_stats user_context) in
  let recent_activity := default [] (recent_activity user_context) in
  let productivity_patterns := default ∅ (productivity_patterns user_context) in
  let current_streak := default 0%Z (current_streak user_context) in
  let today_pomodoros := default [] (today_pomodoros user_context) in
  let lumi_memory := lumi_memory user_context in
  [ ("motivated"%string,
      _calculate_motivated_score tasks_stats recent_activity current_streak today_pomodoros);
    ("struggling"%string,
      _calculate_struggling_score tasks_stats recent_activity current_streak lumi_memory);
    ("focused"%string,
      _calculate_focused_score current_time today_pomodoros productivity_patterns tasks_stats);
    ("overwhelmed"%string,
      _calculate_overwhelmed_score tasks_stats recent_activity today_pomodoros);
    ("celebrating"%string,
      _calculate_celebrating_score current_streak tasks_stats recent_activity lumi_memory);
    ("returning"%string,
      _calculate_returning_score recent_activity lumi_memory current_streak) ].

(** Lines 113-118: divide every score by the largest one when that is
    positive. *)
Definition normalize_scores (mood_scores : list (string * Q)) : list (string * Q) :=
  let max_score :=
    match map snd mood_scores with
    | [] => 1.0
    | first :: rest => max_list first rest
    end in
  if Qlt_bool 0 max_score
  then map (fun '(mood, score) => (mood, score / max_score)) mood_scores
  else mood_scores.

Definition _calculate_mood_scores (user_context : user_context) : Eff (list (string * Q)) :=
  let* t := datetime_now in
  ret (normalize_scores (raw_mood_scores (dt_hour t) user_context)).

(** [MOOD_STATES.get(mood, MOOD_STATES["motivated"])["tone"]], then the
    confidence gate. *)
Definition _get_personality_tone (mood : string) (confidence : Q) : string :=
  let base_tone :=
    match find (fun item => String.eqb (fst item) mood) MOOD_STATES with
    | Some (_, tone) => tone
    | None => "casual"%string
    end in
  if Qlt_bool confidence 0.5 then "supportive"%string else base_tone.

Definition _get_contributing_factors (mood : string) (user_context : user_context)
    : list fstring :=
  let factors : list fstring := [] in
  let tasks_stats := default ∅ (tasks_stats user_context) in
  let current_streak := default 0%Z (current_streak user_context) in
  let today_pomodoros := default [] (today_pomodoros user_context) in
  let factors :=
    if String.eqb mood "motivated" then
      let factors :=
        if (2 <=? current_streak)%Z
        then factors ++ [ [Lit "Sequência de "; FInt current_streak; Lit " dias ativa"] ]
        else factors in
      if (3 <=? length today_pomodoros)%nat
      then factors ++ [ plain "Múltiplos pomodoros completados hoje" ]
      else factors
    else if String.eqb mood "struggling" then
      let overdue := get tasks_stats "overdue_tasks" 0%Z in
      let factors :=
        if (0 <? overdue)%Z
        then factors ++ [ [FInt overdue; Lit " tarefas em atraso"] ]
        else factors in
      if (current_streak =? 0)%Z
      then factors ++ [ plain "Sequência interrompida" ]
      else factors
    else if String.eqb mood "focused" then
      match today_pomodoros with
      | [] => factors
      | _ :: _ => factors ++ [ plain "Sessões de foco consistentes hoje" ]
      end
    else if String.eqb mood "overwhelmed" then
      let pending := get tasks_stats "pending_tasks" 0%Z in
      if (5 <=? pending)%Z
      then factors ++ [ [FInt pending; Lit " tarefas pendentes"] ]
      else factors
    else if String.eqb mood "celebrating" then
      if (7 <=? current_streak)%Z
      then factors ++ [ [Lit "Sequência impressionante de "; FInt current_streak; Lit " dias"] ]
      else factors
    else factors in
  take 3 factors.

Definition _get_mood_recommendations (mood : string) (user_context : user_context)
    : list string :=
  let recommendations : list string := [] in
  let recommendations :=
    if String.eqb mood "motivated" then
      recommendations ++ [ "Aproveite essa energia para tacklear tarefas desafiadoras"%string;
                           "Considere aumentar sua meta diária"%string ]
    else if String.eqb mood "struggling" then
      recommendations ++ [ "Comece com tarefas pequenas e fáceis"%string;
                           "Considere reduzir o escopo das tarefas grandes"%string ]
    else if String.eqb mood "focused" then
      recommendations ++ [ "Continue no seu ritmo atual"%string;
                           "Evite distrações durante esse período produtivo"%string ]
    else if String.eqb mood "overwhelmed" then
      recommendations ++ [ "Priorize apenas 3 tarefas para hoje"%string;
                           "Divida tarefas grandes em partes menores"%string ]
    else if String.eqb mood "celebrating" then
      recommendations ++ [ "Defina a próxima meta desafiadora"%string;
                           "Compartilhe seu sucesso para manter a motivação"%string ]
    else if String.eqb mood "returning" then
      recommendations ++ [ "Comece devagar com tarefas simples"%string;
                           "Reestabeleça uma rotina consistente"%string ]
    else recommendations in
  take 2 recommendations.

Definition _get_default_mood : MoodAnalysis :=
  mkMoodAnalysis "neutral" 0.5 "friendly" false
    [plain "Análise inicial"]
    ["Continue usando o sistema para análises mais precisas"%string]
    [].

(** [strftime('%H_%M')] *)
Definition two_digits (n : Z) : string :=
  String (Ascii.ascii_of_nat (48 + Z.to_nat (n / 10)))
    (String (Ascii.ascii_of_nat (48 + Z.to_nat (n mod 10))) EmptyString).

Definition strftime_H_M (t : Z) : string :=
  (two_digits (dt_hour t) ++ "_" ++ two_digits (dt_minute t))%string.

(** [f"{user_id}_{datetime.now().strftime('%H_%M')}"] *)
Definition make_cache_key (user_id : string) (t : Z) : string :=
  (user_id ++ "_" ++ strftime_H_M t)%string.

(** Lines 34-37: the cached analysis, when the key is present and the
    age test passes. *)
Definition cache_lookup (self : engine) (cache_key : string) : Eff (option MoodAnalysis) :=
  match mood_cache self !! cache_key with
  | Some cached_result =>
      let* t := datetime_now in
      if (td_seconds (t - timestamp cached_result) <? 1800)%Z
      then ret (Some (mood_analysis cached_result))
      else ret None
  | None => ret None
  end.

(** Lines 42-61: the analysis built from the (non-empty) score dict. *)
Definition build_analysis (user_context : user_context)
    (first : string * Q) (rest : list (string * Q)) : MoodAnalysis :=
  let mood_scores := first :: rest in
  let '(mood_name, confidence) := max_by_snd first rest in
  let personality_tone := _get_personality_tone mood_name confidence in
  let contributing_factors := _get_contributing_factors mood_name user_context in
  let recommendations := _get_mood_recommendations mood_name user_context in
  mkMoodAnalysis mood_name confidence personality_tone true
    contributing_factors recommendations mood_scores.

(** Lines 39-71: the analysis computed afresh and stored under
    [cache_key]. *)
Definition compute_and_store (self : engine) (cache_key : string)
    (user_context : user_context) : Eff (MoodAnalysis * engine) :=
  let* mood_scores := _calculate_mood_scores user_context in
  match mood_scores with
  | [] => raise "max() arg is an empty sequence"
  | first :: rest =>
      let mood_analysis := build_analysis user_context first rest in
      let* t := datetime_now in
      ret (mood_analysis,
           Engine (<[ cache_key := CacheEntry mood_analysis t ]> (mood_cache self)))
  end.

Definition analyze_user_mood (self : engine) (user_context : user_context)
    : Eff (MoodAnalysis * engine) :=
  try_except
    (let user_id := user_info user_context ≫= ui_id in
     match user_id with
     | None | Some EmptyString => ret (_get_default_mood, self)
     | Some user_id =>
         (* Check cache first (valid for 30 minutes) *)
         let* t := datetime_now in
         let cache_key := make_cache_key user_id t in
         let* cached := cache_lookup self cache_key in
         match cached with
         | Some mood_analysis => ret (mood_analysis, self)
         | None => compute_and_store self cache_key user_context
         end
     end)
    (fun _ => ret (_get_default_mood, self)).

End PersonalityEngine.


(** ** config/ai_config.py and core/ai_engine.py *)

Module AIEngine.

Import PersonalityEngine.

Local Open Scope Q_scope.
Local Open Scope list_scope.

(** [RATE_LIMIT_CONFIG["requests_per_minute"]] and
    [RATE_LIMIT_CONFIG["requests_per_hour"]]. *)
Definition requests_per_minute : nat := 60.
Definition requests_per_hour : nat := 1000.

(** [time.time()]: the clock of the world, in seconds. *)
Definition time_time : Eff Q := fun w => (Return (inject_Z (w_now w) / 1000000), w).

(** [_check_rate_limit] at clock reading [now]: the verdict, and
    [self.request_history] as the method leaves it. *)
Definition _check_rate_limit (now : Q) (request_history : list Q) : bool * list Q :=
  (* Remove old requests (older than 1 hour) *)
  let request_history :=
    filter (fun req_time => Qlt_bool (now - req_time) 3600 = true) request_history in
  (* Check minute limit *)
  let recent_requests :=
    filter (fun req_time => Qlt_bool (now - req_time) 60 = true) request_history in
  if (requests_per_minute <=? length recent_requests)%nat then (false, request_history)
  (* Check hour limit *)
  else if (requests_per_hour <=? length request_history)%nat then (false, request_history)
  else (true, request_history).

(** [self] of [AIEngine], as far as [generate_response] changes it. *)
Record ai_engine : Type := AiEngine {
  personality_engine : engine;
  request_history : list Q
}.

(** [emotional_context] of an [AIResponse]: [{"rate_limited": True}],
    [{"error": str(e)}] or the personality profile. *)
Inductive emotional_context_t : Type :=
| RateLimited
| ErrorContext (e : string)
| Profile (personality_profile : MoodAnalysis).

Section Generation.

(** [Processed] is the dict of [_process_ai_response] (content, actions,
    insights, suggestions).  [generate] stands for lines 184-187, the prompt
    built by [_build_context_prompt] and sent by [_generate_with_retry];
    either may raise. *)
Variable Processed : Type.
Variable generate : user_context -> string -> MoodAnalysis -> pyresult string.
Variable _process_ai_response : string -> MoodAnalysis -> user_context -> pyresult Processed.

(** [AIResponse]; [content] is the fixed apology ([inl]) or what
    [_process_ai_response] made of the model's answer ([inr], with its
    actions, insights and suggestions).  [processing_time] is left out. *)
Record AIResponse : Type := mkAIResponse {
  content : string + Processed;
  mood : string;
  personality_tone : string;
  emotional_context : emotional_context_t
}.

Definition rate_limited_response : AIResponse :=
  mkAIResponse (inl "Desculpe, muitas solicitações. Tente novamente em alguns minutos! 😅")
    "neutral" "apologetic" RateLimited.

Definition error_response (e : string) : AIResponse :=
  mkAIResponse (inl "Ops! Tive um probleminha técnico. Pode tentar novamente? 🤖")
    "neutral" "apologetic" (ErrorContext e).

(** [generate_response]: the response and [self] afterwards.  The changes
    made to [self] before an exception stay when the handler runs. *)
Definition generate_response (self : ai_engine) (user_context : user_context)
    (user_message : string) : Eff (AIResponse * ai_engine) :=
  let* now := time_time in
  let '(allowed, history) := _check_rate_limit now (request_history self) in
  if negb allowed then
    ret (rate_limited_response, AiEngine (personality_engine self) history)
  else
    let* analysed :=
      try_except
        (let* r := analyze_user_mood (personality_engine self) user_context in ret (inr r))
        (fun e => ret (inl e)) in
    match analysed with
    | inl e => ret (error_response e, AiEngine (personality_engine self) history)
    | inr (personality_profile, engine') =>
        match generate user_context user_message personality_profile with
        | Raise e => ret (error_response e, AiEngine engine' history)
        | Return response =>
            (* Record request time *)
            let* t := time_time in
            let history := history ++ [t] in
            match _process_ai_response response personality_profile user_context with
            | Raise e => ret (error_response e, AiEngine engine' history)
            | Return processed_response =>
                ret (mkAIResponse (inr processed_response)
                       (detected_mood personality_profile)
                       (PersonalityEngine.personality_tone personality_profile)
                       (Profile personality_profile),
                     AiEngine engine' history)
            end
        end
    end.

End Generation.

Arguments mkAIResponse {Processed} _ _ _ _.
Arguments content {Processed} _.
Arguments mood {Processed} _.
Arguments personality_tone {Processed} _.
Arguments emotional_context {Processed} _.
Arguments rate_limited_response {Processed}.
Arguments error_response {Processed} e.
Arguments generate_response {Processed} generate _process_ai_response self user_context
  user_message.

End AIEngine.


(** ** api/analytics_handler.py *)

Module AnalyticsHandler.

Import MoodDetector.

Local Open Scope Q_scope.
Local Open Scope list_scope.

(** What a route handler hands back to the framework: the response body,
    or the [HTTPException] it raised. *)
Inductive http (A : Type) : Type :=
| Response (body : A)
| HTTPException (status_code : Z) (detail : string).
Arguments Response {A} body.
Arguments HTTPException {A} status_code detail.

Section MoodHistory.

Variables Patterns Triggers Recs : Type.

Record MoodHistoryResponse : Type := mkMoodHistoryResponse {
  period_days : Z;
  mood_patterns : Patterns;
  mood_triggers : Triggers;
  stability_score : Q;
  recommendations : Recs
}.

(** [GET /user/{user_id}/mood-history]; [mood_detector] is the service
    object, given by the methods it defines. *)
Definition get_mood_history (mood_detector : history_methods Patterns Triggers Recs)
    (user_id : string) (days : Z) : Eff (http MoodHistoryResponse) :=
  try_except
    (let* mood_history := analyze_mood_history mood_detector user_id days in
     match mood_history with
     | HistoryError message => ret (HTTPException 404 message)
     | HistoryReport period patterns triggers stability recs =>
         ret (Response (mkMoodHistoryResponse period patterns triggers stability recs))
     end)
    (fun _ => ret (HTTPException 500 "Erro ao obter histórico de humor")).

End MoodHistory.

Arguments mkMoodHistoryResponse {Patterns Triggers Recs} _ _ _ _ _.
Arguments get_mood_history {Patterns Triggers Recs} mood_detector user_id days.

(** The dict returned by [get_user_summary]. *)
Record UserSummary : Type := mkUserSummary {
  s_user_info : option user_info_t;
  s_current_mood : string;
  s_mood_confidence : Q;
  s_pomodoros_completed : nat;
  s_tasks_pending : Z;
  s_tasks_completed : Z;
  s_streak_days : Z;
  s_quick_insights : list fstring;
  s_recommendations : list string
}.

(** [GET /user/{user_id}/summary].  [fetched] is the outcome of
    [db_manager.fetch_user_context(user_id)]: an exception, the dict
    [{"error": message}] ([inl]), or the user context ([inr]). *)
Definition get_user_summary (fetched : pyresult (string + user_context)) (user_id : string)
    : Eff (http UserSummary) :=
  try_except
    (let* user_context := lift fetched in
     match user_context with
     | inl _ => ret (HTTPException 404 "Usuário não encontrado")
     | inr user_context =>
         let* mood_analysis := detect_current_mood user_id user_context in
         let tasks_stats := default ∅ (tasks_stats user_context) in
         let current_streak := default 0%Z (current_streak user_context) in
         let today_pomodoros := length (default [] (today_pomodoros user_context)) in
         ret (Response
                (mkUserSummary (user_info user_context)
                   (r_current_mood mood_analysis)
                   (r_confidence mood_analysis)
                   today_pomodoros
                   (get tasks_stats "pending_tasks" 0%Z)
                   (get tasks_stats "completed_tasks" 0%Z)
                   current_streak
                   (take 2 (r_insights mood_analysis))
                   (take 2 (r_recommendations mood_analysis))))
     end)
    (fun _ => ret (HTTPException 500 "Erro ao obter resumo")).

(** [GET /user/{user_id}/insights], lines 104-120: the predictive insights,
    read off the dict of [predict_mood_changes], whose risk level and risk
    factors the handler takes to be a string and a list of strings. *)
Definition predictive_insights {Transitions Actions : Type}
    (mood_detector : prediction_methods (list string) Transitions Actions string)
    (user_id : string) (user_context : user_context) (include_predictions : bool)
    : Eff (list string) :=
  let predictive_insights : list string := [] in
  if include_predictions then
    let* predictions := predict_mood_changes mood_detector user_id user_context in
    let risk_level :=
      match predictions with
      | Prediction _ _ _ _ overall_risk_level => overall_risk_level
      | PredictionError _ => "low"%string
      end in
    let predictive_insights :=
      if String.eqb risk_level "high" then
        predictive_insights
          ++ ["Alto risco de queda na produtividade nos próximos dias"%string]
      else if String.eqb risk_level "medium" then
        predictive_insights ++ ["Monitore sua energia para manter o ritmo atual"%string]
      else
        predictive_insights
          ++ ["Tendência positiva de manutenção da produtividade"%string] in
    (* Add specific predictions *)
    let risk_factors :=
      match predictions with
      | Prediction _ risk_factors _ _ _ => risk_factors
      | PredictionError _ => []
      end in
    match risk_factors with
    | [] => ret predictive_insights
    | _ :: _ => ret (predictive_insights ++ take 2 risk_factors)
    end
  else ret predictive_insights.

End AnalyticsHandler.


(** * Vocabulary of the statements *)

Import MoodDetector.

(** The indicator types that [_calculate_mood_indicators] can emit. *)
Definition indicator_vocabulary : list string :=
  [ "completion_rate"; "overdue_tasks"; "current_streak"; "today_pomodoros";
    "activity_trend"; "focus_quality"; "overwhelm_level"; "timing_alignment" ].

(** Every rule-condition key of every mood of the rule table. *)
Definition rule_keys : list string :=
  concat (map (fun entry => map fst (snd entry)) MOOD_DETECTION_RULES).

Definition mood_names : list string := map fst MOOD_DETECTION_RULES.

(** The score dict in which every mood of the table has score [0.0]. *)
Definition zero_scores : list (string * Q) := map (fun mood => (mood, 0.0%Q)) mood_names.

(** A [tasks_stats] row. *)
Definition task_counts (total completed overdue pending : Z) : gmap string Z :=
  {[ "total_tasks" := total; "completed_tasks" := completed;
     "overdue_tasks" := overdue; "pending_tasks" := pending ]}.

(** The snapshot [{total=8, completed=1, overdue=4, streak=0,
    today_pomodoros=0}] of the struggling scenario. *)
Definition scenario_struggling : user_context :=
  UserContext (Some (UserInfo (Some "user-1")))
              (Some (task_counts 8 1 4 0))
              (Some []) (Some ∅) (Some 0%Z) (Some []) None.

(** A world whose pool is up, whose queries succeed and whose table is
    [rows], at time [t]. *)
Definition healthy_world (t : Z) (rows : gmap string lumi_row) : world :=
  World t (Database true true rows).

(** The value of the [timing_alignment] indicator of a list, if it has one. *)
Definition timing_alignment_of (inds : list MoodIndicator) : option Q :=
  value <$> find (fun ind => String.eqb (indicator_type ind) "timing_alignment") inds.

(** A snapshot with no tasks and no activity whose peak productivity hour
    is [peak]. *)
Definition context_with_peak_hour (peak : Z) : user_context :=
  UserContext (Some (UserInfo (Some "user-1")))
              (Some (task_counts 0 0 0 0))
              (Some []) (Some {[ "peak_hour" := peak ]}) (Some 0%Z) (Some []) None.

(** An indicator whose type is a key of the rule table: it satisfies the
    ["tasks_overdue" >= 2] rule of ["struggling"]. *)
Definition tasks_overdue_indicator : MoodIndicator :=
  mkMoodIndicator "tasks_overdue" 5 0.9 [FInt 5; Lit " tarefas em atraso"].

(** The persisted mood of a user, as a successful read returns it. *)
Definition persisted_mood (w : world) (user_id : string) : option string :=
  currentMood <$> lumi_memory_rows (w_db w) !! user_id.

(** The persistence read fails: no pool, or the query raises. *)
Definition read_fails (w : world) : Prop :=
  pool_initialized (w_db w) = false \/ query_ok (w_db w) = false.

(** The lookup table of known transitions, as the specification words it:
    a [(from, to)] pair (any [from] when [None]) and its trigger. *)
Definition known_transitions : list (option string * string * string) :=
  [ (Some "motivated", "overwhelmed", "Aumento na carga de trabalho");
    (Some "struggling", "motivated", "Conclusão de tarefas pendentes");
    (Some "focused", "celebrating", "Atingimento de objetivos");
    (None, "returning", "Retorno após período de inatividade") ].

Definition transition_matches (from_mood to_mood : string)
    (entry : option string * string * string) : bool :=
  let '(from_pattern, to_pattern, _) := entry in
  match from_pattern with
  | Some f => String.eqb f from_mood
  | None => true
  end && String.eqb to_pattern to_mood.

(** The triggers of a pair: the trigger of the first known transition that
    matches it, none for an unknown pair. *)
Definition lookup_triggers (from_mood to_mood : string) : list string :=
  match find (transition_matches from_mood to_mood) known_transitions with
  | Some (_, _, trigger) => [trigger]
  | None => []
  end.

(** The static templates, keyed by mood: the insight line of each mood and
    its recommendations. *)
Definition insight_template : list (string * fstring) :=
  [ ("motivated", plain "Você está em um excelente momento de produtividade!");
    ("struggling", plain "Detectei alguns desafios em sua rotina");
    ("focused", plain "Seu foco está em alta qualidade");
    ("overwhelmed", plain "Há sinais de sobrecarga em suas atividades");
    ("celebrating", plain "Parabéns pelos resultados conquistados!");
    ("returning", plain "Bem-vindo de volta à sua rotina produtiva") ].

Definition recommendation_template : list (string * list string) :=
  [ ("motivated", [ "Aproveite esse momento para tackle tarefas desafiadoras";
                    "Considere aumentar suas metas diárias" ]);
    ("struggling", [ "Comece com tarefas pequenas para reconstruir momentum";
                     "Considere reduzir temporariamente suas expectativas" ]);
    ("focused", [ "Continue no ritmo atual para maximizar a produtividade";
                  "Evite interrupções durante este período de foco" ]);
    ("overwhelmed", [ "Priorize apenas 3 tarefas mais importantes";
                      "Considere delegar ou adiar tarefas menos críticas" ]);
    ("celebrating", [ "Defina novas metas desafiadoras";
                      "Compartilhe seus sucessos para manter motivação" ]);
    ("returning", [ "Comece gradualmente com tarefas simples";
                    "Foque em reestabelecer sua rotina" ]) ].

(** The entry of a mood in a template table, if it has one. *)
Definition template_of {A : Type} (table : list (string * A)) (mood : string) : option A :=
  snd <$> find (fun entry => String.eqb mood (fst entry)) table.

(** The insight line of a transition. *)
Definition transition_line (transition : MoodTransition) : fstring :=
  [Lit "Transição de "; Lit (from_mood transition); Lit " para "; Lit (to_mood transition)].

#[local] Instance Qle_decision (a b : Q) : Decision (a <= b)%Q :=
  match Qlt_le_dec b a with
  | left Hlt => right (Qlt_not_le _ _ Hlt)
  | right Hle => left Hle
  end.

(** The descriptions injected into the insights: those of the first two
    indicators, in list order, among the ones of weight at least [0.7]. *)
Definition heavy_descriptions (indicators : list MoodIndicator) : list fstring :=
  map description (take 2 (filter (fun ind => (0.7 <= weight ind)%Q) indicators)).

(** The parts an insight list is made of, in their order: the mood's
    static line if the mood has a template, the injected descriptions, and
    the transition line if there is a transition. *)
Definition insight_parts (mood : string) (indicators : list MoodIndicator)
    (transition : option MoodTransition) : list fstring :=
  option_list (template_of insight_template mood)
  ++ heavy_descriptions indicators
  ++ option_list (transition_line <$> transition).

(** Two high-weight indicators and a transition, for the insight
    generator. *)
Definition completion_indicator : MoodIndicator :=
  mkMoodIndicator "completion_rate" 0.9 0.8 [Lit "Taxa de conclusão: "; FPct1 0.9].

Definition streak_indicator : MoodIndicator :=
  mkMoodIndicator "current_streak" 8 0.7 [Lit "Sequência de "; FInt 8; Lit " dias"].

Definition focused_to_motivated : MoodTransition :=
  mkMoodTransition "focused" "motivated" 0 [] 0.7.

(** A third indicator, of the highest weight, placed last in a list. *)
Definition overdue_indicator : MoodIndicator :=
  mkMoodIndicator "overdue_tasks" 4 0.9 [FInt 4; Lit " tarefas em atraso"].

(** A one-row mood history, and a world that holds it. *)
Definition one_sample_world : world :=
  healthy_world 0 {[ "user-1" := LumiRow "encouraging" 0 ]}.

(** Two transitions that agree on everything but their time stamp. *)
Definition same_transition_but_timestamp (a b : option MoodTransition) : Prop :=
  match a, b with
  | Some x, Some y =>
      from_mood x = from_mood y /\ to_mood x = to_mood y
      /\ trigger_factors x = trigger_factors y /\ confidence x = confidence y
  | None, None => True
  | _, _ => False
  end.

(** Two results that agree on every field, the transition up to its time
    stamp. *)
Definition same_result_but_timestamp (a b : MoodResult) : Prop :=
  r_current_mood a = r_current_mood b
  /\ r_confidence a = r_confidence b
  /\ r_mood_scores a = r_mood_scores b
  /\ r_indicators a = r_indicators b
  /\ same_transition_but_timestamp (r_transition a) (r_transition b)
  /\ r_insights a = r_insights b
  /\ r_recommendations a = r_recommendations b.

(** Two runs on the same database, at ten and at eleven o'clock. *)
Definition world_at_10h : world := healthy_world (10 * usec_per_hour) ∅.
Definition world_at_11h : world := healthy_world (11 * usec_per_hour) ∅.

(** [overdue_raised a b]: [b] is the indicator [a], except that the value
    of an ["overdue_tasks"] indicator may have grown. *)
Definition overdue_raised (a b : MoodIndicator) : Prop :=
  indicator_type a = indicator_type b
  /\ weight a = weight b
  /\ if String.eqb (indicator_type a) "overdue_tasks"
     then (value a <= value b)%Q
     else value a = value b.

(** The same relation on the entries of two indicator dicts. *)
Definition entry_raised (a b : option Q) : Prop :=
  match a, b with
  | Some x, Some y => (x <= y)%Q
  | None, None => True
  | _, _ => False
  end.

(** The rules of ["struggling"] in the rule table. *)
Definition struggling_rules : list (string * rule_condition) :=
  [ ("tasks_overdue", cond "min" 2);
    ("days_since_completion", cond "min" 3);
    ("completion_rate_week", cond "max" 0.3);
    ("inactive_days", cond "min" 2) ].

(** The snapshot [ctx] with its overdue count set to [overdue]. *)
Definition with_overdue (ctx : user_context) (overdue : Z) : user_context :=
  UserContext (user_info ctx)
              (Some (<[ "overdue_tasks" := overdue ]> (default ∅ (tasks_stats ctx))))
              (recent_activity ctx) (productivity_patterns ctx) (current_streak ctx)
              (today_pomodoros ctx) (lumi_memory ctx).

(** Two indicator lists that differ in the overdue count, for the
    monotonicity statement. *)
Definition two_overdue : list MoodIndicator :=
  [ mkMoodIndicator "overdue_tasks" 2 0.9 [FInt 2; Lit " tarefas em atraso"];
    mkMoodIndicator "current_streak" 1 0.7 [Lit "Sequência de "; FInt 1; Lit " dias"] ].

Definition five_overdue : list MoodIndicator :=
  [ mkMoodIndicator "overdue_tasks" 5 0.9 [FInt 5; Lit " tarefas em atraso"];
    mkMoodIndicator "current_streak" 1 0.7 [Lit "Sequência de "; FInt 1; Lit " dias"] ].

(** The user a snapshot is about:
    [user_context.get("user_info", {}).get("id")]. *)
Definition user_id_of (ctx : user_context) : option string :=
  user_info ctx ≫= ui_id.

(** The snapshot [{total=10, completed=9, overdue=0, streak=8}] with four
    completed focus sessions today, for the same user. *)
Definition scenario_celebrating : user_context :=
  UserContext (Some (UserInfo (Some "user-1")))
              (Some (task_counts 10 9 0 0))
              (Some []) (Some ∅) (Some 8%Z)
              (Some (replicate 4 (Pomodoro (Some "completed") (Some 25%Z) (Some "report"))))
              None.

(** 10:30:05 on the first day, and 10:30:15 on the next one. *)
Definition first_day_10_30_05 : Z :=
  10 * usec_per_hour + 30 * usec_per_minute + 5 * usec_per_second.

Definition next_day_10_30_15 : Z :=
  24 * usec_per_hour + 10 * usec_per_hour + 30 * usec_per_minute + 15 * usec_per_second.

(** ** The extractor, indicator by indicator

    The eight steps of [_calculate_mood_indicators], each as the list (empty
    or of one indicator) it contributes. *)

Definition completion_rate_part (ctx : user_context) : list MoodIndicator :=
  let total_tasks := get (default ∅ (tasks_stats ctx)) "total_tasks" 0%Z in
  let completed_tasks := get (default ∅ (tasks_stats ctx)) "completed_tasks" 0%Z in
  if (0 <? total_tasks)%Z then
    let completion_rate := (inject_Z completed_tasks / inject_Z total_tasks)%Q in
    [ mkMoodIndicator "completion_rate" completion_rate 0.8
        [Lit "Taxa de conclusão: "; FPct1 completion_rate] ]
  else [].

Definition overdue_tasks_part (ctx : user_context) : list MoodIndicator :=
  let overdue_tasks := get (default ∅ (tasks_stats ctx)) "overdue_tasks" 0%Z in
  if (0 <? overdue_tasks)%Z then
    [ mkMoodIndicator "overdue_tasks" (inject_Z overdue_tasks) 0.9
        [FInt overdue_tasks; Lit " tarefas em atraso"] ]
  else [].

Definition current_streak_part (ctx : user_context) : list MoodIndicator :=
  let current_streak := default 0%Z (current_streak ctx) in
  [ mkMoodIndicator "current_streak" (inject_Z current_streak) 0.7
      [Lit "Sequência de "; FInt current_streak; Lit " dias"] ].

(** [len([p for p in today_pomodoros if p.get("status") == "completed"])] *)
Definition completed_today (ctx : user_context) : Z :=
  Z.of_nat (length (filter (fun p => is_completed p = true)
                           (default [] (today_pomodoros ctx)))).

Definition today_pomodoros_part (ctx : user_context) : list MoodIndicator :=
  [ mkMoodIndicator "today_pomodoros" (inject_Z (completed_today ctx)) 0.6
      [FInt (completed_today ctx); Lit " pomodoros hoje"] ].

Definition activity_trend_part (ctx : user_context) : list MoodIndicator :=
  match default [] (recent_activity ctx) with
  | day0 :: day1 :: _ =>
      let recent_trend := (get day0 "tasks_completed" 0 - get day1 "tasks_completed" 0)%Z in
      [ mkMoodIndicator "activity_trend" (inject_Z recent_trend) 0.5
          [Lit "Tendência de atividade: ";
           Lit (if (0 <=? recent_trend)%Z then "+" else "");
           FInt recent_trend] ]
  | _ => []
  end.

Definition focus_quality_part (ctx : user_context) : list MoodIndicator :=
  let today_pomodoros := default [] (today_pomodoros ctx) in
  match today_pomodoros with
  | [] => []
  | _ :: _ =>
      if (0 <? completed_today ctx)%Z then
        let avg_duration :=
          (inject_Z (sumZ (map (fun p => default 0%Z (p_duration p))
                               (filter (fun p => is_completed p = true) today_pomodoros)))
           / inject_Z (completed_today ctx))%Q in
        [ mkMoodIndicator "focus_quality" avg_duration 0.4
            [Lit "Duração média de foco: "; FFix1 avg_duration; Lit "min"] ]
      else []
  end.

Definition overwhelm_level_part (ctx : user_context) : list MoodIndicator :=
  let pending_tasks := get (default ∅ (tasks_stats ctx)) "pending_tasks" 0%Z in
  if (0 <? pending_tasks)%Z then
    let overwhelm_score := min (inject_Z pending_tasks / 10.0) 1.0 in
    [ mkMoodIndicator "overwhelm_level" overwhelm_score 0.6
        [Lit "Nível de sobrecarga: "; FPct1 overwhelm_score] ]
  else [].

Definition timing_alignment_part (current_hour : Z) (ctx : user_context)
    : list MoodIndicator :=
  match default ∅ (productivity_patterns ctx) !! "peak_hour" with
  | Some peak_hour =>
      if negb (peak_hour =? 0)%Z then
        let time_alignment :=
          (1.0 - inject_Z (Z.abs (current_hour - peak_hour)) / 12.0)%Q in
        [ mkMoodIndicator "timing_alignment" time_alignment 0.3
            [Lit "Alinhamento com horário de pico: "; FPct1 time_alignment] ]
      else []
  | None => []
  end.

(** The indicator of a given type in a list, if any. *)
Definition indicator_of (inds : list MoodIndicator) (type : string) : option MoodIndicator :=
  find (fun ind => String.eqb (indicator_type ind) type) inds.

(** A step of the extractor contributes nothing, or one indicator of type
    [type] and weight [w]. *)
Definition at_most_one (type : string) (w : Q) (part : list MoodIndicator) : Prop :=
  part = [] \/ exists ind, part = [ind] /\ indicator_type ind = type /\ weight ind = w.

(** The range each indicator value is meant to stay in, by type. *)
Definition value_in_range (ind : MoodIndicator) : Prop :=
  (indicator_type ind = "completion_rate" -> (0 <= value ind <= 1)%Q)
  /\ (indicator_type ind = "overdue_tasks" -> (1 <= value ind)%Q)
  /\ (indicator_type ind = "today_pomodoros" -> (0 <= value ind)%Q)
  /\ (indicator_type ind = "overwhelm_level" -> (0 < value ind <= 1)%Q)
  /\ (indicator_type ind = "timing_alignment" -> (- 1 <= value ind <= 1)%Q).

(** A snapshot with every kind of activity, for the statements about the
    extractor. *)
Definition busy_context : user_context :=
  UserContext (Some (UserInfo (Some "user-1")))
              (Some (task_counts 10 4 2 7))
              (Some [ {[ "tasks_completed" := 3%Z ]}; {[ "tasks_completed" := 1%Z ]} ])
              (Some {[ "peak_hour" := 23%Z ]}) (Some 2%Z)
              (Some [ Pomodoro (Some "completed") (Some 25%Z) (Some "report");
                      Pomodoro (Some "interrupted") (Some 10%Z) (Some "mail") ])
              None.

(** An analysis cached 40 seconds short of a day ago, under the key of
    10:30, and the engine that holds it. *)
Definition first_day_10_30_50 : Z :=
  10 * usec_per_hour + 30 * usec_per_minute + 50 * usec_per_second.

Definition next_day_10_30_10 : Z :=
  24 * usec_per_hour + 10 * usec_per_hour + 30 * usec_per_minute + 10 * usec_per_second.

Definition engine_with_old_entry : PersonalityEngine.engine :=
  PersonalityEngine.Engine
    {[ "user-1_10_30" :=
         PersonalityEngine.CacheEntry PersonalityEngine._get_default_mood first_day_10_30_50 ]}.

(** A snapshot that names no user. *)
Definition anonymous_context : user_context :=
  UserContext None (Some (task_counts 3 1 0 2)) (Some []) (Some ∅) (Some 1%Z) (Some []) None.

(** Sixty requests recorded at the same second. *)
Definition sixty_requests : list Q := replicate 60 0%Q.

(** The engine as [AIEngine.__init__] leaves it. *)
Definition fresh_ai_engine : AIEngine.ai_engine :=
  AIEngine.AiEngine (PersonalityEngine.Engine ∅) [].

(** An engine whose cache holds one entry, of another user. *)
Definition engine_of_user_2 : PersonalityEngine.engine :=
  PersonalityEngine.Engine
    {[ PersonalityEngine.make_cache_key "user-2" 0 :=
         PersonalityEngine.CacheEntry PersonalityEngine._get_default_mood 0 ]}.

(** ** The range of a snapshot's integers

    The counts, hours and durations of a snapshot are read from PostgreSQL
    ([COUNT], [EXTRACT], integer columns), so each fits a [bigint].  Both
    classifiers divide or multiply some of them by a float, which in Python
    raises [OverflowError] for an [int] beyond the range of a float; the
    call then ends in the [except] branch of [detect_current_mood] or
    [analyze_user_mood].  The functions of the embedding are total on [Z]
    and do not show that path: a statement that depends on the source not
    taking it is made for a snapshot in range. *)
Definition db_int (n : Z) : Prop := (- 2 ^ 63 <= n < 2 ^ 63)%Z.

Definition row_in_range (row : gmap string Z) : Prop :=
  map_Forall (fun _ n => db_int n) row.

Definition snapshot_in_range (ctx : user_context) : Prop :=
  row_in_range (default ∅ (tasks_stats ctx))
  /\ Forall row_in_range (default [] (recent_activity ctx))
  /\ row_in_range (default ∅ (productivity_patterns ctx))
  /\ db_int (default 0%Z (current_streak ctx))
  /\ Forall (fun p => db_int (default 0%Z (p_duration p))) (default [] (today_pomodoros ctx))
  /\ row_in_range (default ∅ (lumi_memory ctx)).

#[local] Instance db_int_decision (n : Z) : Decision (db_int n).
Proof. unfold db_int. apply _. Defined.

#[local] Instance row_in_range_decision (row : gmap string Z) : Decision (row_in_range row).
Proof. unfold row_in_range. apply _. Defined.

#[local] Instance snapshot_in_range_decision (ctx : user_context) :
  Decision (snapshot_in_range ctx).
Proof. unfold snapshot_in_range. apply _. Defined.

(** * Properties *)

Local Open Scope Q_scope.
Local Open Scope list_scope.

(** ** The extractor never meets the rule table *)

Lemma indicator_lookup_fold_None (inds : list MoodIndicator) (d : gmap string Q) (k : string) :
  fold_left (fun d ind => <[ indicator_type ind := value ind ]> d) inds d !! k = None
  <-> d !! k = None /\ k ∉ map indicator_type inds.
Proof.
  revert d. induction inds as [|ind inds IH]; intros d; simpl.
  - split; [intros H; split; [done | apply not_elem_of_nil] | tauto].
  - rewrite IH, lookup_insert_None, not_elem_of_cons. intuition congruence.
Qed.

Lemma indicator_lookup_None (inds : list MoodIndicator) (k : string) :
  k ∉ map indicator_type inds -> indicator_lookup inds !! k = None.
Proof.
  intros H. unfold indicator_lookup. apply indicator_lookup_fold_None.
  split; [apply lookup_empty | done].
Qed.

Lemma vocabulary_misses_rule_keys : Forall (fun k => k ∉ rule_keys) indicator_vocabulary.
Proof.
  apply (bool_decide_unpack _). vm_compute. reflexivity.
Qed.

Lemma rule_key_not_indicator (k : string) :
  k ∈ rule_keys -> k ∉ indicator_vocabulary.
Proof.
  intros Hk Hv.
  pose proof vocabulary_misses_rule_keys as H.
  rewrite Forall_forall in H. exact (H k Hv Hk).
Qed.

Ltac split_indicators :=
  repeat match goal with
         | |- Forall _ (_ ++ _) => apply Forall_app; split
         | |- Forall _ [] => constructor
         | |- Forall _ (_ :: _) => constructor
         | |- Forall _ (if ?b then _ else _) => destruct b
         | |- Forall _ (match ?x with _ => _ end) => destruct x
         end.

Lemma indicators_in_vocabulary (h : Z) (ctx : user_context) :
  Forall (fun ind => indicator_type ind ∈ indicator_vocabulary) (mood_indicators_at h ctx).
Proof.
  unfold mood_indicators_at. cbv zeta.
  split_indicators; simpl indicator_type; unfold indicator_vocabulary;
    repeat first [ apply list_elem_of_here | apply list_elem_of_further ].
Qed.


Lemma fold_apply_rule_no_match (inds : list MoodIndicator) (iv : gmap string Q)
    (rules : list (string * rule_condition)) (acc : Q * Q) :
  Forall (fun rule => iv !! fst rule = None) rules ->
  fold_left (apply_rule inds iv) rules acc = acc.
Proof.
  intros H. revert acc. induction H as [|[k c] rules Hk _ IH]; intros [s tw]; simpl.
  - reflexivity.
  - simpl in Hk. rewrite Hk. apply IH.
Qed.

Lemma mood_score_no_match (inds : list MoodIndicator) (iv : gmap string Q)
    (mood : string) (rules : list (string * rule_condition)) :
  Forall (fun rule => iv !! fst rule = None) rules ->
  mood_score inds iv mood rules = 0.0.
Proof.
  intros H. unfold mood_score. rewrite (fold_apply_rule_no_match _ _ _ _ H).
  reflexivity.
Qed.

Lemma rule_table_keys :
  Forall (fun entry => Forall (fun rule => fst rule ∈ rule_keys) (snd entry))
         MOOD_DETECTION_RULES.
Proof.
  apply (bool_decide_unpack _). vm_compute. reflexivity.
Qed.

Lemma apply_detection_rules_off_vocabulary (inds : list MoodIndicator) :
  Forall (fun ind => indicator_type ind ∈ indicator_vocabulary) inds ->
  _apply_detection_rules inds = zero_scores.
Proof.
  intros Hv. unfold _apply_detection_rules, apply_detection_rules_with, zero_scores, mood_names.
  rewrite map_map. apply map_ext_Forall.
  eapply Forall_impl; [exact rule_table_keys|].
  intros [mood rules] Hkeys. simpl in *. f_equal.
  apply mood_score_no_match.
  eapply Forall_impl; [exact Hkeys|].
  intros [k c] Hk. simpl in *.
  apply indicator_lookup_None. intros Hin.
  apply list_elem_of_fmap in Hin as [ind [-> Hind]].
  rewrite Forall_forall in Hv.
  exact (rule_key_not_indicator _ Hk (Hv _ Hind)).
Qed.

Lemma analyze_mood_transition_returns (uid cur : string) (w : world) :
  exists tr, _analyze_mood_transition uid cur w = (Return tr, w).
Proof.
  destruct w as [t [pool ok rows]].
  unfold _analyze_mood_transition, try_except, bind, get_connection, fetch_previous_mood,
    run_query, datetime_now, ret; simpl.
  destruct pool; simpl; [|eauto].
  destruct ok; simpl; [|eauto].
  destruct (rows !! uid) as [row|]; simpl; [|eauto].
  destruct (negb (currentMood row =? cur)%string); simpl; eauto.
Qed.

Lemma update_mood_history_returns (uid mood : string) (c : Q) (inds : list MoodIndicator)
    (w : world) :
  exists b w', _update_mood_history uid mood c inds w = (Return b, w')
               /\ w_now w' = w_now w.
Proof.
  destruct w as [t [pool ok rows]].
  unfold _update_mood_history, update_lumi_memory, try_except, bind, get_connection,
    run_query, datetime_now, ret; simpl.
  destruct pool; simpl; [|eauto].
  destruct ok; simpl; eauto.
Qed.

Lemma detect_current_mood_unfold (uid : string) (ctx : user_context) (w : world) :
  let inds := mood_indicators_at (dt_hour (w_now w)) ctx in
  let scores := _apply_detection_rules inds in
  let primary := _determine_primary_mood scores in
  exists tr b w',
    _analyze_mood_transition uid (fst primary) w = (Return tr, w)
    /\ _update_mood_history uid (fst primary) (snd primary) inds w = (Return b, w')
    /\ detect_current_mood uid ctx w
       = (Return (mkMoodResult (fst primary) (snd primary) scores inds tr
                    (_generate_mood_insights (fst primary) inds tr)
                    (_generate_mood_recommendations (fst primary) inds)), w').
Proof.
  intros inds scores primary.
  destruct (analyze_mood_transition_returns uid (fst primary) w) as [tr Htr].
  destruct (update_mood_history_returns uid (fst primary) (snd primary) inds w)
    as (b & w' & Hup & _).
  exists tr, b, w'. split; [exact Htr|]. split; [exact Hup|].
  unfold detect_current_mood, _calculate_mood_indicators, try_except, bind, datetime_now, ret.
  cbv beta iota.
  change (mood_indicators_at (dt_hour (w_now w)) ctx) with inds.
  change (_apply_detection_rules inds) with scores.
  change (_determine_primary_mood scores) with primary.
  clearbody primary. destruct primary as [pm conf]. cbn [fst snd] in *.
  rewrite Htr, Hup. reflexivity.
Qed.

Lemma determine_primary_mood_zero : _determine_primary_mood zero_scores = ("encouraging", 0.5).
Proof. reflexivity. Qed.

(** C2.  For every user context and every world, each indicator that
    [_calculate_mood_indicators] produces has one of the eight extractor
    types, and none of these eight types is a rule-condition key of any mood
    of [MOOD_DETECTION_RULES].  Hence [_apply_detection_rules] gives every
    mood the score [0.0] ([total_weight] stays [0], so the bonus is dropped),
    and [detect_current_mood] returns mood ["encouraging"] with confidence
    [0.5] (whether or not the database answers). *)
Theorem C2_extractor_never_meets_rule_table (uid : string) (ctx : user_context) (w : world) :
  let inds := mood_indicators_at (dt_hour (w_now w)) ctx in
  _calculate_mood_indicators uid ctx w = (Return inds, w)
  /\ Forall (fun ind => indicator_type ind ∈ indicator_vocabulary) inds
  /\ Forall (fun k => k ∉ rule_keys) indicator_vocabulary
  /\ _apply_detection_rules inds = zero_scores
  /\ Forall (fun item => snd item = 0.0) (_apply_detection_rules inds)
  /\ exists r w',
       detect_current_mood uid ctx w = (Return r, w')
       /\ r_current_mood r = "encouraging"
       /\ r_confidence r = 0.5.
Proof.
  intros inds.
  assert (Hv : Forall (fun ind => indicator_type ind ∈ indicator_vocabulary) inds)
    by apply indicators_in_vocabulary.
  assert (Hz : _apply_detection_rules inds = zero_scores)
    by (apply apply_detection_rules_off_vocabulary; exact Hv).
  split; [reflexivity|]. split; [exact Hv|].
  split; [exact vocabulary_misses_rule_keys|]. split; [exact Hz|].
  split.
  - rewrite Hz. unfold zero_scores. apply Forall_fmap, Forall_forall. reflexivity.
  - destruct (detect_current_mood_unfold uid ctx w) as (tr & b & w' & _ & _ & Hd).
    fold inds in Hd. rewrite Hz, determine_primary_mood_zero in Hd.
    eexists _, w'. split; [exact Hd|]. split; reflexivity.
Qed.

(** C1 (what the code does at the scenario).  On the snapshot
    [{total=8, completed=1, overdue=4, streak=0, today_pomodoros=0}], in every
    world, [detect_current_mood] returns mood ["encouraging"] with confidence
    exactly [0.5], a ["struggling"] score of [0.0] and an empty
    recommendations list: not the ["struggling"] classification with
    confidence above [0.5] and recommendations that the scenario expects. *)
Theorem C1_struggling_scenario_yields_encouraging (w : world) :
  exists r w',
    detect_current_mood "user-1" scenario_struggling w = (Return r, w')
    /\ r_current_mood r = "encouraging"
    /\ r_confidence r = 0.5
    /\ score_of (r_mood_scores r) "struggling" = Some 0.0
    /\ r_recommendations r = [].
Proof.
  destruct (detect_current_mood_unfold "user-1" scenario_struggling w)
    as (tr & b & w' & _ & _ & Hd).
  rewrite (apply_detection_rules_off_vocabulary _ (indicators_in_vocabulary _ _)) in Hd.
  rewrite determine_primary_mood_zero in Hd.
  eexists _, w'. split; [exact Hd|]. repeat split; reflexivity.
Qed.

(** ** The timing indicator *)

Lemma timing_alignment_absent (inds : list MoodIndicator) :
  Forall (fun ind => indicator_type ind <> "timing_alignment") inds ->
  timing_alignment_of inds = None.
Proof.
  unfold timing_alignment_of. induction 1 as [|ind inds Hne _ IH]; simpl.
  - reflexivity.
  - apply String.eqb_neq in Hne. rewrite Hne. exact IH.
Qed.

Lemma timing_alignment_last (inds : list MoodIndicator) (ind : MoodIndicator) :
  Forall (fun ind => indicator_type ind <> "timing_alignment") inds ->
  indicator_type ind = "timing_alignment" ->
  timing_alignment_of (inds ++ [ind]) = Some (value ind).
Proof.
  unfold timing_alignment_of. intros H Hty. induction H as [|i inds Hne _ IH]; simpl.
  - rewrite Hty. reflexivity.
  - apply String.eqb_neq in Hne. rewrite Hne. exact IH.
Qed.

Ltac timing_cases :=
  split_indicators; simpl indicator_type; discriminate.

(** C10 (what the code does when the peak hour is 0).  Whenever the
    snapshot's peak productivity hour is known and equal to [0] (midnight),
    [_calculate_mood_indicators] emits no [timing_alignment] indicator, at
    any current hour: the test [if peak_hour:] takes [0] for an unknown
    hour. *)
Theorem C10_peak_hour_midnight_is_dropped (current_hour : Z) (ctx : user_context)
    (patterns : gmap string Z) :
  productivity_patterns ctx = Some patterns ->
  patterns !! "peak_hour" = Some 0%Z ->
  timing_alignment_of (mood_indicators_at current_hour ctx) = None.
Proof.
  intros Hctx Hpeak. apply timing_alignment_absent.
  destruct ctx as [ui ts ra pp cs tp lm]. simpl in Hctx. subst pp.
  unfold mood_indicators_at. cbv zeta.
  cbn [productivity_patterns default from_option id]. rewrite Hpeak. cbn [Z.eqb negb].
  timing_cases.
Qed.

(** The statement at a snapshot whose peak hour is midnight, read at
    midnight. *)
Lemma C10_peak_hour_midnight_witness :
  timing_alignment_of (mood_indicators_at 0 (context_with_peak_hour 0)) = None.
Proof.
  apply (C10_peak_hour_midnight_is_dropped 0 (context_with_peak_hour 0)
           {[ "peak_hour" := 0%Z ]}); reflexivity.
Defined.

(** For a known peak hour other than [0] the indicator is emitted with the
    value [1 - |current_hour - peak_hour| / 12], and for an unknown peak hour
    it is omitted. *)
Lemma timing_alignment_emitted (current_hour peak : Z) (ctx : user_context)
    (patterns : gmap string Z) :
  productivity_patterns ctx = Some patterns ->
  patterns !! "peak_hour" = Some peak ->
  peak <> 0%Z ->
  timing_alignment_of (mood_indicators_at current_hour ctx)
  = Some (1.0 - inject_Z (Z.abs (current_hour - peak)) / 12.0).
Proof.
  intros Hctx Hpeak Hnz. apply Z.eqb_neq in Hnz.
  destruct ctx as [ui ts ra pp cs tp lm]. simpl in Hctx. subst pp.
  unfold mood_indicators_at. cbv zeta.
  cbn [productivity_patterns default from_option id]. rewrite Hpeak, Hnz. cbn [negb].
  match goal with
  | |- timing_alignment_of (_ ++ [?i]) = _ =>
      change (Some (1.0 - inject_Z (Z.abs (current_hour - peak)) / 12.0))
        with (Some (value i))
  end.
  apply timing_alignment_last; [|reflexivity].
  timing_cases.
Qed.

Lemma timing_alignment_omitted (current_hour : Z) (ctx : user_context) :
  default ∅ (productivity_patterns ctx) !! "peak_hour" = None ->
  timing_alignment_of (mood_indicators_at current_hour ctx) = None.
Proof.
  intros Hpeak. apply timing_alignment_absent.
  unfold mood_indicators_at. cbv zeta. rewrite Hpeak.
  timing_cases.
Qed.

(** ** Insights and recommendations *)

Ltac mood_cases mood :=
  repeat match goal with
         | |- context [String.eqb mood ?s] => destruct (String.eqb mood s)
         end.

Lemma filter_heavy (inds : list MoodIndicator) :
  filter (fun ind => Qle_bool 0.7 (weight ind) = true) inds
  = filter (fun ind => 0.7 <= weight ind) inds.
Proof.
  apply list_filter_iff. intros ind. apply Qle_bool_iff.
Qed.

(** C9 (as amended).  For every mood, indicator list and transition, the
    insights are built from three parts, in this order: the static line of
    the mood's template (one line, for a mood that has a template), the
    descriptions of the first two indicators of the list, in list order,
    among those of weight at least [0.7] (there may be one or none), and one
    transition line exactly when a transition is given.  Whenever these
    parts number at most three they are what [_generate_mood_insights]
    returns, and in every case its first three insights are the first three
    parts.  [_generate_mood_recommendations] returns the recommendations of
    the mood's template, none for a mood without one, and so at most three;
    no indicator description goes into them.  Both are total. *)
Theorem C9_insights_and_recommendations_from_templates (mood : string)
    (inds : list MoodIndicator) (transition : option MoodTransition) :
  take 3 (_generate_mood_insights mood inds transition)
  = take 3 (insight_parts mood inds transition)
  /\ ((length (insight_parts mood inds transition) <= 3)%nat ->
      _generate_mood_insights mood inds transition = insight_parts mood inds transition)
  /\ _generate_mood_recommendations mood inds
     = default [] (template_of recommendation_template mood)
  /\ (length (_generate_mood_recommendations mood inds) <= 3)%nat.
Proof.
  assert (Hparts : _generate_mood_insights mood inds transition
                   = insight_parts mood inds transition).
  { unfold _generate_mood_insights, insight_parts, heavy_descriptions, template_of,
      insight_template, transition_line. cbv zeta.
    rewrite filter_heavy. cbn [find fst snd].
    mood_cases mood; destruct transition as [tr|];
      cbn [fmap option_fmap option_map option_list app];
      rewrite <- ?app_assoc, ?app_nil_r; reflexivity. }
  assert (Hrecs : _generate_mood_recommendations mood inds
                  = default [] (template_of recommendation_template mood)).
  { unfold _generate_mood_recommendations, template_of, recommendation_template. cbv zeta.
    cbn [find fst snd]. mood_cases mood; reflexivity. }
  split; [rewrite Hparts; reflexivity|]. split; [intros _; exact Hparts|].
  split; [exact Hrecs|].
  rewrite Hrecs. unfold template_of, recommendation_template. cbn [find fst snd].
  mood_cases mood; simpl; lia.
Qed.

(** The injected descriptions follow the order of the list, not the
    weights: of three indicators of weight [0.7], [0.8] and [0.9], the first
    two are described and the heaviest is not; and where no indicator
    reaches [0.7], none is described. *)
Lemma injected_descriptions_follow_list_order :
  heavy_descriptions [streak_indicator; completion_indicator; overdue_indicator]
  = [description streak_indicator; description completion_indicator]
  /\ heavy_descriptions [mkMoodIndicator "today_pomodoros" 2 0.6 [FInt 2; Lit " pomodoros hoje"]]
     = [].
Proof. split; reflexivity. Qed.

(** C9 (the claim as stated fails).  For the mood ["motivated"], two
    indicators of weight [0.8] and [0.7] and a transition, the insight
    generator returns four insights, more than three. *)
Lemma C9_four_insights :
  (3 < length (_generate_mood_insights "motivated"
                 [completion_indicator; streak_indicator] (Some focused_to_motivated)))%nat.
Proof. unfold _generate_mood_insights. simpl. lia. Qed.

(** ** Transitions *)

Lemma identify_transition_triggers_lookup (from_mood to_mood : string) :
  _identify_transition_triggers from_mood to_mood = lookup_triggers from_mood to_mood.
Proof.
  unfold _identify_transition_triggers, lookup_triggers, known_transitions. cbv zeta.
  cbn [find transition_matches].
  rewrite !(String.eqb_sym _ from_mood), !(String.eqb_sym _ to_mood).
  destruct (String.eqb from_mood "motivated"), (String.eqb to_mood "overwhelmed"),
    (String.eqb from_mood "struggling"), (String.eqb to_mood "motivated"),
    (String.eqb from_mood "focused"), (String.eqb to_mood "celebrating"),
    (String.eqb to_mood "returning"); reflexivity.
Qed.

Lemma analyze_mood_transition_eq (user_id current_mood : string) (t : Z)
    (pool ok : bool) (rows : gmap string lumi_row) :
  _analyze_mood_transition user_id current_mood (World t (Database pool ok rows))
  = (Return
       (if pool && ok then
          match rows !! user_id with
          | Some row =>
              if negb (String.eqb (currentMood row) current_mood) then
                Some (mkMoodTransition (currentMood row) current_mood t
                        (_identify_transition_triggers (currentMood row) current_mood) 0.7)
              else None
          | None => None
          end
        else None),
     World t (Database pool ok rows)).
Proof.
  unfold _analyze_mood_transition, try_except, bind, get_connection, fetch_previous_mood,
    run_query, datetime_now, ret.
  destruct pool, ok; simpl; try reflexivity.
  destruct (rows !! user_id) as [row|]; simpl; [|reflexivity].
  destruct (negb (String.eqb (currentMood row) current_mood)); reflexivity.
Qed.

(** C6.  For every user, new mood and world: the transition is [None] when
    the persistence read fails, when the user has no persisted mood, and
    when the persisted mood equals the new one; otherwise (the read succeeds
    and the persisted mood differs) it is a [MoodTransition] from the
    persisted mood to the new one, stamped with the current time, with
    confidence exactly [0.7] and the triggers that the table of known
    transitions gives for the pair, which is the empty list for a pair the
    table does not know.  The tracker never raises and leaves the world
    unchanged. *)
Theorem C6_transition_tracker (user_id current_mood : string) (w : world) :
  (read_fails w ->
     _analyze_mood_transition user_id current_mood w = (Return None, w))
  /\ (persisted_mood w user_id = None ->
     _analyze_mood_transition user_id current_mood w = (Return None, w))
  /\ (persisted_mood w user_id = Some current_mood ->
     _analyze_mood_transition user_id current_mood w = (Return None, w))
  /\ (forall previous_mood,
     ~ read_fails w ->
     persisted_mood w user_id = Some previous_mood ->
     previous_mood <> current_mood ->
     exists transition,
       _analyze_mood_transition user_id current_mood w = (Return (Some transition), w)
       /\ from_mood transition = previous_mood
       /\ to_mood transition = current_mood
       /\ timestamp transition = w_now w
       /\ confidence transition = 0.7
       /\ trigger_factors transition = lookup_triggers previous_mood current_mood
       /\ (find (transition_matches previous_mood current_mood) known_transitions = None ->
           trigger_factors transition = [])).
Proof.
  destruct w as [t [pool ok rows]].
  rewrite analyze_mood_transition_eq.
  unfold read_fails, persisted_mood.
  cbn [w_db w_now pool_initialized query_ok lumi_memory_rows].
  split; [|split; [|split]].
  - intros [-> | ->]; [reflexivity|]. destruct pool; reflexivity.
  - intros Hrow. destruct (rows !! user_id); [discriminate|].
    destruct (pool && ok); reflexivity.
  - intros Hrow. destruct (rows !! user_id) as [row|]; [|destruct (pool && ok); reflexivity].
    cbn in Hrow. injection Hrow as Hrow. rewrite Hrow, String.eqb_refl.
    destruct (pool && ok); reflexivity.
  - intros previous_mood Hok Hrow Hne.
    destruct pool; [|exfalso; apply Hok; left; reflexivity].
    destruct ok; [|exfalso; apply Hok; right; reflexivity].
    destruct (rows !! user_id) as [row|]; [|discriminate].
    cbn in Hrow. injection Hrow as Hrow.
    apply String.eqb_neq in Hne. rewrite Hrow, Hne. cbn [negb andb].
    eexists. split; [reflexivity|]. cbn [from_mood to_mood timestamp confidence trigger_factors].
    rewrite identify_transition_triggers_lookup.
    repeat split. intros Hfind. unfold lookup_triggers. rewrite Hfind. reflexivity.
Qed.

(** The statement at a user whose persisted mood is ["motivated"] and whose
    new mood is ["overwhelmed"]. *)
Lemma C6_transition_tracker_witness :
  exists transition,
    _analyze_mood_transition "user-1" "overwhelmed"
      (healthy_world 7 {[ "user-1" := LumiRow "motivated" 0 ]})
    = (Return (Some transition),
       healthy_world 7 {[ "user-1" := LumiRow "motivated" 0 ]})
    /\ confidence transition = 0.7
    /\ trigger_factors transition = ["Aumento na carga de trabalho"].
Proof.
  destruct (C6_transition_tracker "user-1" "overwhelmed"
              (healthy_world 7 {[ "user-1" := LumiRow "motivated" 0 ]}))
    as (_ & _ & _ & H).
  destruct (H "motivated") as (tr & Heq & _ & _ & _ & Hc & Ht & _).
  - intros [Hf | Hf]; discriminate Hf.
  - reflexivity.
  - discriminate.
  - exists tr. split; [exact Heq|]. split; [exact Hc|]. exact Ht.
Defined.

(** ** History analysis *)

Lemma try_except_returns {A : Type} (m : Eff A) (handler : string -> A) (w : world) :
  exists a w', try_except m (fun e => ret (handler e)) w = (Return a, w').
Proof.
  unfold try_except, ret. destruct (m w) as [[a|e] w']; eauto.
Qed.

Section HistoryProperties.

Context {Patterns Triggers Recs : Type}.
Variable self : history_methods Patterns Triggers Recs.

(** C8 (as amended).  The history analysis never raises: every outcome is
    a returned dict.  When the read succeeds and the query yields no mood
    sample at all, that dict is the "insufficient data" result
    [{"error": "Insufficient mood history data"}], whatever methods the
    class defines.  (The source has no minimum of five samples: a history
    of one to four samples does not take this branch.) *)
Theorem C8_empty_history_is_insufficient (user_id : string) (days : Z) (w : world) :
  (exists r w', analyze_mood_history self user_id days w = (Return r, w'))
  /\ (~ read_fails w ->
      fst (fetch_mood_history user_id days w) = Return [] ->
      analyze_mood_history self user_id days w = (Return insufficient_data, w)).
Proof.
  split; [apply try_except_returns|].
  destruct w as [t [pool ok rows]]. unfold read_fails. cbn [w_db pool_initialized query_ok].
  intros Hok Hfetch.
  destruct pool; [|exfalso; apply Hok; left; reflexivity].
  destruct ok; [|exfalso; apply Hok; right; reflexivity].
  unfold analyze_mood_history, try_except, bind, get_connection.
  unfold fetch_mood_history, run_query in *.
  cbn [w_db w_now pool_initialized query_ok lumi_memory_rows] in *.
  destruct (rows !! user_id) as [row|]; [|reflexivity].
  destruct (_ <=? _)%Z; [discriminate Hfetch|reflexivity].
Qed.

End HistoryProperties.

(** The statement at a healthy database with no row for the user. *)
Lemma C8_empty_history_witness :
  analyze_mood_history MoodDetectorService "user-1" 30 (healthy_world 0 ∅)
  = (Return insufficient_data, healthy_world 0 ∅).
Proof.
  apply (C8_empty_history_is_insufficient MoodDetectorService "user-1" 30 (healthy_world 0 ∅)).
  - intros [Hf | Hf]; discriminate Hf.
  - reflexivity.
Defined.

(** C8 (the claim as stated fails).  With one persisted sample, fewer than
    five, the analysis does not return the "insufficient data" result: the
    class defines no [_analyze_mood_patterns], the call raises
    [AttributeError], and the handler returns that error's text. *)
Lemma C8_one_sample_is_not_insufficient :
  fst (fetch_mood_history "user-1" 30 one_sample_world) = Return [LumiRow "encouraging" 0]
  /\ fst (analyze_mood_history MoodDetectorService "user-1" 30 one_sample_world)
     = Return (HistoryError
                 "'MoodDetectorService' object has no attribute '_analyze_mood_patterns'")
  /\ fst (analyze_mood_history MoodDetectorService "user-1" 30 one_sample_world)
     <> Return insufficient_data.
Proof.
  assert (H : fst (analyze_mood_history MoodDetectorService "user-1" 30 one_sample_world)
     = Return (HistoryError
                 "'MoodDetectorService' object has no attribute '_analyze_mood_patterns'")).
  { unfold analyze_mood_history, try_except, bind, get_connection, fetch_mood_history,
      run_query, one_sample_world, healthy_world.
    cbn [w_db w_now pool_initialized query_ok lumi_memory_rows].
    rewrite lookup_singleton_eq. reflexivity. }
  split; [|split; [exact H|rewrite H; discriminate]].
  unfold fetch_mood_history, run_query, one_sample_world, healthy_world.
  cbn [w_db w_now pool_initialized query_ok lumi_memory_rows].
  rewrite lookup_singleton_eq. reflexivity.
Qed.

(** Whatever the class defines, a non-empty history is handed to the
    analysis methods: when all four exist and return, the result is the
    report they computed, stability score included. *)
Lemma nonempty_history_is_analysed {Patterns Triggers Recs : Type}
    (patterns : list lumi_row -> Patterns) (triggers : Triggers)
    (stability : list lumi_row -> Q) (recs : Patterns -> Recs)
    (user_id : string) (days : Z) (row : lumi_row) (rest : list lumi_row) (w : world) :
  analyze_fetched_history
    (HistoryMethods (Some (fun h => Return (patterns h)))
                    (Some (fun _ _ => ret triggers))
                    (Some (fun h => Return (stability h)))
                    (Some (fun p => Return (recs p))))
    user_id days (row :: rest) w
  = (Return (HistoryReport days (patterns (row :: rest)) triggers
               (stability (row :: rest)) (recs (patterns (row :: rest)))), w).
Proof. reflexivity. Qed.

(** ** Bounds on scores and confidence *)

Lemma Qlt_bool_true (a b : Q) : Qlt_bool a b = true <-> a < b.
Proof.
  unfold Qlt_bool. rewrite negb_true_iff. split.
  - intros H. apply Qnot_le_lt. intros Hle. apply Qle_bool_iff in Hle. congruence.
  - intros H. destruct (Qle_bool b a) eqn:E; [|reflexivity].
    apply Qle_bool_iff in E. exfalso. exact (Qlt_not_le _ _ H E).
Qed.

Lemma Qlt_bool_false (a b : Q) : Qlt_bool a b = false <-> b <= a.
Proof.
  unfold Qlt_bool. rewrite negb_false_iff. apply Qle_bool_iff.
Qed.

Lemma py_min_spec (a b : Q) : (b < a /\ min a b = b) \/ (a <= b /\ min a b = a).
Proof.
  unfold min. destruct (Qlt_bool b a) eqn:E.
  - left. split; [apply Qlt_bool_true; exact E | reflexivity].
  - right. split; [apply Qlt_bool_false; exact E | reflexivity].
Qed.

Lemma py_max_spec (a b : Q) : (a < b /\ max a b = b) \/ (b <= a /\ max a b = a).
Proof.
  unfold max. destruct (Qlt_bool a b) eqn:E.
  - left. split; [apply Qlt_bool_true; exact E | reflexivity].
  - right. split; [apply Qlt_bool_false; exact E | reflexivity].
Qed.

Lemma first_weight_nonneg (inds : list MoodIndicator) (k : string) :
  Forall (fun ind => 0 <= weight ind) inds -> 0 <= first_weight inds k.
Proof.
  induction 1 as [|ind inds Hw _ IH]; simpl.
  - lra.
  - destruct (String.eqb (indicator_type ind) k); assumption.
Qed.

Lemma apply_rule_nonneg (inds : list MoodIndicator) (iv : gmap string Q)
    (acc : Q * Q) (rule : string * rule_condition) :
  Forall (fun ind => 0 <= weight ind) inds ->
  0 <= fst acc /\ 0 <= snd acc ->
  0 <= fst (apply_rule inds iv acc rule) /\ 0 <= snd (apply_rule inds iv acc rule).
Proof.
  intros Hw [Hs Ht]. destruct acc as [s tw], rule as [k c]. simpl in *.
  pose proof (first_weight_nonneg inds k Hw) as Hk.
  destruct (iv !! k) as [v|]; simpl; [|split; assumption].
  split; [|lra].
  destruct c as [d|]; [|lra].
  destruct (d !! "min") as [lo|]; destruct (d !! "max") as [hi|];
    repeat match goal with |- context [if ?b then _ else _] => destruct b end; lra.
Qed.

Lemma fold_apply_rule_nonneg (inds : list MoodIndicator) (iv : gmap string Q)
    (rules : list (string * rule_condition)) (acc : Q * Q) :
  Forall (fun ind => 0 <= weight ind) inds ->
  0 <= fst acc /\ 0 <= snd acc ->
  0 <= fst (fold_left (apply_rule inds iv) rules acc)
  /\ 0 <= snd (fold_left (apply_rule inds iv) rules acc).
Proof.
  intros Hw. revert acc. induction rules as [|rule rules IH]; intros acc Hacc; simpl.
  - exact Hacc.
  - apply IH, apply_rule_nonneg; assumption.
Qed.

Ltac bonus_cases :=
  cbv zeta;
  repeat match goal with |- context [if ?b then _ else _] => destruct b end; lra.

Lemma mood_bonus_nonneg (mood : string) (iv : gmap string Q) : 0 <= mood_bonus mood iv.
Proof.
  unfold mood_bonus.
  destruct (String.eqb mood "motivated"); [unfold _calculate_motivated_bonus; bonus_cases|].
  destruct (String.eqb mood "struggling"); [unfold _calculate_struggling_bonus; bonus_cases|].
  destruct (String.eqb mood "focused"); [unfold _calculate_focused_bonus; bonus_cases|].
  destruct (String.eqb mood "overwhelmed"); [unfold _calculate_overwhelmed_bonus; bonus_cases|].
  destruct (String.eqb mood "celebrating"); [unfold _calculate_celebrating_bonus; bonus_cases|].
  destruct (String.eqb mood "returning"); [unfold _calculate_returning_bonus; bonus_cases|].
  lra.
Qed.

Lemma mood_score_nonneg (inds : list MoodIndicator) (iv : gmap string Q) (mood : string)
    (rules : list (string * rule_condition)) :
  Forall (fun ind => 0 <= weight ind) inds ->
  0 <= mood_score inds iv mood rules.
Proof.
  intros Hw. unfold mood_score.
  pose proof (fold_apply_rule_nonneg inds iv rules (0.0, 0.0) Hw) as H.
  destruct (fold_left _ rules _) as [s tw]. simpl in H.
  destruct H as [Hs Ht]; [split; lra|].
  pose proof (mood_bonus_nonneg mood iv) as Hb.
  destruct (Qlt_bool 0 tw); [|lra].
  apply Qle_shift_div_l.
  - destruct (py_max_spec tw 1.0) as [[_ ->] | [H1 ->]]; lra.
  - lra.
Qed.

Lemma apply_detection_rules_nonneg (inds : list MoodIndicator) :
  Forall (fun ind => 0 <= weight ind) inds ->
  Forall (fun item => 0 <= snd item) (_apply_detection_rules inds).
Proof.
  intros Hw. unfold _apply_detection_rules, apply_detection_rules_with.
  apply Forall_fmap, Forall_forall. intros [mood rules] _. simpl.
  apply mood_score_nonneg. exact Hw.
Qed.

Lemma max_by_snd_elem {A : Type} (rest : list (A * Q)) (first : A * Q) :
  max_by_snd first rest ∈ first :: rest.
Proof.
  unfold max_by_snd. revert first. induction rest as [|item rest IH]; intros first; simpl.
  - apply list_elem_of_here.
  - destruct (Qlt_bool (snd first) (snd item)).
    + apply list_elem_of_further, IH.
    + specialize (IH first). apply elem_of_cons in IH as [-> | IH].
      * apply list_elem_of_here.
      * do 2 apply list_elem_of_further. exact IH.
Qed.

Lemma determine_primary_mood_bounds (scores : list (string * Q)) :
  Forall (fun item => 0 <= snd item) scores ->
  0 <= snd (_determine_primary_mood scores) <= 1.
Proof.
  intros Hs. unfold _determine_primary_mood.
  destruct scores as [|first rest]; [simpl; lra|].
  destruct (forallb _ _); [simpl; lra|].
  pose proof (max_by_snd_elem rest first) as Hin.
  rewrite Forall_forall in Hs. specialize (Hs _ Hin).
  destruct (max_by_snd first rest) as [mood_name c]. simpl in Hs.
  destruct (Qlt_bool c 0.3) eqn:E; simpl.
  - apply Qlt_bool_true in E. lra.
  - destruct (py_min_spec c 1.0) as [[H1 ->] | [H1 ->]]; lra.
Qed.

(** C4 (as amended).  For every user context and clock hour, every entry
    of [mood_scores] is [0.0] and the confidence is [0.5], so both lie in
    [0, 1].  For every indicator list with non-negative weights fed to the
    scorer, every entry of [mood_scores] is at least [0] and the confidence
    lies in [0, 1]: the confidence is clamped by [min(confidence, 1.0)], the
    scores themselves are not capped. *)
Theorem C4_confidence_bounded_scores_nonnegative (inds : list MoodIndicator)
    (current_hour : Z) (ctx : user_context) :
  Forall (fun ind => 0 <= weight ind) inds ->
  (Forall (fun item => 0 <= snd item) (_apply_detection_rules inds)
   /\ 0 <= snd (_determine_primary_mood (_apply_detection_rules inds)) <= 1)
  /\ (Forall (fun item => 0 <= snd item <= 1)
        (_apply_detection_rules (mood_indicators_at current_hour ctx))
      /\ 0 <= snd (_determine_primary_mood
                     (_apply_detection_rules (mood_indicators_at current_hour ctx))) <= 1).
Proof.
  intros Hw. split.
  - pose proof (apply_detection_rules_nonneg inds Hw) as Hs.
    split; [exact Hs | apply determine_primary_mood_bounds; exact Hs].
  - rewrite (apply_detection_rules_off_vocabulary _ (indicators_in_vocabulary _ _)).
    rewrite determine_primary_mood_zero. split.
    + unfold zero_scores. apply Forall_fmap, Forall_forall. intros mood _. simpl. lra.
    + simpl. lra.
Qed.

(** The statement at the indicator list that drives ["struggling"] above
    [1.0]: the confidence stays within [0, 1]. *)
Lemma C4_confidence_bounded_witness :
  Forall (fun item => 0 <= snd item) (_apply_detection_rules [tasks_overdue_indicator])
  /\ 0 <= snd (_determine_primary_mood (_apply_detection_rules [tasks_overdue_indicator])) <= 1.
Proof.
  apply (C4_confidence_bounded_scores_nonnegative [tasks_overdue_indicator] 0
           scenario_struggling).
  repeat constructor. simpl. lra.
Defined.

(** C4 (the claim as stated fails).  Fed the single indicator
    ["tasks_overdue" = 5] of weight [0.9], the scorer gives ["struggling"]
    the score [(0.9 + 0.3 + 0.2 + 0.2) / max(0.9, 1.0) = 1.6], above [1.0]:
    the bonus is added without a cap. *)
Lemma C4_struggling_score_above_one :
  0 < weight tasks_overdue_indicator <= 1
  /\ exists score,
       score_of (_apply_detection_rules [tasks_overdue_indicator]) "struggling" = Some score
       /\ score == 1.6
       /\ 1 < score.
Proof.
  split; [simpl; lra|].
  eexists. split; [vm_compute; reflexivity|]. split; [reflexivity|reflexivity].
Qed.

(** ** Determinism and the clock *)

(** C3 (as amended).  [detect_current_mood] reads the clock itself (the
    current hour for [timing_alignment], the time stamp of a transition) and
    the persisted previous mood.  Two runs on the same user and snapshot
    that read the same clock hour and the same database return results that
    agree on every field, the transition up to its time stamp; when they
    read the same time the results are equal. *)
Theorem C3_same_hour_same_result (user_id : string) (ctx : user_context) (w1 w2 : world) :
  dt_hour (w_now w1) = dt_hour (w_now w2) ->
  w_db w1 = w_db w2 ->
  exists r1 r2 w1' w2',
    detect_current_mood user_id ctx w1 = (Return r1, w1')
    /\ detect_current_mood user_id ctx w2 = (Return r2, w2')
    /\ same_result_but_timestamp r1 r2
    /\ (w_now w1 = w_now w2 -> r1 = r2).
Proof.
  intros Hhour Hdb.
  destruct (detect_current_mood_unfold user_id ctx w1) as (tr1 & b1 & w1' & Ht1 & _ & Hd1).
  destruct (detect_current_mood_unfold user_id ctx w2) as (tr2 & b2 & w2' & Ht2 & _ & Hd2).
  rewrite <- Hhour in Hd2, Ht2.
  set (inds := mood_indicators_at (dt_hour (w_now w1)) ctx) in *.
  set (primary := _determine_primary_mood (_apply_detection_rules inds)) in *.
  clearbody primary. destruct primary as [pm conf]. cbn [fst snd] in *.
  destruct w1 as [t1 [pool ok rows]], w2 as [t2 d2]. cbn [w_db w_now] in *. subst d2.
  rewrite analyze_mood_transition_eq in Ht1, Ht2.
  injection Ht1 as Ht1. injection Ht2 as Ht2.
  eexists _, _, w1', w2'. split; [exact Hd1|]. split; [exact Hd2|].
  split.
  - unfold same_result_but_timestamp. cbn [r_current_mood r_confidence r_mood_scores
      r_indicators r_transition r_insights r_recommendations].
    subst tr1 tr2.
    destruct (pool && ok); [|repeat split].
    destruct (rows !! user_id) as [row|]; [|repeat split].
    destruct (negb _); repeat split.
  - intros ->. subst tr1 tr2. reflexivity.
Qed.

(** The statement at two runs five minutes apart within the same hour. *)
Lemma C3_same_hour_witness :
  exists r1 r2 w1' w2',
    detect_current_mood "user-1" (context_with_peak_hour 12) world_at_10h = (Return r1, w1')
    /\ detect_current_mood "user-1" (context_with_peak_hour 12)
         (healthy_world (10 * usec_per_hour + 5 * usec_per_minute) ∅) = (Return r2, w2')
    /\ same_result_but_timestamp r1 r2.
Proof.
  destruct (C3_same_hour_same_result "user-1" (context_with_peak_hour 12) world_at_10h
              (healthy_world (10 * usec_per_hour + 5 * usec_per_minute) ∅))
    as (r1 & r2 & w1' & w2' & H1 & H2 & Hsame & _).
  - reflexivity.
  - reflexivity.
  - exists r1, r2, w1', w2'. auto.
Defined.

(** C3 (the claim as stated fails).  The current hour is not an input: the
    extractor reads it from [datetime.now()].  On one and the same snapshot
    (peak hour 12) and database, a run at ten o'clock and a run at eleven
    return different results: the [timing_alignment] indicator is [1 - 2/12]
    in one and [1 - 1/12] in the other.  The sibling scorer
    [PersonalityEngine._calculate_focused_score] reads the clock too. *)
Lemma C3_result_depends_on_clock :
  w_db world_at_10h = w_db world_at_11h
  /\ (exists r1 r2 w1' w2' a1 a2,
        detect_current_mood "user-1" (context_with_peak_hour 12) world_at_10h
          = (Return r1, w1')
        /\ detect_current_mood "user-1" (context_with_peak_hour 12) world_at_11h
          = (Return r2, w2')
        /\ timing_alignment_of (r_indicators r1) = Some a1
        /\ timing_alignment_of (r_indicators r2) = Some a2
        /\ a1 < a2)
  /\ PersonalityEngine._calculate_focused_score 10 [] {[ "peak_hour" := 12%Z ]} ∅
     < PersonalityEngine._calculate_focused_score 11 [] {[ "peak_hour" := 12%Z ]} ∅.
Proof.
  split; [reflexivity|]. split.
  - eexists _, _, _, _, _, _.
    split; [vm_compute; reflexivity|]. split; [vm_compute; reflexivity|].
    split; [vm_compute; reflexivity|]. split; [vm_compute; reflexivity|].
    reflexivity.
  - reflexivity.
Qed.

(** ** Monotonicity in the overdue count *)

Lemma first_weight_raised (inds inds' : list MoodIndicator) (k : string) :
  Forall2 overdue_raised inds inds' -> first_weight inds k = first_weight inds' k.
Proof.
  induction 1 as [|a b inds inds' (Hty & Hw & _) _ IH]; simpl.
  - reflexivity.
  - rewrite <- Hty, <- Hw, IH. reflexivity.
Qed.

Lemma indicator_lookup_raised (inds inds' : list MoodIndicator) :
  Forall2 overdue_raised inds inds' ->
  forall d d' : gmap string Q,
    (forall k, k <> "overdue_tasks" -> d !! k = d' !! k) ->
    entry_raised (d !! "overdue_tasks") (d' !! "overdue_tasks") ->
    let f := fun (d : gmap string Q) ind => <[ indicator_type ind := value ind ]> d in
    (forall k, k <> "overdue_tasks" -> fold_left f inds d !! k = fold_left f inds' d' !! k)
    /\ entry_raised (fold_left f inds d !! "overdue_tasks")
                    (fold_left f inds' d' !! "overdue_tasks").
Proof.
  induction 1 as [|a b inds inds' (Hty & _ & Hval) _ IH]; intros d d' Hother Hover f.
  - split; assumption.
  - subst f. cbn [fold_left]. apply IH.
    + intros k Hk. rewrite <- Hty.
      destruct (decide (indicator_type a = k)) as [Heq|Hne].
      * subst k. rewrite !lookup_insert_eq. apply String.eqb_neq in Hk.
        rewrite Hk in Hval. rewrite Hval. reflexivity.
      * rewrite !lookup_insert_ne by exact Hne. apply Hother. exact Hk.
    + rewrite <- Hty.
      destruct (String.eqb (indicator_type a) "overdue_tasks") eqn:E.
      * apply String.eqb_eq in E. rewrite E, !lookup_insert_eq. exact Hval.
      * apply String.eqb_neq in E. rewrite !lookup_insert_ne by exact E. exact Hover.
Qed.

Lemma apply_rule_raised (inds inds' : list MoodIndicator) (iv iv' : gmap string Q)
    (rules : list (string * rule_condition)) (acc : Q * Q) :
  Forall2 overdue_raised inds inds' ->
  (forall k, k <> "overdue_tasks" -> iv !! k = iv' !! k) ->
  Forall (fun rule => fst rule <> "overdue_tasks") rules ->
  fold_left (apply_rule inds iv) rules acc = fold_left (apply_rule inds' iv') rules acc.
Proof.
  intros Hr Hother Hrules. revert acc.
  induction Hrules as [|[k c] rules Hk _ IH]; intros [s tw]; simpl.
  - reflexivity.
  - simpl in Hk. rewrite <- (Hother k Hk), <- (first_weight_raised _ _ k Hr). apply IH.
Qed.

Lemma struggling_bonus_raised (iv iv' : gmap string Q) :
  (forall k, k <> "overdue_tasks" -> iv !! k = iv' !! k) ->
  entry_raised (iv !! "overdue_tasks") (iv' !! "overdue_tasks") ->
  _calculate_struggling_bonus iv <= _calculate_struggling_bonus iv'.
Proof.
  intros Hother Hover. unfold _calculate_struggling_bonus, get.
  rewrite <- (Hother "completion_rate"), <- (Hother "current_streak"),
    <- (Hother "today_pomodoros") by discriminate.
  assert (Hstep : Qle_bool 2 (default 0 (iv !! "overdue_tasks")) = true ->
                  Qle_bool 2 (default 0 (iv' !! "overdue_tasks")) = true).
  { rewrite !Qle_bool_iff.
    destruct (iv !! "overdue_tasks"), (iv' !! "overdue_tasks"); simpl in *;
      try contradiction; lra. }
  cbv zeta.
  destruct (Qle_bool 2 (default 0 (iv !! "overdue_tasks"))),
    (Qle_bool 2 (default 0 (iv' !! "overdue_tasks")));
    try (specialize (Hstep eq_refl); discriminate Hstep);
    repeat match goal with |- context [if ?b then _ else _] => destruct b end; lra.
Qed.

Lemma Qdiv_le_compat_l (a b c : Q) : 0 < c -> a <= b -> a / c <= b / c.
Proof.
  intros Hc Hab. unfold Qdiv. apply Qmult_le_compat_r; [exact Hab|].
  apply Qinv_le_0_compat. lra.
Qed.

Lemma py_max_one_pos (a : Q) : 0 < max a 1.0.
Proof. destruct (py_max_spec a 1.0) as [[_ ->] | [H ->]]; lra. Qed.

Lemma struggling_score_raised (inds inds' : list MoodIndicator) :
  Forall2 overdue_raised inds inds' ->
  mood_score inds (indicator_lookup inds) "struggling" struggling_rules
  <= mood_score inds' (indicator_lookup inds') "struggling" struggling_rules.
Proof.
  intros Hr.
  destruct (indicator_lookup_raised inds inds' Hr ∅ ∅) as [Hother Hover];
    [reflexivity | rewrite lookup_empty; exact I |].
  fold (indicator_lookup inds) in Hother, Hover.
  fold (indicator_lookup inds') in Hother, Hover.
  unfold mood_score.
  rewrite <- (apply_rule_raised inds inds' _ _ struggling_rules (0.0, 0.0) Hr Hother)
    by (repeat constructor; discriminate).
  destruct (fold_left _ struggling_rules _) as [s tw].
  change (mood_bonus "struggling" ?iv) with (_calculate_struggling_bonus iv).
  pose proof (struggling_bonus_raised _ _ Hother Hover) as Hb.
  destruct (Qlt_bool 0 tw); [|lra].
  apply Qdiv_le_compat_l; [apply py_max_one_pos | lra].
Qed.

Lemma py_min_mono (a b c : Q) : a <= b -> min a c <= min b c.
Proof.
  intros Hab.
  destruct (py_min_spec a c) as [[Ha ->] | [Ha ->]],
           (py_min_spec b c) as [[Hb ->] | [Hb ->]]; lra.
Qed.

Lemma py_min_nonneg (a c : Q) : 0 <= a -> 0 <= c -> 0 <= min a c.
Proof.
  intros Ha Hc. destruct (py_min_spec a c) as [[_ ->] | [_ ->]]; assumption.
Qed.

Lemma inject_Z_le (x y : Z) : (x <= y)%Z -> inject_Z x <= inject_Z y.
Proof. intros H. rewrite <- Zle_Qle. exact H. Qed.

Lemma personality_struggling_score_raised (tasks_stats : gmap string Z)
    (recent_activity : list (gmap string Z)) (current_streak : Z)
    (lumi_memory : option (gmap string Z)) (overdue overdue' : Z) :
  (overdue <= overdue')%Z ->
  PersonalityEngine._calculate_struggling_score
    (<[ "overdue_tasks" := overdue ]> tasks_stats) recent_activity current_streak lumi_memory
  <= PersonalityEngine._calculate_struggling_score
    (<[ "overdue_tasks" := overdue' ]> tasks_stats) recent_activity current_streak lumi_memory.
Proof.
  intros Hle. unfold PersonalityEngine._calculate_struggling_score, get.
  rewrite !lookup_insert_eq, !lookup_insert_ne by discriminate.
  cbn [default from_option id]. cbv zeta.
  set (rate := inject_Z (default 0%Z (tasks_stats !! "completed_tasks"))
               / inject_Z (default 0%Z (tasks_stats !! "total_tasks"))).
  pose proof (inject_Z_le _ _ Hle) as Hq.
  assert (Hm : min (inject_Z overdue * 0.1) 0.2 <= min (inject_Z overdue' * 0.1) 0.2)
    by (apply py_min_mono; lra).
  assert (Hp : (2 <=? overdue')%Z = true -> 0 <= min (inject_Z overdue' * 0.1) 0.2).
  { intros H2. apply Z.leb_le in H2. apply py_min_nonneg; [|lra].
    pose proof (inject_Z_le 2 overdue' H2) as H2q.
    change (inject_Z 2) with (2 # 1) in H2q. lra. }
  apply py_min_mono.
  destruct (2 <=? overdue)%Z eqn:E1, (2 <=? overdue')%Z eqn:E2;
    try (apply Z.leb_le in E1; apply Z.leb_gt in E2; lia);
    try specialize (Hp eq_refl);
    repeat match goal with
           | |- context [if ?b then _ else _] => destruct b
           | |- context [match ?x with _ => _ end] => destruct x
           end; lra.
Qed.

Lemma py_max_ge_l (a b : Q) : a <= max a b.
Proof. destruct (py_max_spec a b) as [[H ->] | [H ->]]; lra. Qed.

Lemma py_max_ge_r (a b : Q) : b <= max a b.
Proof. destruct (py_max_spec a b) as [[H ->] | [H ->]]; lra. Qed.

Lemma fold_max_ge_acc (rest : list Q) (acc : Q) : acc <= fold_left max rest acc.
Proof.
  revert acc. induction rest as [|y rest IH]; intros acc; simpl.
  - lra.
  - pose proof (IH (max acc y)). pose proof (py_max_ge_l acc y). lra.
Qed.

Lemma max_list_ge (rest : list Q) (first x : Q) :
  x ∈ first :: rest -> x <= max_list first rest.
Proof.
  unfold max_list. revert first. induction rest as [|y rest IH]; intros first Hx.
  - apply list_elem_of_singleton in Hx. subst x. simpl. lra.
  - simpl. apply elem_of_cons in Hx as [-> | Hx].
    + pose proof (fold_max_ge_acc rest (max first y)).
      pose proof (py_max_ge_l first y). lra.
    + apply elem_of_cons in Hx as [-> | Hx].
      * pose proof (fold_max_ge_acc rest (max first y)).
        pose proof (py_max_ge_r first y). lra.
      * apply IH. apply list_elem_of_further. exact Hx.
Qed.

Lemma max_list_elem (rest : list Q) (first : Q) : max_list first rest ∈ first :: rest.
Proof.
  unfold max_list. revert first. induction rest as [|y rest IH]; intros first; simpl.
  - apply list_elem_of_here.
  - specialize (IH (max first y)). apply elem_of_cons in IH as [Heq | IH].
    + rewrite Heq. unfold max. destruct (Qlt_bool first y).
      * apply list_elem_of_further, list_elem_of_here.
      * apply list_elem_of_here.
    + do 2 apply list_elem_of_further. exact IH.
Qed.

(** The normalised ["struggling"] score of six raw scores grows with the
    raw ["struggling"] score. *)
Lemma normalized_struggling_raised (m s s' f o c r : Q) :
  0 <= s -> s <= s' ->
  let scores x := [ ("motivated", m); ("struggling", x); ("focused", f);
                    ("overwhelmed", o); ("celebrating", c); ("returning", r) ] in
  exists n n',
    score_of (PersonalityEngine.normalize_scores (scores s)) "struggling" = Some n
    /\ score_of (PersonalityEngine.normalize_scores (scores s')) "struggling" = Some n'
    /\ n <= n'.
Proof.
  intros Hs Hle scores.
  unfold PersonalityEngine.normalize_scores. cbn [scores map snd].
  pose proof (max_list_elem [s; f; o; c; r] m) as HM.
  pose proof (max_list_elem [s'; f; o; c; r] m) as HM'.
  pose proof (max_list_ge [s; f; o; c; r] m) as Hge.
  pose proof (max_list_ge [s'; f; o; c; r] m) as Hge'.
  set (M := max_list m [s; f; o; c; r]) in *.
  set (M' := max_list m [s'; f; o; c; r]) in *.
  clearbody M M'.
  assert (HsM : s <= M) by (apply Hge; apply list_elem_of_further, list_elem_of_here).
  assert (HsM' : s' <= M') by (apply Hge'; apply list_elem_of_further, list_elem_of_here).
  assert (HMM' : M <= M').
  { rewrite !elem_of_cons in HM.
    destruct HM as [-> | [-> | HM]]; [apply Hge'; apply list_elem_of_here | lra |].
    apply Hge'. do 2 apply list_elem_of_further. rewrite !elem_of_cons. exact HM. }
  assert (Hcase : M' = s' \/ M' <= M).
  { rewrite !elem_of_cons in HM'.
    destruct HM' as [-> | [-> | HM']];
      [right; apply Hge; apply list_elem_of_here | left; reflexivity |].
    right. apply Hge. do 2 apply list_elem_of_further. rewrite !elem_of_cons. exact HM'. }
  destruct (Qlt_bool 0 M) eqn:EM;
    [apply Qlt_bool_true in EM | apply Qlt_bool_false in EM];
    (destruct (Qlt_bool 0 M') eqn:EM';
     [apply Qlt_bool_true in EM' | apply Qlt_bool_false in EM']);
    eexists _, _; (split; [reflexivity|]); (split; [reflexivity|]); cbn [snd].
  - destruct Hcase as [-> | Hcase].
    + apply Qle_shift_div_r; [exact EM|].
      apply Qle_trans with (1 * M); [lra|].
      apply Qmult_le_compat_r; [|lra].
      apply Qle_shift_div_l; [exact EM'|lra].
    + assert (Heq : M' == M) by lra.
      rewrite Heq. apply Qdiv_le_compat_l; assumption.
  - lra.
  - assert (Hz : s == 0) by lra.
    rewrite Hz. apply Qle_shift_div_l; [exact EM'|]. lra.
  - exact Hle.
Qed.

Lemma personality_struggling_score_nonneg (tasks_stats : gmap string Z)
    (recent_activity : list (gmap string Z)) (current_streak : Z)
    (lumi_memory : option (gmap string Z)) :
  0 <= PersonalityEngine._calculate_struggling_score
         tasks_stats recent_activity current_streak lumi_memory.
Proof.
  unfold PersonalityEngine._calculate_struggling_score. cbv zeta.
  set (overdue := get tasks_stats "overdue_tasks" 0%Z).
  assert (Hp : (2 <=? overdue)%Z = true -> 0 <= min (inject_Z overdue * 0.1) 0.2).
  { intros H2. apply Z.leb_le in H2. apply py_min_nonneg; [|lra].
    pose proof (inject_Z_le 2 overdue H2) as H2q.
    change (inject_Z 2) with (2 # 1) in H2q. lra. }
  apply py_min_nonneg; [|lra].
  destruct (2 <=? overdue)%Z; try specialize (Hp eq_refl);
    repeat match goal with
           | |- context [if ?b then _ else _] => destruct b
           | |- context [match ?x with _ => _ end] => destruct x
           end; lra.
Qed.

Lemma raw_mood_scores_with_overdue (current_hour : Z) (ctx : user_context) :
  exists m f o c r : Q,
    forall overdue : Z,
      PersonalityEngine.raw_mood_scores current_hour (with_overdue ctx overdue)
      = [ ("motivated", m);
          ("struggling",
            PersonalityEngine._calculate_struggling_score
              (<[ "overdue_tasks" := overdue ]> (default ∅ (tasks_stats ctx)))
              (default [] (recent_activity ctx)) (default 0%Z (current_streak ctx))
              (lumi_memory ctx));
          ("focused", f); ("overwhelmed", o); ("celebrating", c); ("returning", r) ].
Proof.
  set (ts := default ∅ (tasks_stats ctx)).
  set (ra := default [] (recent_activity ctx)).
  set (cs := default 0%Z (current_streak ctx)).
  set (tp := default [] (today_pomodoros ctx)).
  exists (PersonalityEngine._calculate_motivated_score ts ra cs tp),
         (PersonalityEngine._calculate_focused_score current_hour tp
            (default ∅ (productivity_patterns ctx)) ts),
         (PersonalityEngine._calculate_overwhelmed_score ts ra tp),
         (PersonalityEngine._calculate_celebrating_score cs ts ra (lumi_memory ctx)),
         (PersonalityEngine._calculate_returning_score ra (lumi_memory ctx) cs).
  intros overdue. unfold PersonalityEngine.raw_mood_scores, with_overdue.
  cbn [tasks_stats recent_activity productivity_patterns current_streak today_pomodoros
       lumi_memory].
  change (default ∅ (Some ?x)) with x.
  fold ts ra cs tp.
  assert (Hm : PersonalityEngine._calculate_motivated_score
                 (<[ "overdue_tasks" := overdue ]> ts) ra cs tp
               = PersonalityEngine._calculate_motivated_score ts ra cs tp).
  { unfold PersonalityEngine._calculate_motivated_score, get.
    rewrite !lookup_insert_ne by discriminate. reflexivity. }
  assert (Ho : PersonalityEngine._calculate_overwhelmed_score
                 (<[ "overdue_tasks" := overdue ]> ts) ra tp
               = PersonalityEngine._calculate_overwhelmed_score ts ra tp).
  { unfold PersonalityEngine._calculate_overwhelmed_score, get.
    rewrite !lookup_insert_ne by discriminate. reflexivity. }
  assert (Hc : PersonalityEngine._calculate_celebrating_score cs
                 (<[ "overdue_tasks" := overdue ]> ts) ra (lumi_memory ctx)
               = PersonalityEngine._calculate_celebrating_score cs ts ra (lumi_memory ctx)).
  { unfold PersonalityEngine._calculate_celebrating_score, get.
    rewrite !lookup_insert_ne by discriminate. reflexivity. }
  rewrite Hm, Ho, Hc. reflexivity.
Qed.

(** C5.  Raising the value of the ["overdue_tasks"] indicator, every other
    indicator held fixed, never lowers the ["struggling"] score that
    [_apply_detection_rules] computes; and raising the overdue count of a
    snapshot never lowers the ["struggling"] score of the sibling scorer,
    neither the raw score of [_calculate_struggling_score] nor the
    normalised one of [_calculate_mood_scores]. *)
Theorem C5_struggling_monotone_in_overdue (inds inds' : list MoodIndicator)
    (current_hour : Z) (ctx : user_context) (overdue overdue' : Z) :
  Forall2 overdue_raised inds inds' ->
  (overdue <= overdue')%Z ->
  (exists s s',
     score_of (_apply_detection_rules inds) "struggling" = Some s
     /\ score_of (_apply_detection_rules inds') "struggling" = Some s'
     /\ s <= s')
  /\ PersonalityEngine._calculate_struggling_score
       (<[ "overdue_tasks" := overdue ]> (default ∅ (tasks_stats ctx)))
       (default [] (recent_activity ctx)) (default 0%Z (current_streak ctx)) (lumi_memory ctx)
     <= PersonalityEngine._calculate_struggling_score
       (<[ "overdue_tasks" := overdue' ]> (default ∅ (tasks_stats ctx)))
       (default [] (recent_activity ctx)) (default 0%Z (current_streak ctx)) (lumi_memory ctx)
  /\ (exists n n',
        score_of (PersonalityEngine.normalize_scores
                    (PersonalityEngine.raw_mood_scores current_hour (with_overdue ctx overdue)))
                 "struggling" = Some n
        /\ score_of (PersonalityEngine.normalize_scores
                    (PersonalityEngine.raw_mood_scores current_hour (with_overdue ctx overdue')))
                 "struggling" = Some n'
        /\ n <= n').
Proof.
  intros Hr Hle.
  pose proof (personality_struggling_score_raised
                (default ∅ (tasks_stats ctx)) (default [] (recent_activity ctx))
                (default 0%Z (current_streak ctx)) (lumi_memory ctx) _ _ Hle) as Hraw.
  split; [|split; [exact Hraw|]].
  - eexists _, _. split; [reflexivity|]. split; [reflexivity|].
    apply struggling_score_raised. exact Hr.
  - destruct (raw_mood_scores_with_overdue current_hour ctx) as (m & f & o & c & r & Hraws).
    rewrite !Hraws.
    apply normalized_struggling_raised; [apply personality_struggling_score_nonneg|exact Hraw].
Qed.

(** The statement at two lists whose overdue count grows from 2 to 5. *)
Lemma C5_struggling_monotone_witness :
  exists s s',
    score_of (_apply_detection_rules two_overdue) "struggling" = Some s
    /\ score_of (_apply_detection_rules five_overdue) "struggling" = Some s'
    /\ s <= s'.
Proof.
  apply (C5_struggling_monotone_in_overdue two_overdue five_overdue 0 scenario_struggling 2 5).
  - unfold two_overdue, five_overdue, overdue_raised.
    repeat constructor; simpl; lra.
  - lia.
Defined.

(** ** The result cache of the personality engine *)

Lemma normalize_scores_nonempty (first : string * Q) (rest : list (string * Q)) :
  exists first' rest', PersonalityEngine.normalize_scores (first :: rest) = first' :: rest'.
Proof.
  unfold PersonalityEngine.normalize_scores.
  destruct (Qlt_bool 0 _); [destruct first|]; simpl; eauto.
Qed.

Lemma compute_and_store_eq (self : PersonalityEngine.engine) (cache_key : string)
    (ctx : user_context) (w : world) :
  exists first rest,
    PersonalityEngine.normalize_scores
      (PersonalityEngine.raw_mood_scores (dt_hour (w_now w)) ctx) = first :: rest
    /\ PersonalityEngine.compute_and_store self cache_key ctx w
       = (Return (PersonalityEngine.build_analysis ctx first rest,
                  PersonalityEngine.Engine
                    (<[ cache_key := PersonalityEngine.CacheEntry
                                       (PersonalityEngine.build_analysis ctx first rest)
                                       (w_now w) ]>
                       (PersonalityEngine.mood_cache self))), w).
Proof.
  destruct (normalize_scores_nonempty
              ("motivated", PersonalityEngine._calculate_motivated_score
                 (default ∅ (tasks_stats ctx)) (default [] (recent_activity ctx))
                 (default 0%Z (current_streak ctx)) (default [] (today_pomodoros ctx)))
              (tl (PersonalityEngine.raw_mood_scores (dt_hour (w_now w)) ctx)))
    as (first & rest & Hn).
  change (_ :: tl _) with (PersonalityEngine.raw_mood_scores (dt_hour (w_now w)) ctx) in Hn.
  exists first, rest. split; [exact Hn|].
  unfold PersonalityEngine.compute_and_store, PersonalityEngine._calculate_mood_scores,
    bind, datetime_now, ret.
  cbv beta iota. rewrite Hn. reflexivity.
Qed.

(** A call that finds its key in the cache, with an age whose seconds
    field is below 1800, returns the cached analysis and leaves the cache as
    it is: nothing is computed from the snapshot. *)
Lemma analyze_user_mood_hit (self : PersonalityEngine.engine) (ctx : user_context)
    (c : Ascii.ascii) (uid : string) (w : world) (entry : PersonalityEngine.cache_entry) :
  user_id_of ctx = Some (String c uid) ->
  PersonalityEngine.mood_cache self
    !! PersonalityEngine.make_cache_key (String c uid) (w_now w) = Some entry ->
  (td_seconds (w_now w - PersonalityEngine.timestamp entry) < 1800)%Z ->
  PersonalityEngine.analyze_user_mood self ctx w
  = (Return (PersonalityEngine.mood_analysis entry, self), w).
Proof.
  intros Huid Hkey Hage. apply Z.ltb_lt in Hage.
  unfold user_id_of in Huid.
  unfold PersonalityEngine.analyze_user_mood, PersonalityEngine.cache_lookup,
    try_except, bind, datetime_now, ret.
  rewrite Huid. cbv beta iota. rewrite Hkey. cbv beta iota. rewrite Hage. reflexivity.
Qed.

(** A call that does not find its key computes and stores. *)
Lemma analyze_user_mood_miss (self : PersonalityEngine.engine) (ctx : user_context)
    (c : Ascii.ascii) (uid : string) (w : world) :
  user_id_of ctx = Some (String c uid) ->
  PersonalityEngine.mood_cache self
    !! PersonalityEngine.make_cache_key (String c uid) (w_now w) = None ->
  PersonalityEngine.analyze_user_mood self ctx w
  = PersonalityEngine.compute_and_store self
      (PersonalityEngine.make_cache_key (String c uid) (w_now w)) ctx w.
Proof.
  intros Huid Hkey. unfold user_id_of in Huid.
  destruct (compute_and_store_eq self
              (PersonalityEngine.make_cache_key (String c uid) (w_now w)) ctx w)
    as (first & rest & _ & Hcs).
  unfold PersonalityEngine.analyze_user_mood, PersonalityEngine.cache_lookup,
    try_except, bind, datetime_now, ret.
  rewrite Huid. cbv beta iota. rewrite Hkey. cbv beta iota. rewrite Hcs. reflexivity.
Qed.

Lemma same_minute_same_key (uid : string) (t1 t2 : Z) :
  (t2 / usec_per_minute = t1 / usec_per_minute)%Z ->
  PersonalityEngine.make_cache_key uid t2 = PersonalityEngine.make_cache_key uid t1.
Proof.
  intros Hmin.
  unfold PersonalityEngine.make_cache_key, PersonalityEngine.strftime_H_M, dt_hour, dt_minute.
  assert (Hh : forall t, (t / usec_per_hour = t / usec_per_minute / 60)%Z).
  { intros t. unfold usec_per_hour. rewrite (Z.mul_comm 60).
    symmetry. apply Z.div_div; unfold usec_per_minute, usec_per_second; lia. }
  rewrite !Hh, Hmin. reflexivity.
Qed.

Lemma same_minute_age (t1 t2 : Z) :
  (t1 <= t2)%Z ->
  (t2 / usec_per_minute = t1 / usec_per_minute)%Z ->
  (td_seconds (t2 - t1) < 1800)%Z.
Proof.
  intros Hle Hmin. unfold td_seconds.
  assert (Hd : (0 <= t2 - t1 < usec_per_minute)%Z).
  { pose proof (Z.div_mod t1 usec_per_minute) as H1.
    pose proof (Z.div_mod t2 usec_per_minute) as H2.
    pose proof (Z.mod_pos_bound t1 usec_per_minute) as B1.
    pose proof (Z.mod_pos_bound t2 usec_per_minute) as B2.
    unfold usec_per_minute, usec_per_second in *. lia. }
  assert (Hs : (0 <= (t2 - t1) / usec_per_second < 60)%Z).
  { unfold usec_per_minute, usec_per_second in *. split.
    - apply Z.div_pos; lia.
    - apply Z.div_lt_upper_bound; lia. }
  rewrite Z.mod_small; lia.
Qed.

(** X24.  Two calls for the same user within one minute: when the first
    call computed and stored its analysis at time [t1], a second call at a
    later time [t2] of the same minute returns that analysis and leaves the
    cache as it is, whatever snapshot it is given. *)
Lemma same_minute_second_call_hits (self self1 : PersonalityEngine.engine)
    (ctx1 ctx2 : user_context) (c : Ascii.ascii) (uid : string) (t1 t2 : Z)
    (d1 d2 : database) (a1 : PersonalityEngine.MoodAnalysis) :
  user_id_of ctx2 = Some (String c uid) ->
  PersonalityEngine.compute_and_store self
    (PersonalityEngine.make_cache_key (String c uid) t1) ctx1 (World t1 d1)
  = (Return (a1, self1), World t1 d1) ->
  (t1 <= t2)%Z ->
  (t2 / usec_per_minute = t1 / usec_per_minute)%Z ->
  PersonalityEngine.analyze_user_mood self1 ctx2 (World t2 d2)
  = (Return (a1, self1), World t2 d2).
Proof.
  intros Huid Hfirst Hle Hmin.
  destruct (compute_and_store_eq self
              (PersonalityEngine.make_cache_key (String c uid) t1) ctx1 (World t1 d1))
    as (first & rest & _ & Hcs).
  rewrite Hcs in Hfirst. injection Hfirst as Ha He. cbn [w_now] in *.
  apply (analyze_user_mood_hit self1 ctx2 c uid (World t2 d2)
           (PersonalityEngine.CacheEntry a1 t1) Huid).
  - cbn [w_now]. rewrite (same_minute_same_key _ _ _ Hmin).
    subst self1 a1. cbn [PersonalityEngine.mood_cache]. apply lookup_insert_eq.
  - cbn [w_now PersonalityEngine.timestamp]. apply same_minute_age; assumption.
Qed.

(** C7 (what the code does with a day-old entry).  The cache key holds the
    hour and the minute only, and the age test reads the [seconds] field of
    the [timedelta], which leaves the days out.  An analysis stored at
    10:30:05 is therefore returned again at 10:30:15 of the next day,
    86410 seconds later: more than the 30 minutes the entry is valid for, and
    for a snapshot that would now be classified differently. *)
Theorem C7_day_old_entry_is_returned :
  exists a1 e1 entry a2 e2,
    PersonalityEngine.analyze_user_mood (PersonalityEngine.Engine ∅) scenario_struggling
      (healthy_world first_day_10_30_05 ∅)
    = (Return (a1, e1), healthy_world first_day_10_30_05 ∅)
    /\ PersonalityEngine.mood_cache e1 !! "user-1_10_30" = Some entry
    /\ PersonalityEngine.timestamp entry = first_day_10_30_05
    /\ (30 * usec_per_minute < next_day_10_30_15 - PersonalityEngine.timestamp entry)%Z
    /\ PersonalityEngine.analyze_user_mood e1 scenario_celebrating
         (healthy_world next_day_10_30_15 ∅)
       = (Return (a1, e1), healthy_world next_day_10_30_15 ∅)
    /\ PersonalityEngine.detected_mood a1 = "struggling"
    /\ PersonalityEngine.analyze_user_mood (PersonalityEngine.Engine ∅) scenario_celebrating
         (healthy_world next_day_10_30_15 ∅)
       = (Return (a2, e2), healthy_world next_day_10_30_15 ∅)
    /\ PersonalityEngine.detected_mood a2 = "motivated".
Proof.
  eexists _, _, _, _, _.
  split; [vm_compute; reflexivity|].
  split; [vm_compute; reflexivity|].
  split; [reflexivity|].
  split; [reflexivity|].
  split; [vm_compute; reflexivity|].
  split; [reflexivity|].
  split; [vm_compute; reflexivity|].
  reflexivity.
Qed.

(** The sibling classifier, [PersonalityEngine.analyze_user_mood], does
    classify the snapshot of the struggling scenario as ["struggling"], with
    confidence above [0.5] and two recommendations, at any time and with an
    empty cache. *)
Lemma personality_engine_struggling_scenario (w : world) :
  exists a e,
    PersonalityEngine.analyze_user_mood (PersonalityEngine.Engine ∅) scenario_struggling w
      = (Return (a, e), w)
    /\ PersonalityEngine.detected_mood a = "struggling"
    /\ 0.5 < PersonalityEngine.confidence a
    /\ length (PersonalityEngine.recommendations a) = 2%nat.
Proof.
  rewrite (analyze_user_mood_miss _ scenario_struggling _ _ w eq_refl)
    by apply lookup_empty.
  destruct (compute_and_store_eq (PersonalityEngine.Engine ∅)
              (PersonalityEngine.make_cache_key "user-1" (w_now w)) scenario_struggling w)
    as (first & rest & Hn & ->).
  assert (Hraw : PersonalityEngine.raw_mood_scores (dt_hour (w_now w)) scenario_struggling
                 = PersonalityEngine.raw_mood_scores 0 scenario_struggling)
    by reflexivity.
  rewrite Hraw in Hn. vm_compute in Hn. injection Hn as <- <-.
  eexists _, _. split; [reflexivity|].
  split; [reflexivity|]. split; reflexivity.
Qed.

(** * Further properties *)

(** ** The shape of the indicator list *)

Ltac pull_let :=
  match goal with
  | |- (let a := ?e in @?b a) = ?r =>
      let v := fresh "lv" in
      change (let a := e in b a = r); cbv beta; intro v
  end.

Lemma mood_indicators_at_parts (current_hour : Z) (ctx : user_context) :
  mood_indicators_at current_hour ctx
  = completion_rate_part ctx ++ overdue_tasks_part ctx ++ current_streak_part ctx
    ++ today_pomodoros_part ctx ++ activity_trend_part ctx ++ focus_quality_part ctx
    ++ overwhelm_level_part ctx ++ timing_alignment_part current_hour ctx.
Proof.
  cbv beta delta [mood_indicators_at]. repeat pull_let.
  assert (H0 : lv9 = completion_rate_part ctx).
  { subst lv9 lv lv5 lv6 lv0.
    unfold completion_rate_part. cbv zeta. destruct (0 <? _)%Z; reflexivity. }
  clearbody lv9. subst lv9.
  assert (H1 : lv10 = completion_rate_part ctx ++ overdue_tasks_part ctx).
  { subst lv10 lv7 lv0.
    unfold overdue_tasks_part. cbv zeta.
    destruct (0 <? _)%Z; [reflexivity | rewrite app_nil_r; reflexivity]. }
  clearbody lv10. subst lv10.
  assert (H4 : lv14
               = completion_rate_part ctx ++ overdue_tasks_part ctx ++ current_streak_part ctx
                 ++ today_pomodoros_part ctx ++ activity_trend_part ctx).
  { subst lv14 lv13 lv11 lv12
      lv3 lv2 lv1.
    unfold activity_trend_part. cbv zeta.
    change (Z.of_nat (length (filter _ (default [] (today_pomodoros ctx)))))
      with (completed_today ctx).
    fold (current_streak_part ctx). fold (today_pomodoros_part ctx).
    destruct (default [] (recent_activity ctx)) as [|day0 [|day1 rest]];
      rewrite <- ?app_assoc, ?app_nil_r; reflexivity. }
  clearbody lv14. subst lv14.
  assert (H5 : lv15
               = (completion_rate_part ctx ++ overdue_tasks_part ctx
                  ++ current_streak_part ctx ++ today_pomodoros_part ctx
                  ++ activity_trend_part ctx) ++ focus_quality_part ctx).
  { subst lv15 lv12 lv3.
    unfold focus_quality_part. cbv zeta.
    change (Z.of_nat (length (filter _ (default [] (today_pomodoros ctx)))))
      with (completed_today ctx).
    destruct (default [] (today_pomodoros ctx)) as [|p rest];
      [rewrite app_nil_r; reflexivity|].
    destruct (0 <? completed_today ctx)%Z; [reflexivity | rewrite app_nil_r; reflexivity]. }
  clearbody lv15. subst lv15.
  assert (H6 : lv16
               = ((completion_rate_part ctx ++ overdue_tasks_part ctx
                   ++ current_streak_part ctx ++ today_pomodoros_part ctx
                   ++ activity_trend_part ctx) ++ focus_quality_part ctx)
                 ++ overwhelm_level_part ctx).
  { subst lv16 lv8 lv0.
    unfold overwhelm_level_part. cbv zeta.
    destruct (0 <? _)%Z; [reflexivity | rewrite app_nil_r; reflexivity]. }
  clearbody lv16. subst lv16.
  subst lv18 lv17 lv4.
  unfold timing_alignment_part.
  destruct (default ∅ (productivity_patterns ctx) !! "peak_hour") as [peak|];
    [destruct (negb (peak =? 0)%Z)|]; cbv zeta;
    rewrite <- ?app_assoc, ?app_nil_r; reflexivity.
Qed.


Ltac part_cases :=
  cbv zeta;
  repeat match goal with
         | |- at_most_one _ _ (if ?b then _ else _) => destruct b
         | |- at_most_one _ _ (match ?x with _ => _ end) => destruct x
         end;
  first [ left; reflexivity | right; eexists; repeat split; reflexivity ].

Lemma completion_rate_part_one (ctx : user_context) :
  at_most_one "completion_rate" 0.8 (completion_rate_part ctx).
Proof. unfold completion_rate_part. part_cases. Qed.

Lemma overdue_tasks_part_one (ctx : user_context) :
  at_most_one "overdue_tasks" 0.9 (overdue_tasks_part ctx).
Proof. unfold overdue_tasks_part. part_cases. Qed.

Lemma activity_trend_part_one (ctx : user_context) :
  at_most_one "activity_trend" 0.5 (activity_trend_part ctx).
Proof. unfold activity_trend_part. part_cases. Qed.

Lemma focus_quality_part_one (ctx : user_context) :
  at_most_one "focus_quality" 0.4 (focus_quality_part ctx).
Proof. unfold focus_quality_part. part_cases. Qed.

Lemma overwhelm_level_part_one (ctx : user_context) :
  at_most_one "overwhelm_level" 0.6 (overwhelm_level_part ctx).
Proof. unfold overwhelm_level_part. part_cases. Qed.

Lemma timing_alignment_part_one (current_hour : Z) (ctx : user_context) :
  at_most_one "timing_alignment" 0.3 (timing_alignment_part current_hour ctx).
Proof. unfold timing_alignment_part. part_cases. Qed.

Lemma at_most_one_types (type : string) (w : Q) (part : list MoodIndicator) :
  at_most_one type w part ->
  map indicator_type part `sublist_of` [type]
  /\ (length part <= 1)%nat
  /\ Forall (fun ind => weight ind = w) part.
Proof.
  intros [-> | (ind & -> & Hty & Hw)]; simpl.
  - split; [apply sublist_nil_l|]. split; [lia | constructor].
  - rewrite Hty. split; [reflexivity|]. split; [lia | repeat constructor; exact Hw].
Qed.

(** X1.  For a snapshot in range, read at a clock hour in [0, 24), the
    extractor emits between two and eight indicators, their types form a
    sub-sequence of the fixed vocabulary (so no type occurs twice and the
    order is the vocabulary's), every weight lies between [0.3] and [0.9],
    and the [current_streak] and [today_pomodoros] indicators are always
    present, carrying the streak and the number of completed sessions of
    today. *)
Theorem extractor_indicator_list_shape (current_hour : Z) (ctx : user_context) :
  (0 <= current_hour < 24)%Z ->
  snapshot_in_range ctx ->
  let inds := mood_indicators_at current_hour ctx in
  map indicator_type inds `sublist_of` indicator_vocabulary
  /\ NoDup (map indicator_type inds)
  /\ (2 <= length inds <= 8)%nat
  /\ Forall (fun ind => 0.3 <= weight ind <= 0.9) inds
  /\ value <$> indicator_of inds "current_streak"
     = Some (inject_Z (default 0%Z (current_streak ctx)))
  /\ value <$> indicator_of inds "today_pomodoros" = Some (inject_Z (completed_today ctx)).
Proof.
  intros _ _. cbv zeta. rewrite mood_indicators_at_parts.
  destruct (at_most_one_types _ _ _ (completion_rate_part_one ctx)) as (S1 & L1 & W1).
  destruct (at_most_one_types _ _ _ (overdue_tasks_part_one ctx)) as (S2 & L2 & W2).
  destruct (at_most_one_types _ _ _ (activity_trend_part_one ctx)) as (S5 & L5 & W5).
  destruct (at_most_one_types _ _ _ (focus_quality_part_one ctx)) as (S6 & L6 & W6).
  destruct (at_most_one_types _ _ _ (overwhelm_level_part_one ctx)) as (S7 & L7 & W7).
  destruct (at_most_one_types _ _ _ (timing_alignment_part_one current_hour ctx))
    as (S8 & L8 & W8).
  assert (Hsub : map indicator_type
                   (completion_rate_part ctx ++ overdue_tasks_part ctx
                    ++ current_streak_part ctx ++ today_pomodoros_part ctx
                    ++ activity_trend_part ctx ++ focus_quality_part ctx
                    ++ overwhelm_level_part ctx ++ timing_alignment_part current_hour ctx)
                 `sublist_of` indicator_vocabulary).
  { rewrite !map_app.
    change indicator_vocabulary
      with (["completion_rate"] ++ ["overdue_tasks"] ++ ["current_streak"]
            ++ ["today_pomodoros"] ++ ["activity_trend"] ++ ["focus_quality"]
            ++ ["overwhelm_level"] ++ ["timing_alignment"]).
    repeat (apply sublist_app; [assumption || reflexivity|]). assumption. }
  split; [exact Hsub|]. split.
  { apply (sublist_NoDup _ indicator_vocabulary); [|exact Hsub].
    apply (bool_decide_unpack _). reflexivity. }
  split.
  { rewrite !length_app. simpl length. lia. }
  split.
  { repeat (apply Forall_app; split);
      try (eapply Forall_impl; [eassumption|]; intros ind ->; lra);
      repeat constructor; simpl; lra. }
  unfold indicator_of.
  assert (Hfind : forall (type : string) (l k : list MoodIndicator),
             Forall (fun ind => indicator_type ind <> type) l ->
             find (fun ind => String.eqb (indicator_type ind) type) (l ++ k)
             = find (fun ind => String.eqb (indicator_type ind) type) k).
  { intros type l k Hl. induction Hl as [|i l Hne _ IH]; simpl; [reflexivity|].
    apply String.eqb_neq in Hne. rewrite Hne. exact IH. }
  assert (Hmiss : forall (type t : string) (w : Q) (part : list MoodIndicator),
             at_most_one t w part -> t <> type ->
             Forall (fun ind => indicator_type ind <> type) part).
  { intros type t w part [-> | (ind & -> & Hty & _)] Hne; repeat constructor.
    rewrite Hty. exact Hne. }
  split.
  - rewrite (Hfind _ _ _ (Hmiss "current_streak" _ _ _ (completion_rate_part_one ctx)
                            ltac:(discriminate))).
    rewrite (Hfind _ _ _ (Hmiss "current_streak" _ _ _ (overdue_tasks_part_one ctx)
                            ltac:(discriminate))).
    reflexivity.
  - rewrite (Hfind _ _ _ (Hmiss "today_pomodoros" _ _ _ (completion_rate_part_one ctx)
                            ltac:(discriminate))).
    rewrite (Hfind _ _ _ (Hmiss "today_pomodoros" _ _ _ (overdue_tasks_part_one ctx)
                            ltac:(discriminate))).
    reflexivity.
Qed.

(** The statement at a busy snapshot read at midnight: all eight
    indicators are emitted. *)
Lemma extractor_indicator_list_shape_witness :
  NoDup (map indicator_type (mood_indicators_at 0 busy_context))
  /\ length (mood_indicators_at 0 busy_context) = 8%nat.
Proof.
  destruct (extractor_indicator_list_shape 0 busy_context) as (_ & Hnd & _).
  - lia.
  - apply (bool_decide_unpack _). vm_compute. reflexivity.
  - split; [exact Hnd | reflexivity].
Defined.


Lemma Qdiv_unit_interval (c t : Z) :
  (0 <= c <= t)%Z -> (0 < t)%Z -> 0 <= inject_Z c / inject_Z t <= 1.
Proof.
  intros [Hc Hct] Ht.
  assert (Htq : 0 < inject_Z t) by (change 0 with (inject_Z 0); rewrite <- Zlt_Qlt; exact Ht).
  assert (Hcq : 0 <= inject_Z c) by (change 0 with (inject_Z 0); rewrite <- Zle_Qle; exact Hc).
  assert (Hctq : inject_Z c <= inject_Z t) by (rewrite <- Zle_Qle; exact Hct).
  split.
  - apply Qle_shift_div_l; [exact Htq | lra].
  - apply Qle_shift_div_r; [exact Htq | lra].
Qed.

Ltac range_goal :=
  constructor; [|constructor];
  unfold value_in_range; cbn [indicator_type value];
  (split; [|split; [|split; [|split]]]);
  (let Hty := fresh "Hty" in intros Hty; try discriminate Hty; clear Hty).

(** X2.  On a snapshot in range whose counts satisfy
    [0 <= completed <= total], read at a clock hour in [0, 24) with a peak
    hour (if any) in [0, 24): the completion rate lies in [0, 1], an emitted
    overdue count is at least [1], the session count is non-negative, the
    overwhelm level lies in (0, 1], and the timing alignment lies in
    [-1, 1].  The distance between the hours is not taken around the clock,
    so the alignment can be negative. *)
Theorem extractor_values_in_range (current_hour : Z) (ctx : user_context) :
  snapshot_in_range ctx ->
  (0 <= get (default ∅ (tasks_stats ctx)) "completed_tasks" 0
     <= get (default ∅ (tasks_stats ctx)) "total_tasks" 0)%Z ->
  (0 <= current_hour < 24)%Z ->
  (forall peak, default ∅ (productivity_patterns ctx) !! "peak_hour" = Some peak ->
                (0 <= peak < 24)%Z) ->
  Forall value_in_range (mood_indicators_at current_hour ctx).
Proof.
  intros _ Hcounts Hhour Hpeak. rewrite mood_indicators_at_parts.
  repeat (apply Forall_app; split).
  - unfold completion_rate_part. cbv zeta.
    destruct (0 <? _)%Z eqn:E; [|constructor]. range_goal.
    apply Z.ltb_lt in E. apply Qdiv_unit_interval; assumption.
  - unfold overdue_tasks_part. cbv zeta.
    destruct (0 <? _)%Z eqn:E; [|constructor]. range_goal.
    apply Z.ltb_lt in E. change 1 with (inject_Z 1). rewrite <- Zle_Qle. lia.
  - unfold current_streak_part. cbv zeta. range_goal.
  - unfold today_pomodoros_part. range_goal.
    change 0 with (inject_Z 0). rewrite <- Zle_Qle. unfold completed_today. lia.
  - unfold activity_trend_part.
    destruct (default [] (recent_activity ctx)) as [|d0 [|d1 r]];
      [constructor | constructor |].
    cbv zeta. range_goal.
  - unfold focus_quality_part. cbv zeta.
    destruct (default [] (today_pomodoros ctx)); [constructor|].
    destruct (0 <? _)%Z; [|constructor]. range_goal.
  - unfold overwhelm_level_part. cbv zeta.
    destruct (0 <? _)%Z eqn:E; [|constructor]. range_goal.
    apply Z.ltb_lt in E.
    set (p := get _ "pending_tasks" 0%Z) in *.
    assert (Hp : 0 < inject_Z p)
      by (change 0 with (inject_Z 0); rewrite <- Zlt_Qlt; exact E).
    assert (Hd : 0 < inject_Z p / 10.0) by (apply Qlt_shift_div_l; lra).
    destruct (py_min_spec (inject_Z p / 10.0) 1.0) as [[H ->] | [H ->]]; lra.
  - unfold timing_alignment_part.
    destruct (default ∅ (productivity_patterns ctx) !! "peak_hour") as [peak|] eqn:E;
      [|constructor].
    destruct (negb (peak =? 0)%Z); [|constructor].
    cbv zeta. range_goal.
    specialize (Hpeak peak eq_refl).
    assert (Ha : (0 <= Z.abs (current_hour - peak) <= 23)%Z) by lia.
    destruct Ha as [Ha0 Ha1].
    apply inject_Z_le in Ha0. apply inject_Z_le in Ha1.
    change (inject_Z 0) with 0 in Ha0. change (inject_Z 23) with (23 # 1) in Ha1.
    set (a := inject_Z (Z.abs (current_hour - peak))) in *.
    assert (H1 : 0 <= a / 12.0) by (apply Qle_shift_div_l; lra).
    assert (H2 : a / 12.0 <= 23 # 12) by (apply Qle_shift_div_r; lra).
    lra.
Qed.

(** The statement at a busy snapshot read at midnight, with peak hour 23:
    the alignment there is negative. *)
Lemma extractor_values_in_range_witness :
  Forall value_in_range (mood_indicators_at 0 busy_context)
  /\ exists alignment,
       timing_alignment_of (mood_indicators_at 0 busy_context) = Some alignment
       /\ alignment < 0.
Proof.
  split; [|exists (1.0 - 23 / 12.0); split; reflexivity].
  apply (extractor_values_in_range 0 busy_context).
  - apply (bool_decide_unpack _). vm_compute. reflexivity.
  - vm_compute. split; discriminate.
  - lia.
  - intros peak Hp. vm_compute in Hp. injection Hp as <-. lia.
Defined.


(** ** Selection of the primary mood *)

Lemma fold_max_by_snd_split {A : Type} (rest l1 l2 : list (A * Q)) (best : A * Q) :
  Forall (fun item => snd item < snd best) l1 ->
  Forall (fun item => snd item <= snd best) l2 ->
  exists l1' l2',
    l1 ++ best :: l2 ++ rest = l1' ++ max_by_snd best rest :: l2'
    /\ Forall (fun item => snd item < snd (max_by_snd best rest)) l1'
    /\ Forall (fun item => snd item <= snd (max_by_snd best rest)) l2'.
Proof.
  unfold max_by_snd. revert l1 l2 best.
  induction rest as [|item rest IH]; intros l1 l2 best H1 H2; cbn [fold_left].
  - exists l1, l2. rewrite app_nil_r. auto.
  - destruct (Qlt_bool (snd best) (snd item)) eqn:E.
    + apply Qlt_bool_true in E.
      destruct (IH (l1 ++ best :: l2) [] item) as (l1' & l2' & Heq & H1' & H2').
      * apply Forall_app. split; [|constructor; [exact E|]].
        -- eapply Forall_impl; [exact H1|]. intros x Hx. simpl in Hx. lra.
        -- eapply Forall_impl; [exact H2|]. intros x Hx. simpl in Hx. lra.
      * constructor.
      * exists l1', l2'. split; [|auto]. rewrite <- Heq, <- app_assoc. reflexivity.
    + apply Qlt_bool_false in E.
      destruct (IH l1 (l2 ++ [item]) best) as (l1' & l2' & Heq & H1' & H2').
      * exact H1.
      * apply Forall_app. split; [exact H2 | repeat constructor; exact E].
      * exists l1', l2'. split; [|auto]. rewrite <- Heq, <- app_assoc. reflexivity.
Qed.

Lemma forallb_zero_scores (mood_scores : list (string * Q)) :
  forallb (fun item => Qeq_bool (snd item) 0) mood_scores = true
  <-> Forall (fun item => snd item == 0) mood_scores.
Proof.
  induction mood_scores as [|item rest IH]; cbn [forallb].
  - split; [constructor | reflexivity].
  - rewrite andb_true_iff, IH, Qeq_bool_iff. split.
    + intros [H0 Hrest]. constructor; assumption.
    + intros H. inversion H; subst. split; assumption.
Qed.

(** X3.  What [_determine_primary_mood] returns is fixed by the scores.
    When every score is zero (or the dict is empty) it is ["encouraging"]
    with confidence [0.5].  Otherwise take the first mood of the dict whose
    score is maximal (every earlier mood scores strictly less, no later mood
    scores more): below the floor [0.3] the result is ["encouraging"] with
    that score as confidence, and from [0.3] on it is that mood with the
    score clamped to [1.0]. *)
Theorem primary_mood_is_first_maximum (mood_scores : list (string * Q)) :
  (Forall (fun item => snd item == 0) mood_scores
   /\ _determine_primary_mood mood_scores = ("encouraging", 0.5))
  \/ (~ Forall (fun item => snd item == 0) mood_scores
      /\ exists earlier mood score later,
           mood_scores = earlier ++ (mood, score) :: later
           /\ Forall (fun item => snd item < score) earlier
           /\ Forall (fun item => snd item <= score) later
           /\ ((score < 0.3
                /\ _determine_primary_mood mood_scores = ("encouraging", score))
               \/ (0.3 <= score
                   /\ _determine_primary_mood mood_scores = (mood, min score 1.0)))).
Proof.
  unfold _determine_primary_mood.
  destruct mood_scores as [|first rest]; [left; split; [constructor | reflexivity]|].
  destruct (forallb (fun item => Qeq_bool (snd item) 0) (first :: rest)) eqn:Hzero.
  { left. split; [apply forallb_zero_scores; exact Hzero | reflexivity]. }
  right. split.
  { intros Hall. apply forallb_zero_scores in Hall. congruence. }
  destruct (fold_max_by_snd_split rest [] [] first) as (l1 & l2 & Heq & H1 & H2);
    [constructor | constructor |].
  cbn [app] in Heq.
  destruct (max_by_snd first rest) as [mood_name confidence]. cbn [fst snd] in *.
  exists l1, mood_name, confidence, l2.
  split; [exact Heq|]. split; [exact H1|]. split; [exact H2|].
  destruct (Qlt_bool confidence 0.3) eqn:E.
  - left. split; [apply Qlt_bool_true; exact E | reflexivity].
  - right. split; [apply Qlt_bool_false; exact E | reflexivity].
Qed.


(** ** What a classification run does to the store *)

Lemma update_mood_history_eq (user_id mood : string) (c : Q) (inds : list MoodIndicator)
    (t : Z) (pool ok : bool) (rows : gmap string lumi_row) :
  _update_mood_history user_id mood c inds (World t (Database pool ok rows))
  = (Return (pool : bool),
     World t (Database pool ok
                (if pool && ok then <[ user_id := LumiRow mood t ]> rows else rows))).
Proof.
  unfold _update_mood_history, update_lumi_memory, try_except, bind, get_connection,
    run_query, datetime_now, ret.
  destruct pool, ok; reflexivity.
Qed.

(** The closed form of a run: mood, confidence and scores are constant,
    the transition comes from the persisted mood, and the new mood is
    written when the database answers. *)
Lemma detect_current_mood_eq (user_id : string) (ctx : user_context) (t : Z)
    (pool ok : bool) (rows : gmap string lumi_row) :
  let inds := mood_indicators_at (dt_hour t) ctx in
  let transition :=
    if pool && ok then
      match rows !! user_id with
      | Some row =>
          if negb (String.eqb (currentMood row) "encouraging") then
            Some (mkMoodTransition (currentMood row) "encouraging" t
                    (_identify_transition_triggers (currentMood row) "encouraging") 0.7)
          else None
      | None => None
      end
    else None in
  detect_current_mood user_id ctx (World t (Database pool ok rows))
  = (Return (mkMoodResult "encouraging" 0.5 zero_scores inds transition
               (_generate_mood_insights "encouraging" inds transition) []),
     World t (Database pool ok
                (if pool && ok then <[ user_id := LumiRow "encouraging" t ]> rows
                 else rows))).
Proof.
  intros inds transition.
  destruct (detect_current_mood_unfold user_id ctx (World t (Database pool ok rows)))
    as (tr & b & w' & Ht & Hu & Hd).
  cbn [w_now] in *. fold inds in Ht, Hu, Hd.
  rewrite (apply_detection_rules_off_vocabulary inds (indicators_in_vocabulary _ _)),
    determine_primary_mood_zero in Ht, Hu, Hd.
  cbn [fst snd] in *.
  rewrite analyze_mood_transition_eq in Ht. injection Ht as Ht.
  rewrite update_mood_history_eq in Hu. injection Hu as _ Hu.
  rewrite Hd. subst tr w'. reflexivity.
Qed.

(** X4.  On a database that answers, a classification run on a snapshot
    in range stores the returned mood as that user's persisted mood, stamped
    with the time of the run, and leaves every other user's row as it was. *)
Theorem detect_current_mood_persists_the_mood (user_id : string) (ctx : user_context)
    (t : Z) (rows : gmap string lumi_row) :
  snapshot_in_range ctx ->
  exists r w',
    detect_current_mood user_id ctx (healthy_world t rows) = (Return r, w')
    /\ lumi_memory_rows (w_db w') !! user_id = Some (LumiRow (r_current_mood r) t)
    /\ persisted_mood w' user_id = Some (r_current_mood r)
    /\ (forall other, other <> user_id ->
          lumi_memory_rows (w_db w') !! other = rows !! other)
    /\ ~ read_fails w'.
Proof.
  intros _. unfold healthy_world. rewrite detect_current_mood_eq. cbn [andb].
  eexists _, _. split; [reflexivity|].
  unfold persisted_mood, read_fails.
  cbn [w_db lumi_memory_rows r_current_mood pool_initialized query_ok].
  rewrite lookup_insert_eq. repeat split.
  - intros other Hne. apply lookup_insert_ne. congruence.
  - intros [H | H]; discriminate H.
Qed.

Lemma detect_current_mood_persists_witness :
  exists r w',
    detect_current_mood "user-1" scenario_struggling (healthy_world 0 ∅) = (Return r, w')
    /\ persisted_mood w' "user-1" = Some (r_current_mood r).
Proof.
  destruct (detect_current_mood_persists_the_mood "user-1" scenario_struggling 0 ∅)
    as (r & w' & Hrun & _ & Hmood & _).
  - apply (bool_decide_unpack _). vm_compute. reflexivity.
  - exists r, w'. split; assumption.
Defined.

(** X5.  Persistence is best effort: when the pool is missing or the
    queries fail, a run on a snapshot in range still returns a
    classification, computed from the snapshot's indicators; it reports no
    transition and leaves the world untouched. *)
Theorem detect_current_mood_survives_database_failure (user_id : string)
    (ctx : user_context) (w : world) :
  snapshot_in_range ctx ->
  read_fails w ->
  exists r,
    detect_current_mood user_id ctx w = (Return r, w)
    /\ r_current_mood r = "encouraging"
    /\ r_transition r = None
    /\ r_indicators r = mood_indicators_at (dt_hour (w_now w)) ctx.
Proof.
  intros _. destruct w as [t [pool ok rows]]. unfold read_fails.
  cbn [w_db w_now pool_initialized query_ok]. intros Hfail.
  rewrite detect_current_mood_eq.
  assert (Hoff : pool && ok = false) by (destruct Hfail as [-> | ->]; [|destruct pool]; reflexivity).
  rewrite Hoff. eexists. repeat split.
Qed.

Lemma detect_current_mood_survives_witness :
  exists r,
    detect_current_mood "user-1" scenario_struggling
      (World 0 (Database false true ∅))
    = (Return r, World 0 (Database false true ∅))
    /\ r_transition r = None.
Proof.
  destruct (detect_current_mood_survives_database_failure "user-1" scenario_struggling
              (World 0 (Database false true ∅))) as (r & Hr & _ & Htr & _).
  - apply (bool_decide_unpack _). vm_compute. reflexivity.
  - left. reflexivity.
  - exists r. split; assumption.
Defined.

(** X6.  Every transition a run reports leads to ["encouraging"], comes
    from the user's persisted mood (which then differs from
    ["encouraging"]), has confidence [0.7] and carries no trigger factor. *)
Theorem reported_transitions_end_in_encouraging (user_id : string) (ctx : user_context)
    (w w' : world) (r : MoodResult) (transition : MoodTransition) :
  detect_current_mood user_id ctx w = (Return r, w') ->
  r_transition r = Some transition ->
  to_mood transition = "encouraging"
  /\ persisted_mood w user_id = Some (from_mood transition)
  /\ from_mood transition <> "encouraging"
  /\ MoodDetector.confidence transition = 0.7
  /\ trigger_factors transition = [].
Proof.
  destruct w as [t [pool ok rows]]. rewrite detect_current_mood_eq.
  intros Hrun Htr. injection Hrun as <- _. cbn [r_transition] in Htr.
  unfold persisted_mood. cbn [w_db lumi_memory_rows].
  destruct (pool && ok); [|discriminate].
  destruct (rows !! user_id) as [row|]; [|discriminate].
  destruct (negb (String.eqb (currentMood row) "encouraging")) eqn:E; [|discriminate].
  injection Htr as <-. cbn [to_mood from_mood MoodDetector.confidence trigger_factors].
  apply negb_true_iff, String.eqb_neq in E.
  split; [reflexivity|]. split; [reflexivity|]. split; [exact E|]. split; [reflexivity|].
  rewrite identify_transition_triggers_lookup. unfold lookup_triggers, known_transitions.
  cbn [find transition_matches]. rewrite !andb_false_r. reflexivity.
Qed.

Lemma reported_transitions_witness :
  exists r w' transition,
    detect_current_mood "user-1" scenario_struggling
      (healthy_world 7 {[ "user-1" := LumiRow "motivated" 0 ]}) = (Return r, w')
    /\ r_transition r = Some transition
    /\ from_mood transition = "motivated"
    /\ to_mood transition = "encouraging"
    /\ trigger_factors transition = [].
Proof.
  pose proof (detect_current_mood_eq "user-1" scenario_struggling 7 true true
                {[ "user-1" := LumiRow "motivated" 0 ]}) as Hrun.
  cbv zeta in Hrun. rewrite lookup_singleton_eq in Hrun. cbn [andb currentMood] in Hrun.
  change (negb ("motivated" =? "encouraging")%string) with true in Hrun.
  cbv iota in Hrun.
  eexists _, _, _. split; [exact Hrun|]. split; [reflexivity|].
  destruct (reported_transitions_end_in_encouraging _ _ _ _ _ _ Hrun eq_refl)
    as (Hto & _ & _ & _ & Htrig).
  split; [reflexivity|]. split; [exact Hto | exact Htrig].
Defined.

(** X7.  Once a run on a snapshot in range has stored its mood, the next
    run for the same user, on any snapshot in range and at any time, reports
    no transition. *)
Theorem second_run_reports_no_transition (user_id : string) (ctx1 ctx2 : user_context)
    (t1 t2 : Z) (rows : gmap string lumi_row) :
  snapshot_in_range ctx1 ->
  snapshot_in_range ctx2 ->
  exists r1 w1 r2 w2,
    detect_current_mood user_id ctx1 (healthy_world t1 rows) = (Return r1, w1)
    /\ detect_current_mood user_id ctx2 (World t2 (w_db w1)) = (Return r2, w2)
    /\ r_transition r2 = None
    /\ r_current_mood r2 = r_current_mood r1.
Proof.
  intros _ _.
  pose proof (detect_current_mood_eq user_id ctx1 t1 true true rows) as H1.
  pose proof (detect_current_mood_eq user_id ctx2 t2 true true
                (<[ user_id := LumiRow "encouraging" t1 ]> rows)) as H2.
  cbv zeta in H1, H2. cbn [andb] in H1, H2.
  rewrite lookup_insert_eq in H2. cbn [currentMood] in H2.
  rewrite String.eqb_refl in H2. cbn [negb] in H2.
  eexists _, _, _, _. split; [exact H1|]. split; [exact H2|]. split; reflexivity.
Qed.

(** The statement for a user whose persisted mood was ["motivated"]: the
    first run reports that transition, the second none. *)
Lemma second_run_witness :
  exists r1 w1 r2 w2,
    detect_current_mood "user-1" scenario_struggling
      (healthy_world 0 {[ "user-1" := LumiRow "motivated" 0 ]}) = (Return r1, w1)
    /\ detect_current_mood "user-1" busy_context (World 7 (w_db w1)) = (Return r2, w2)
    /\ r_transition r2 = None.
Proof.
  destruct (second_run_reports_no_transition "user-1" scenario_struggling busy_context
              0 7 {[ "user-1" := LumiRow "motivated" 0 ]})
    as (r1 & w1 & r2 & w2 & H1 & H2 & Htr & _).
  - apply (bool_decide_unpack _). vm_compute. reflexivity.
  - apply (bool_decide_unpack _). vm_compute. reflexivity.
  - exists r1, w1, r2, w2. split; [exact H1|]. split; [exact H2 | exact Htr].
Defined.

(** The insights of the mood every run settles on: the descriptions of at
    most two heavy indicators, the streak being one of them, and the
    transition line if any. *)
Lemma encouraging_insights_length (h : Z) (ctx : user_context)
    (tr : option MoodTransition) :
  (1 <= length (_generate_mood_insights "encouraging" (mood_indicators_at h ctx) tr) <= 3)%nat.
Proof.
  unfold _generate_mood_insights. cbv zeta.
  change ("encouraging" =? ?s)%string with false. cbv iota.
  assert (Hheavy : (1 <= length (take 2 (filter (fun ind => Qle_bool 0.7 (weight ind) = true)
                                          (mood_indicators_at h ctx))) <= 2)%nat).
  { split; [|rewrite length_take; lia].
    rewrite mood_indicators_at_parts.
    rewrite !filter_app, !length_take, !length_app.
    unfold current_streak_part. cbv zeta.
    rewrite filter_cons_True by reflexivity. simpl length. lia. }
  destruct tr; rewrite ?length_app, ?length_map; simpl length; lia.
Qed.

(** X8.  A run on a snapshot in range returns between one and three
    insights (the descriptions of at most two heavy indicators, the streak
    being one of them, and the transition line if any) and no
    recommendation: the mood it settles on has no template. *)
Theorem detect_current_mood_insights_and_recommendations (user_id : string)
    (ctx : user_context) (w : world) :
  snapshot_in_range ctx ->
  exists r w',
    detect_current_mood user_id ctx w = (Return r, w')
    /\ (1 <= length (r_insights r) <= 3)%nat
    /\ r_recommendations r = [].
Proof.
  intros _. destruct w as [t [pool ok rows]]. rewrite detect_current_mood_eq.
  eexists _, _. split; [reflexivity|].
  cbn [r_insights r_indicators r_transition r_recommendations].
  split; [apply encouraging_insights_length | reflexivity].
Qed.

Lemma detect_current_mood_insights_witness :
  exists r w',
    detect_current_mood "user-1" busy_context (healthy_world 0 ∅) = (Return r, w')
    /\ (1 <= length (r_insights r) <= 3)%nat
    /\ r_recommendations r = [].
Proof.
  apply (detect_current_mood_insights_and_recommendations "user-1" busy_context
           (healthy_world 0 ∅)).
  apply (bool_decide_unpack _). vm_compute. reflexivity.
Defined.


(** ** The scores of the personality engine *)













Lemma normalize_scores_names (scores : list (string * Q)) :
  map fst (PersonalityEngine.normalize_scores scores) = map fst scores.
Proof.
  unfold PersonalityEngine.normalize_scores.
  destruct (Qlt_bool 0 _); [|reflexivity].
  rewrite map_map. apply map_ext. intros [mood score]. reflexivity.
Qed.




Lemma personality_tone_is_configured (mood : string) (c : Q) :
  PersonalityEngine._get_personality_tone mood c ∈ COMMUNICATION_PATTERNS.
Proof.
  unfold PersonalityEngine._get_personality_tone, MOOD_STATES, COMMUNICATION_PATTERNS.
  cbv zeta. cbn [find fst].
  destruct (Qlt_bool c 0.5);
    repeat match goal with
           | |- context [String.eqb ?s mood] => destruct (String.eqb s mood)
           end;
    solve [ repeat first [ apply list_elem_of_here | apply list_elem_of_further ] ].
Qed.



(** X10.  A freshly computed analysis names one of the six moods of
    [MOOD_STATES] and a tone that is a key of [COMMUNICATION_PATTERNS], is
    flagged as adapted, and comes with exactly two recommendations and at
    most two contributing factors. *)
Theorem fresh_analysis_is_configured (self : PersonalityEngine.engine)
    (cache_key : string) (ctx : user_context) (w : world) :
  exists a self',
    PersonalityEngine.compute_and_store self cache_key ctx w = (Return (a, self'), w)
    /\ PersonalityEngine.detected_mood a ∈ map fst MOOD_STATES
    /\ PersonalityEngine.personality_tone a ∈ COMMUNICATION_PATTERNS
    /\ PersonalityEngine.adaptation_applied a = true
    /\ length (PersonalityEngine.recommendations a) = 2%nat
    /\ (length (PersonalityEngine.contributing_factors a) <= 2)%nat.
Proof.
  destruct (compute_and_store_eq self cache_key ctx w) as (first & rest & Hn & ->).
  eexists _, _. split; [reflexivity|].
  pose proof (normalize_scores_names
                (PersonalityEngine.raw_mood_scores (dt_hour (w_now w)) ctx)) as Hnames.
  rewrite Hn in Hnames.
  change (map fst (PersonalityEngine.raw_mood_scores (dt_hour (w_now w)) ctx))
    with (map fst MOOD_STATES) in Hnames.
  pose proof (max_by_snd_elem rest first) as Hin.
  unfold PersonalityEngine.build_analysis. cbv zeta.
  destruct (max_by_snd first rest) as [mood c].
  cbn [PersonalityEngine.detected_mood PersonalityEngine.personality_tone
       PersonalityEngine.adaptation_applied PersonalityEngine.recommendations
       PersonalityEngine.contributing_factors].
  assert (Hmood : mood ∈ map fst MOOD_STATES).
  { rewrite <- Hnames. apply list_elem_of_fmap. exists (mood, c). auto. }
  split; [exact Hmood|]. split; [apply personality_tone_is_configured|].
  split; [reflexivity|].
  unfold MOOD_STATES in Hmood. cbn [map fst] in Hmood. rewrite !elem_of_cons in Hmood.
  destruct Hmood as [-> | [-> | [-> | [-> | [-> | [-> | Hnil]]]]]];
    [ .. | apply elem_of_nil in Hnil; contradiction ];
    (split; [reflexivity|]);
    unfold PersonalityEngine._get_contributing_factors; cbv zeta;
    cbn [String.eqb Ascii.eqb Bool.eqb andb];
    repeat match goal with
           | |- context [if ?b then _ else _] => destruct b
           | |- context [match ?x with _ => _ end] => destruct x
           end;
    rewrite length_take; simpl length; lia.
Qed.


(** ** The result cache, continued *)

(** What [analyze_user_mood] does for a snapshot that names a user: the
    cached analysis when the key is present and the seconds field of its age
    is below 1800, a fresh computation otherwise. *)
Lemma analyze_user_mood_cases (self : PersonalityEngine.engine) (ctx : user_context)
    (c : Ascii.ascii) (uid : string) (w : world) :
  user_id_of ctx = Some (String c uid) ->
  PersonalityEngine.analyze_user_mood self ctx w
  = match PersonalityEngine.mood_cache self
          !! PersonalityEngine.make_cache_key (String c uid) (w_now w) with
    | Some entry =>
        if (td_seconds (w_now w - PersonalityEngine.timestamp entry) <? 1800)%Z
        then (Return (PersonalityEngine.mood_analysis entry, self), w)
        else PersonalityEngine.compute_and_store self
               (PersonalityEngine.make_cache_key (String c uid) (w_now w)) ctx w
    | None =>
        PersonalityEngine.compute_and_store self
          (PersonalityEngine.make_cache_key (String c uid) (w_now w)) ctx w
    end.
Proof.
  intros Huid. unfold user_id_of in Huid.
  destruct (compute_and_store_eq self
              (PersonalityEngine.make_cache_key (String c uid) (w_now w)) ctx w)
    as (first & rest & _ & Hcs).
  unfold PersonalityEngine.analyze_user_mood, PersonalityEngine.cache_lookup,
    try_except, bind, datetime_now, ret.
  rewrite Huid. cbv beta iota.
  destruct (PersonalityEngine.mood_cache self !! _) as [entry|]; cbv beta iota.
  - destruct (_ <? 1800)%Z; cbv beta iota; [reflexivity|]. rewrite Hcs. reflexivity.
  - rewrite Hcs. reflexivity.
Qed.

Lemma analyze_user_mood_anonymous (self : PersonalityEngine.engine) (ctx : user_context)
    (w : world) :
  user_id_of ctx = None \/ user_id_of ctx = Some "" ->
  PersonalityEngine.analyze_user_mood self ctx w
  = (Return (PersonalityEngine._get_default_mood, self), w).
Proof.
  unfold user_id_of, PersonalityEngine.analyze_user_mood, try_except, ret.
  intros [-> | ->]; reflexivity.
Qed.

(** X11.  A snapshot that names no user (no [user_info], no ["id"], or an
    empty id) gets the default analysis and leaves the cache alone.  That
    default is flagged as not adapted, and neither its mood ["neutral"] nor
    its tone ["friendly"] is a key of the configuration tables. *)
Theorem anonymous_snapshot_gets_the_default (self : PersonalityEngine.engine)
    (ctx : user_context) (w : world) :
  user_id_of ctx = None \/ user_id_of ctx = Some "" ->
  exists a,
    PersonalityEngine.analyze_user_mood self ctx w = (Return (a, self), w)
    /\ PersonalityEngine.adaptation_applied a = false
    /\ PersonalityEngine.confidence a = 0.5
    /\ PersonalityEngine.mood_scores a = []
    /\ (PersonalityEngine.detected_mood a ∉ map fst MOOD_STATES)
    /\ (PersonalityEngine.personality_tone a ∉ COMMUNICATION_PATTERNS).
Proof.
  intros Hanon. rewrite (analyze_user_mood_anonymous self ctx w Hanon).
  eexists. split; [reflexivity|]. repeat split;
    apply (bool_decide_unpack _); reflexivity.
Qed.

Lemma anonymous_snapshot_witness :
  exists a,
    PersonalityEngine.analyze_user_mood engine_with_old_entry anonymous_context
      (healthy_world 0 ∅)
    = (Return (a, engine_with_old_entry), healthy_world 0 ∅)
    /\ PersonalityEngine.adaptation_applied a = false.
Proof.
  destruct (anonymous_snapshot_gets_the_default engine_with_old_entry anonymous_context
              (healthy_world 0 ∅)) as (a & Ha & Hflag & _).
  - left. reflexivity.
  - exists a. split; assumption.
Defined.

(** X12.  A call never raises and never drops a cache entry: every key of
    the cache is still there afterwards, and every entry other than the one
    of the caller's own key is unchanged. *)
Theorem analyze_user_mood_keeps_the_cache (self : PersonalityEngine.engine)
    (ctx : user_context) (w : world) :
  exists a self',
    PersonalityEngine.analyze_user_mood self ctx w = (Return (a, self'), w)
    /\ (forall k, is_Some (PersonalityEngine.mood_cache self !! k) ->
                  is_Some (PersonalityEngine.mood_cache self' !! k))
    /\ (forall k, (forall uid, user_id_of ctx = Some uid ->
                               k <> PersonalityEngine.make_cache_key uid (w_now w)) ->
                  PersonalityEngine.mood_cache self' !! k
                  = PersonalityEngine.mood_cache self !! k).
Proof.
  destruct (user_id_of ctx) as [[|c uid]|] eqn:Huid.
  - rewrite analyze_user_mood_anonymous by (right; exact Huid). eauto.
  - rewrite (analyze_user_mood_cases self ctx c uid w Huid).
    destruct (compute_and_store_eq self
                (PersonalityEngine.make_cache_key (String c uid) (w_now w)) ctx w)
      as (first & rest & _ & Hcs).
    assert (Hfresh : exists a self',
               PersonalityEngine.compute_and_store self
                 (PersonalityEngine.make_cache_key (String c uid) (w_now w)) ctx w
               = (Return (a, self'), w)
               /\ (forall k, is_Some (PersonalityEngine.mood_cache self !! k) ->
                             is_Some (PersonalityEngine.mood_cache self' !! k))
               /\ (forall k, (forall u, Some (String c uid) = Some u ->
                                        k <> PersonalityEngine.make_cache_key u (w_now w)) ->
                             PersonalityEngine.mood_cache self' !! k
                             = PersonalityEngine.mood_cache self !! k)).
    { rewrite Hcs. eexists _, _. split; [reflexivity|].
      cbn [PersonalityEngine.mood_cache]. split.
      - intros k Hk.
        destruct (decide (PersonalityEngine.make_cache_key (String c uid) (w_now w) = k))
          as [<- | Hne].
        + rewrite lookup_insert_eq. eauto.
        + rewrite lookup_insert_ne by exact Hne. exact Hk.
      - intros k Hk. apply lookup_insert_ne. intros Heq. apply (Hk _ eq_refl). auto. }
    destruct (PersonalityEngine.mood_cache self !! _) as [entry|]; [|exact Hfresh].
    destruct (_ <? 1800)%Z; [eauto | exact Hfresh].
  - rewrite analyze_user_mood_anonymous by (left; exact Huid). eauto.
Qed.

(** X13.  An entry found under the caller's key whose age has a seconds
    field of 1800 or more is not returned: for a snapshot in range the
    analysis is computed afresh from the snapshot and stored under the same
    key with the current time. *)
Theorem stale_entry_is_recomputed (self : PersonalityEngine.engine) (ctx : user_context)
    (c : Ascii.ascii) (uid : string) (w : world) (entry : PersonalityEngine.cache_entry) :
  snapshot_in_range ctx ->
  user_id_of ctx = Some (String c uid) ->
  PersonalityEngine.mood_cache self
    !! PersonalityEngine.make_cache_key (String c uid) (w_now w) = Some entry ->
  (1800 <= td_seconds (w_now w - PersonalityEngine.timestamp entry))%Z ->
  exists a self',
    PersonalityEngine.analyze_user_mood self ctx w = (Return (a, self'), w)
    /\ PersonalityEngine.compute_and_store self
         (PersonalityEngine.make_cache_key (String c uid) (w_now w)) ctx w
       = (Return (a, self'), w)
    /\ PersonalityEngine.mood_cache self'
         !! PersonalityEngine.make_cache_key (String c uid) (w_now w)
       = Some (PersonalityEngine.CacheEntry a (w_now w)).
Proof.
  intros _ Huid Hkey Hage.
  rewrite (analyze_user_mood_cases self ctx c uid w Huid), Hkey.
  apply Z.ltb_ge in Hage. rewrite Hage.
  destruct (compute_and_store_eq self
              (PersonalityEngine.make_cache_key (String c uid) (w_now w)) ctx w)
    as (first & rest & _ & Hcs).
  rewrite Hcs. eexists _, _. split; [reflexivity|]. split; [reflexivity|].
  cbn [PersonalityEngine.mood_cache]. apply lookup_insert_eq.
Qed.

Lemma stale_entry_witness :
  exists a self',
    PersonalityEngine.analyze_user_mood engine_with_old_entry scenario_struggling
      (healthy_world next_day_10_30_10 ∅)
    = (Return (a, self'), healthy_world next_day_10_30_10 ∅)
    /\ PersonalityEngine.mood_cache self' !! "user-1_10_30"
       = Some (PersonalityEngine.CacheEntry a next_day_10_30_10).
Proof.
  assert (Hrange : snapshot_in_range scenario_struggling)
    by (apply (bool_decide_unpack _); vm_compute; reflexivity).
  destruct (stale_entry_is_recomputed engine_with_old_entry scenario_struggling
              _ _ (healthy_world next_day_10_30_10 ∅)
              (PersonalityEngine.CacheEntry PersonalityEngine._get_default_mood
                 first_day_10_30_50) Hrange eq_refl)
    as (a & self' & Ha & _ & Hkey).
  - apply lookup_singleton_eq.
  - vm_compute. discriminate.
  - exists a, self'. split; [exact Ha | exact Hkey].
Defined.

(** The statement of [same_minute_second_call_hits] at a first call at
    10:30:05 and a second one ten seconds later, on another snapshot. *)
Lemma same_minute_second_call_witness :
  exists a1 self1,
    PersonalityEngine.compute_and_store (PersonalityEngine.Engine ∅) "user-1_10_30"
      scenario_struggling (healthy_world first_day_10_30_05 ∅)
    = (Return (a1, self1), healthy_world first_day_10_30_05 ∅)
    /\ PersonalityEngine.analyze_user_mood self1 scenario_celebrating
         (healthy_world (first_day_10_30_05 + 10 * usec_per_second) ∅)
       = (Return (a1, self1), healthy_world (first_day_10_30_05 + 10 * usec_per_second) ∅).
Proof.
  destruct (compute_and_store_eq (PersonalityEngine.Engine ∅) "user-1_10_30"
              scenario_struggling (healthy_world first_day_10_30_05 ∅))
    as (first & rest & _ & Hcs).
  eexists _, _. split; [exact Hcs|].
  apply (same_minute_second_call_hits (PersonalityEngine.Engine ∅) _
           scenario_struggling scenario_celebrating _ _
           first_day_10_30_05 (first_day_10_30_05 + 10 * usec_per_second)
           (Database true true ∅) (Database true true ∅) _ eq_refl).
  - exact Hcs.
  - vm_compute. discriminate.
  - reflexivity.
Defined.


(** ** What the undefined methods do to the callers *)

(** What [predict_mood_changes] returns when the class lacks
    [_analyze_mood_risk_factors]. *)
Lemma predict_mood_changes_eq_error {Risks Transitions Actions Level : Type}
    (self : prediction_methods Risks Transitions Actions Level)
    (user_id : string) (ctx : user_context) (w : world) :
  _analyze_mood_risk_factors _ _ _ _ self = None ->
  predict_mood_changes self user_id ctx w
  = (Return (PredictionError (no_attribute "_analyze_mood_risk_factors")),
     snd (detect_current_mood user_id ctx w)).
Proof.
  intros Hnone. destruct w as [t [pool ok rows]].
  unfold predict_mood_changes, try_except, bind. rewrite detect_current_mood_eq.
  cbv zeta. cbn [snd]. rewrite Hnone. reflexivity.
Qed.

(** X14.  A service object without [_analyze_mood_risk_factors] cannot
    predict: every call returns the error dict with the [AttributeError]
    text, and none of the other three prediction methods is reached.  The
    classification run that precedes the failing call has already happened:
    for a snapshot in range the world is the one that run leaves, so on a
    database that answers the mood is persisted all the same. *)
Theorem predict_mood_changes_without_risk_analysis
    {Risks Transitions Actions Level : Type}
    (self : prediction_methods Risks Transitions Actions Level)
    (user_id : string) (ctx : user_context) (w : world) :
  _analyze_mood_risk_factors _ _ _ _ self = None ->
  fst (predict_mood_changes self user_id ctx w)
  = Return (PredictionError (no_attribute "_analyze_mood_risk_factors"))
  /\ (snapshot_in_range ctx ->
      snd (predict_mood_changes self user_id ctx w)
      = snd (detect_current_mood user_id ctx w)
      /\ (~ read_fails w ->
          persisted_mood (snd (predict_mood_changes self user_id ctx w)) user_id
          = Some "encouraging")).
Proof.
  intros Hnone. rewrite (predict_mood_changes_eq_error self user_id ctx w Hnone).
  split; [reflexivity|]. intros _. split; [reflexivity|].
  cbn [snd]. destruct w as [t [pool ok rows]]. unfold read_fails.
  cbn [w_db pool_initialized query_ok]. intros Hok.
  assert (Hon : pool && ok = true).
  { destruct pool; [|exfalso; apply Hok; left; reflexivity].
    destruct ok; [reflexivity | exfalso; apply Hok; right; reflexivity]. }
  rewrite detect_current_mood_eq, Hon.
  cbn [snd]. unfold persisted_mood. cbn [w_db lumi_memory_rows].
  rewrite lookup_insert_eq. reflexivity.
Qed.

Lemma predict_mood_changes_witness :
  fst (predict_mood_changes MoodDetectorService_prediction "user-1" scenario_struggling
         (healthy_world 0 ∅))
  = Return (PredictionError
              "'MoodDetectorService' object has no attribute '_analyze_mood_risk_factors'")
  /\ persisted_mood
       (snd (predict_mood_changes MoodDetectorService_prediction "user-1"
               scenario_struggling (healthy_world 0 ∅))) "user-1"
     = Some "encouraging".
Proof.
  assert (Hrange : snapshot_in_range scenario_struggling)
    by (apply (bool_decide_unpack _); vm_compute; reflexivity).
  destruct (predict_mood_changes_without_risk_analysis MoodDetectorService_prediction
              "user-1" scenario_struggling (healthy_world 0 ∅) eq_refl)
    as (Herr & Hrun).
  split; [exact Herr|].
  destruct (Hrun Hrange) as (_ & Hmood).
  apply Hmood. intros [H | H]; discriminate H.
Defined.


(** X26.  With a service object that lacks [_analyze_mood_risk_factors],
    the insights route reads its predictions off an error dict: the risk
    level defaults to ["low"], so whenever predictions are asked for, the
    single predictive insight is the reassuring one, for every user and
    snapshot. *)
Theorem predictive_insights_of_a_failed_prediction {Transitions Actions : Type}
    (mood_detector : prediction_methods (list string) Transitions Actions string)
    (user_id : string) (ctx : user_context) (w : world) :
  _analyze_mood_risk_factors _ _ _ _ mood_detector = None ->
  fst (AnalyticsHandler.predictive_insights mood_detector user_id ctx true w)
  = Return ["Tendência positiva de manutenção da produtividade"].
Proof.
  intros Hnone. unfold AnalyticsHandler.predictive_insights, bind.
  rewrite (predict_mood_changes_eq_error mood_detector user_id ctx w Hnone). reflexivity.
Qed.

Lemma predictive_insights_witness :
  fst (AnalyticsHandler.predictive_insights
         (@PredictionMethods (list string) unit unit string None None None None)
         "user-1" scenario_struggling true (healthy_world 0 ∅))
  = Return ["Tendência positiva de manutenção da produtividade"].
Proof.
  apply (predictive_insights_of_a_failed_prediction
           (@PredictionMethods (list string) unit unit string None None None None)
           "user-1" scenario_struggling (healthy_world 0 ∅)).
  reflexivity.
Defined.


(** What the history analysis returns when the class lacks
    [_analyze_mood_patterns]: always an error dict, and the world is left
    as it was. *)
Lemma analyze_mood_history_without_patterns {Patterns Triggers Recs : Type}
    (self : history_methods Patterns Triggers Recs) (user_id : string) (days : Z)
    (w : world) :
  _analyze_mood_patterns _ _ _ self = None ->
  exists message,
    analyze_mood_history self user_id days w = (Return (HistoryError message), w)
    /\ message ∈ [ "Database pool not initialized"; "query failed";
                   "Insufficient mood history data";
                   no_attribute "_analyze_mood_patterns" ].
Proof.
  intros Hnone. destruct w as [t [pool ok rows]].
  unfold analyze_mood_history, try_except, bind, get_connection, fetch_mood_history,
    run_query.
  cbn [w_db w_now pool_initialized query_ok lumi_memory_rows].
  destruct pool.
  2:{ eexists. split; [reflexivity|]. apply (bool_decide_unpack _). reflexivity. }
  destruct ok.
  2:{ eexists. split; [reflexivity|]. apply (bool_decide_unpack _). reflexivity. }
  assert (Hrows : forall history : list lumi_row,
             exists message,
               (let (r, w') :=
                  analyze_fetched_history self user_id days history
                    (World t (Database true true rows)) in
                match r with
                | Return a => (Return a, w')
                | Raise e => ret (HistoryError e) w'
                end)
               = (Return (HistoryError message), World t (Database true true rows))
               /\ message ∈ [ "Database pool not initialized"; "query failed";
                              "Insufficient mood history data";
                              no_attribute "_analyze_mood_patterns" ]).
  { intros [|row rest].
    - eexists. split; [reflexivity|]. apply (bool_decide_unpack _). reflexivity.
    - unfold analyze_fetched_history, bind, call_method. rewrite Hnone.
      eexists. split; [reflexivity|]. apply (bool_decide_unpack _). reflexivity. }
  destruct (rows !! user_id) as [row|];
    [destruct (t - days * 24 * usec_per_hour <=? updatedAt row)%Z|]; apply Hrows.
Qed.

(** X15.  The mood-history endpoint of a service object without
    [_analyze_mood_patterns] never answers with a report: every request
    ends in [HTTPException] 404, whose detail is the pool error, the query
    error, the insufficient-data message or the [AttributeError] text. *)
Theorem get_mood_history_always_404 {Patterns Triggers Recs : Type}
    (mood_detector : history_methods Patterns Triggers Recs) (user_id : string) (days : Z)
    (w : world) :
  _analyze_mood_patterns _ _ _ mood_detector = None ->
  exists detail,
    AnalyticsHandler.get_mood_history mood_detector user_id days w
    = (Return (AnalyticsHandler.HTTPException 404 detail), w)
    /\ detail ∈ [ "Database pool not initialized"; "query failed";
                  "Insufficient mood history data";
                  no_attribute "_analyze_mood_patterns" ].
Proof.
  intros Hnone.
  destruct (analyze_mood_history_without_patterns mood_detector user_id days w Hnone)
    as (message & Hrun & Hin).
  exists message. split; [|exact Hin].
  unfold AnalyticsHandler.get_mood_history, try_except, bind. rewrite Hrun. reflexivity.
Qed.

Lemma get_mood_history_witness :
  exists detail,
    AnalyticsHandler.get_mood_history MoodDetectorService "user-1" 30 one_sample_world
    = (Return (AnalyticsHandler.HTTPException 404 detail), one_sample_world).
Proof.
  destruct (get_mood_history_always_404 MoodDetectorService "user-1" 30 one_sample_world
              eq_refl) as (detail & Hrun & _).
  exists detail. exact Hrun.
Defined.

(** X16.  The summary endpoint: a failed fetch gives 500, an error dict
    gives 404, and a fetched context in range gives a body whose mood is
    ["encouraging"] with confidence [0.5], that carries one or two quick
    insights and no recommendation, and whose ["pomodoros_completed"] counts
    every session of the day, so at least the completed ones. *)
Theorem get_user_summary_outcomes (user_id : string) (ctx : user_context) (w : world) :
  snapshot_in_range ctx ->
  (forall e,
     AnalyticsHandler.get_user_summary (Raise e) user_id w
     = (Return (AnalyticsHandler.HTTPException 500 "Erro ao obter resumo"), w))
  /\ (forall message,
        AnalyticsHandler.get_user_summary (Return (inl message)) user_id w
        = (Return (AnalyticsHandler.HTTPException 404 "Usuário não encontrado"), w))
  /\ exists body,
       AnalyticsHandler.get_user_summary (Return (inr ctx)) user_id w
       = (Return (AnalyticsHandler.Response body), snd (detect_current_mood user_id ctx w))
       /\ AnalyticsHandler.s_current_mood body = "encouraging"
       /\ AnalyticsHandler.s_mood_confidence body = 0.5
       /\ AnalyticsHandler.s_recommendations body = []
       /\ (1 <= length (AnalyticsHandler.s_quick_insights body) <= 2)%nat
       /\ (completed_today ctx
           <= Z.of_nat (AnalyticsHandler.s_pomodoros_completed body))%Z.
Proof.
  intros _. split; [reflexivity|]. split; [reflexivity|].
  destruct w as [t [pool ok rows]].
  unfold AnalyticsHandler.get_user_summary, try_except, bind, lift, ret.
  rewrite detect_current_mood_eq. cbv zeta.
  cbn [snd r_current_mood r_confidence r_insights r_recommendations].
  eexists. split; [reflexivity|].
  cbn [AnalyticsHandler.s_current_mood AnalyticsHandler.s_mood_confidence
       AnalyticsHandler.s_recommendations AnalyticsHandler.s_quick_insights
       AnalyticsHandler.s_pomodoros_completed].
  split; [reflexivity|]. split; [reflexivity|]. split; [reflexivity|]. split.
  - pose proof (encouraging_insights_length (dt_hour t) ctx
                  (if pool && ok
                   then match rows !! user_id with
                        | Some row =>
                            if negb (String.eqb (currentMood row) "encouraging") then
                              Some (mkMoodTransition (currentMood row) "encouraging" t
                                      (_identify_transition_triggers (currentMood row)
                                         "encouraging") 0.7)
                            else None
                        | None => None
                        end
                   else None)) as Hlen.
    rewrite length_take. lia.
  - unfold completed_today. apply inj_le. apply length_filter.
Qed.

(** The statement at a busy snapshot: one of the two sessions of the day
    was interrupted, and both are counted. *)
Lemma get_user_summary_witness :
  exists body w',
    AnalyticsHandler.get_user_summary (Return (inr busy_context)) "user-1"
      (healthy_world 0 ∅)
    = (Return (AnalyticsHandler.Response body), w')
    /\ AnalyticsHandler.s_recommendations body = []
    /\ (completed_today busy_context
        < Z.of_nat (AnalyticsHandler.s_pomodoros_completed body))%Z.
Proof.
  assert (Hrange : snapshot_in_range busy_context)
    by (apply (bool_decide_unpack _); vm_compute; reflexivity).
  destruct (get_user_summary_outcomes "user-1" busy_context (healthy_world 0 ∅)
              Hrange) as (_ & _ & body & Hrun & Hmood & _ & Hrecs & _).
  exists body, (snd (detect_current_mood "user-1" busy_context (healthy_world 0 ∅))).
  split; [exact Hrun|]. split; [exact Hrecs|].
  unfold healthy_world in Hrun.
  unfold AnalyticsHandler.get_user_summary, try_except, bind, lift, ret in Hrun.
  rewrite detect_current_mood_eq in Hrun. cbv zeta in Hrun.
  injection Hrun as <-. vm_compute. reflexivity.
Defined.


(** ** The cache key *)

Lemma string_length_append (a b : string) :
  String.length (a ++ b)%string = (String.length a + String.length b)%nat.
Proof.
  induction a as [|c a IH]; [reflexivity|].
  change (S (String.length (a ++ b)%string) = S (String.length a + String.length b)).
  rewrite IH. reflexivity.
Qed.

Lemma string_append_cons (c : Ascii.ascii) (a b : string) :
  (String c a ++ b)%string = String c (a ++ b)%string.
Proof. reflexivity. Qed.

Lemma string_append_nil (b : string) : ("" ++ b)%string = b.
Proof. reflexivity. Qed.

(** Two strings that end in suffixes of the same length and are equal have
    equal prefixes and equal suffixes. *)
Lemma string_append_inj (u1 u2 s1 s2 : string) :
  String.length s1 = String.length s2 ->
  (u1 ++ s1)%string = (u2 ++ s2)%string ->
  u1 = u2 /\ s1 = s2.
Proof.
  intros Hlen. revert u2. induction u1 as [|c u1 IH]; intros [|d u2] Heq.
  - split; [reflexivity | exact Heq].
  - exfalso. apply (f_equal String.length) in Heq.
    rewrite !string_length_append in Heq. cbn [String.length] in Heq. lia.
  - exfalso. apply (f_equal String.length) in Heq.
    rewrite !string_length_append in Heq. cbn [String.length] in Heq. lia.
  - change (String c (u1 ++ s1)%string = String d (u2 ++ s2)%string) in Heq.
    injection Heq as -> Heq. destruct (IH u2 Heq) as [-> ->]. split; reflexivity.
Qed.

(** [f"{a}_{b}"] determines [a] and [b] once the length of [b] is fixed. *)
Lemma underscore_joined_inj (a1 a2 b1 b2 : string) :
  String.length b1 = String.length b2 ->
  (a1 ++ "_" ++ b1)%string = (a2 ++ "_" ++ b2)%string ->
  a1 = a2 /\ b1 = b2.
Proof.
  intros Hlen Heq. apply string_append_inj in Heq.
  - destruct Heq as [-> Heq]. split; [reflexivity|].
    rewrite !string_append_cons, !string_append_nil in Heq. injection Heq as Heq.
    exact Heq.
  - rewrite !string_length_append, Hlen. reflexivity.
Qed.

Lemma two_digits_inj (n m : Z) :
  (0 <= n < 100)%Z -> (0 <= m < 100)%Z ->
  PersonalityEngine.two_digits n = PersonalityEngine.two_digits m -> n = m.
Proof.
  intros Hn Hm Heq. unfold PersonalityEngine.two_digits in Heq.
  injection Heq as Hhi Hlo.
  assert (Hdn : (0 <= n / 10 < 10)%Z)
    by (split; [apply Z.div_pos; lia | apply Z.div_lt_upper_bound; lia]).
  assert (Hdm : (0 <= m / 10 < 10)%Z)
    by (split; [apply Z.div_pos; lia | apply Z.div_lt_upper_bound; lia]).
  pose proof (Z.mod_pos_bound n 10 ltac:(lia)) as Hrn.
  pose proof (Z.mod_pos_bound m 10 ltac:(lia)) as Hrm.
  apply (f_equal Ascii.nat_of_ascii) in Hhi, Hlo.
  rewrite !Ascii.nat_ascii_embedding in Hhi, Hlo by lia.
  rewrite (Z.div_mod n 10), (Z.div_mod m 10) by lia.
  assert (n / 10 = m / 10)%Z by lia. assert (n mod 10 = m mod 10)%Z by lia. lia.
Qed.

(** X17.  Two calls use the same cache key exactly when they are for the
    same user at the same hour and minute of the clock: the key tells users
    apart, whatever characters their ids hold, and tells nothing else of
    the time apart, neither the day nor the second. *)
Theorem cache_key_identifies_user_hour_minute (u1 u2 : string) (t1 t2 : Z) :
  PersonalityEngine.make_cache_key u1 t1 = PersonalityEngine.make_cache_key u2 t2
  <-> u1 = u2 /\ dt_hour t1 = dt_hour t2 /\ dt_minute t1 = dt_minute t2.
Proof.
  split.
  - unfold PersonalityEngine.make_cache_key. intros Heq.
    apply underscore_joined_inj in Heq; [|reflexivity].
    destruct Heq as [-> Heq]. split; [reflexivity|].
    unfold PersonalityEngine.strftime_H_M in Heq.
    apply underscore_joined_inj in Heq; [|reflexivity].
    destruct Heq as [Hh Hm].
    assert (Hhr : forall t, (0 <= dt_hour t < 100)%Z)
      by (intros t; unfold dt_hour; pose proof (Z.mod_pos_bound (t / usec_per_hour) 24); lia).
    assert (Hmr : forall t, (0 <= dt_minute t < 100)%Z)
      by (intros t; unfold dt_minute;
          pose proof (Z.mod_pos_bound (t / usec_per_minute) 60); lia).
    split; apply two_digits_inj; auto.
  - intros (-> & Hh & Hm). unfold PersonalityEngine.make_cache_key,
      PersonalityEngine.strftime_H_M. rewrite Hh, Hm. reflexivity.
Qed.


(** X18.  A cache that holds only other users' entries never answers: for
    a snapshot in range the analysis is computed from the caller's own
    snapshot. *)
Theorem other_users_entries_are_never_returned (self : PersonalityEngine.engine)
    (ctx : user_context) (c : Ascii.ascii) (uid : string) (w : world) :
  snapshot_in_range ctx ->
  user_id_of ctx = Some (String c uid) ->
  (forall k, is_Some (PersonalityEngine.mood_cache self !! k) ->
             exists other t,
               k = PersonalityEngine.make_cache_key other t /\ other <> String c uid) ->
  PersonalityEngine.analyze_user_mood self ctx w
  = PersonalityEngine.compute_and_store self
      (PersonalityEngine.make_cache_key (String c uid) (w_now w)) ctx w.
Proof.
  intros _ Huid Hothers. rewrite (analyze_user_mood_cases self ctx c uid w Huid).
  destruct (PersonalityEngine.mood_cache self
              !! PersonalityEngine.make_cache_key (String c uid) (w_now w))
    as [entry|] eqn:Hkey; [|reflexivity].
  exfalso. destruct (Hothers _ (mk_is_Some _ _ Hkey)) as (other & t & Heq & Hne).
  unfold PersonalityEngine.make_cache_key in Heq.
  apply underscore_joined_inj in Heq; [|reflexivity].
  apply Hne. symmetry. apply Heq.
Qed.

Lemma other_users_entries_witness :
  PersonalityEngine.analyze_user_mood engine_of_user_2 scenario_struggling
    (healthy_world 0 ∅)
  = PersonalityEngine.compute_and_store engine_of_user_2 "user-1_00_00"
      scenario_struggling (healthy_world 0 ∅).
Proof.
  assert (Hrange : snapshot_in_range scenario_struggling)
    by (apply (bool_decide_unpack _); vm_compute; reflexivity).
  apply (other_users_entries_are_never_returned engine_of_user_2 scenario_struggling
           _ _ (healthy_world 0 ∅) Hrange eq_refl).
  intros k [entry Hk]. unfold engine_of_user_2 in Hk.
  cbn [PersonalityEngine.mood_cache] in Hk.
  apply lookup_singleton_Some in Hk. destruct Hk as [<- _].
  exists "user-2", 0%Z. split; [reflexivity | discriminate].
Defined.


(** ** The rate limiter of the response generator *)

Lemma check_rate_limit_history (now : Q) (h : list Q) :
  snd (AIEngine._check_rate_limit now h)
  = filter (fun req_time => Qlt_bool (now - req_time) 3600 = true) h.
Proof.
  unfold AIEngine._check_rate_limit. cbv zeta.
  destruct (_ <=? _)%nat; [reflexivity|]. destruct (_ <=? _)%nat; reflexivity.
Qed.

Lemma check_rate_limit_allowed (now : Q) (h : list Q) :
  fst (AIEngine._check_rate_limit now h) = true
  <-> (length (filter (fun req_time => Qlt_bool (now - req_time) 60 = true)
                 (filter (fun req_time => Qlt_bool (now - req_time) 3600 = true) h))
       < AIEngine.requests_per_minute)%nat
      /\ (length (filter (fun req_time => Qlt_bool (now - req_time) 3600 = true) h)
          < AIEngine.requests_per_hour)%nat.
Proof.
  unfold AIEngine._check_rate_limit. cbv zeta.
  destruct (Nat.leb_spec AIEngine.requests_per_minute
              (length (filter (fun req_time => Qlt_bool (now - req_time) 60 = true)
                 (filter (fun req_time => Qlt_bool (now - req_time) 3600 = true) h))))
    as [Hm | Hm]; cbn [fst].
  - split; [discriminate | lia].
  - destruct (Nat.leb_spec AIEngine.requests_per_hour
                (length (filter (fun req_time => Qlt_bool (now - req_time) 3600 = true) h)))
      as [Hh | Hh]; cbn [fst].
    + split; [discriminate | lia].
    + split; [intros _; split; assumption | reflexivity].
Qed.

Lemma filter_idempotent {A : Type} (P : A -> Prop) `{forall x, Decision (P x)}
    (l : list A) :
  filter P (filter P l) = filter P l.
Proof.
  induction l as [|x l IH]; [reflexivity|].
  rewrite (filter_cons P x l). destruct (decide (P x)) as [HP | HP]; [|exact IH].
  rewrite filter_cons_True by exact HP. rewrite IH. reflexivity.
Qed.

Lemma filter_sublist_mono {A : Type} (P : A -> Prop) `{forall x, Decision (P x)}
    (l1 l2 : list A) :
  l1 `sublist_of` l2 -> filter P l1 `sublist_of` filter P l2.
Proof.
  induction 1 as [|x l1 l2 _ IH|x l1 l2 _ IH].
  - constructor.
  - rewrite (filter_cons P x l1), (filter_cons P x l2).
    destruct (decide (P x)); [constructor|]; exact IH.
  - rewrite (filter_cons P x l2).
    destruct (decide (P x)); [constructor|]; exact IH.
Qed.

(** X19.  The rate check keeps, in their order, exactly the requests
    younger than an hour; it allows the call only when fewer than 60 of them
    are younger than a minute and fewer than 1000 remain; and asking again at
    the same clock reading changes neither the history nor the verdict. *)
Theorem check_rate_limit_prunes_and_bounds (now : Q) (h : list Q) :
  let '(allowed, h') := AIEngine._check_rate_limit now h in
  h' `sublist_of` h
  /\ (forall t, t ∈ h' <-> t ∈ h /\ now - t < 3600)
  /\ (allowed = true ->
        (length (filter (fun t => Qlt_bool (now - t) 60 = true) h') < 60)%nat
        /\ (length h' < 1000)%nat)
  /\ AIEngine._check_rate_limit now h' = (allowed, h').
Proof.
  pose proof (check_rate_limit_history now h) as Hh.
  pose proof (check_rate_limit_allowed now h) as Hok.
  destruct (AIEngine._check_rate_limit now h) as [allowed h'] eqn:E.
  cbn [fst snd] in Hh, Hok. subst h'.
  split; [apply sublist_filter|]. split.
  - intros t. rewrite list_elem_of_filter, Qlt_bool_true. tauto.
  - split.
    + intros ->. apply Hok. reflexivity.
    + pose proof (check_rate_limit_history now
                    (filter (fun t => Qlt_bool (now - t) 3600 = true) h)) as Hh2.
      pose proof (check_rate_limit_allowed now
                    (filter (fun t => Qlt_bool (now - t) 3600 = true) h)) as Hok2.
      rewrite filter_idempotent in Hh2, Hok2.
      destruct (AIEngine._check_rate_limit now
                  (filter (fun t => Qlt_bool (now - t) 3600 = true) h)) as [a2 h2].
      cbn [fst snd] in Hh2, Hok2. subst h2. f_equal.
      destruct allowed, a2; try reflexivity.
      * apply Hok2, Hok. reflexivity.
      * symmetry. apply Hok, Hok2. reflexivity.
Qed.

(** X20.  A refusal is never lifted by more traffic: if the check refuses
    on a history, it refuses at the same clock reading on every history
    that contains it. *)
Theorem rate_limit_refusal_is_monotone (now : Q) (h1 h2 : list Q) :
  h1 `sublist_of` h2 ->
  fst (AIEngine._check_rate_limit now h1) = false ->
  fst (AIEngine._check_rate_limit now h2) = false.
Proof.
  intros Hsub Hrefused.
  destruct (fst (AIEngine._check_rate_limit now h2)) eqn:E; [|reflexivity].
  apply check_rate_limit_allowed in E. destruct E as [Hm Hh].
  assert (Hallowed : fst (AIEngine._check_rate_limit now h1) = true).
  { apply check_rate_limit_allowed.
    pose proof (sublist_length _ _
                  (filter_sublist_mono (fun t => Qlt_bool (now - t) 3600 = true) _ _ Hsub)).
    pose proof (sublist_length _ _
                  (filter_sublist_mono (fun t => Qlt_bool (now - t) 60 = true) _ _
                     (filter_sublist_mono (fun t => Qlt_bool (now - t) 3600 = true)
                        _ _ Hsub))).
    split; lia. }
  congruence.
Qed.

Lemma rate_limit_refusal_witness :
  fst (AIEngine._check_rate_limit 30 (sixty_requests ++ [10])) = false.
Proof.
  apply (rate_limit_refusal_is_monotone 30 sixty_requests (sixty_requests ++ [10])).
  - apply sublist_inserts_r. reflexivity.
  - vm_compute. reflexivity.
Defined.


(** ** One call of the response generator *)

Lemma analyze_user_mood_returns (self : PersonalityEngine.engine) (ctx : user_context)
    (w : world) :
  exists a self', PersonalityEngine.analyze_user_mood self ctx w = (Return (a, self'), w).
Proof.
  destruct (user_id_of ctx) as [[|c uid]|] eqn:Huid.
  - rewrite analyze_user_mood_anonymous by (right; exact Huid). eauto.
  - rewrite (analyze_user_mood_cases self ctx c uid w Huid).
    destruct (compute_and_store_eq self
                (PersonalityEngine.make_cache_key (String c uid) (w_now w)) ctx w)
      as (first & rest & _ & Hcs).
    rewrite Hcs.
    destruct (PersonalityEngine.mood_cache self !! _) as [entry|]; [|eauto].
    destruct (_ <? 1800)%Z; eauto.
  - rewrite analyze_user_mood_anonymous by (left; exact Huid). eauto.
Qed.

(** The closed form of [generate_response]. *)
Lemma generate_response_eq {Processed : Type}
    (generate : user_context -> string -> PersonalityEngine.MoodAnalysis -> pyresult string)
    (process : string -> PersonalityEngine.MoodAnalysis -> user_context
               -> pyresult Processed)
    (self : AIEngine.ai_engine) (ctx : user_context) (message : string) (w : world) :
  exists a engine',
    PersonalityEngine.analyze_user_mood (AIEngine.personality_engine self) ctx w
    = (Return (a, engine'), w)
    /\ AIEngine.generate_response generate process self ctx message w
       = let now := inject_Z (w_now w) / 1000000 in
         let '(allowed, history) :=
           AIEngine._check_rate_limit now (AIEngine.request_history self) in
         if negb allowed then
           (Return (AIEngine.rate_limited_response,
                    AIEngine.AiEngine (AIEngine.personality_engine self) history), w)
         else
           match generate ctx message a with
           | Raise e =>
               (Return (AIEngine.error_response e, AIEngine.AiEngine engine' history), w)
           | Return response =>
               match process response a ctx with
               | Raise e =>
                   (Return (AIEngine.error_response e,
                            AIEngine.AiEngine engine' (history ++ [now])), w)
               | Return processed =>
                   (Return (AIEngine.mkAIResponse (inr processed)
                              (PersonalityEngine.detected_mood a)
                              (PersonalityEngine.personality_tone a)
                              (AIEngine.Profile a),
                            AIEngine.AiEngine engine' (history ++ [now])), w)
               end
           end.
Proof.
  destruct (analyze_user_mood_returns (AIEngine.personality_engine self) ctx w)
    as (a & engine' & Ha).
  exists a, engine'. split; [exact Ha|].
  unfold AIEngine.generate_response, bind, AIEngine.time_time, try_except, ret. cbv zeta.
  destruct (AIEngine._check_rate_limit _ _) as [allowed history].
  destruct allowed; cbn [negb]; [|reflexivity].
  rewrite Ha.
  destruct (generate ctx message a) as [response | e]; [|reflexivity].
  destruct (process response a ctx); reflexivity.
Qed.

(** X21.  [generate_response] never raises and leaves the database alone.
    An answer that is not the processed output of the model, so a refusal by
    the rate limiter or a failure, has mood ["neutral"] and tone
    ["apologetic"], neither of them a configured value, and carries no
    personality profile; a processed answer carries the profile that
    [analyze_user_mood] returned for the engine's cache, and its mood and
    tone are that profile's. *)
Theorem generate_response_answers {Processed : Type}
    (generate : user_context -> string -> PersonalityEngine.MoodAnalysis -> pyresult string)
    (process : string -> PersonalityEngine.MoodAnalysis -> user_context
               -> pyresult Processed)
    (self : AIEngine.ai_engine) (ctx : user_context) (message : string) (w : world) :
  exists response self',
    AIEngine.generate_response generate process self ctx message w
    = (Return (response, self'), w)
    /\ match AIEngine.content response with
       | inl _ =>
           AIEngine.mood response = "neutral"
           /\ (AIEngine.mood response ∉ map fst MOOD_STATES)
           /\ AIEngine.personality_tone response = "apologetic"
           /\ (AIEngine.personality_tone response ∉ COMMUNICATION_PATTERNS)
           /\ (forall a, AIEngine.emotional_context response <> AIEngine.Profile a)
       | inr _ =>
           exists a,
             PersonalityEngine.analyze_user_mood (AIEngine.personality_engine self) ctx w
             = (Return (a, AIEngine.personality_engine self'), w)
             /\ AIEngine.emotional_context response = AIEngine.Profile a
             /\ AIEngine.mood response = PersonalityEngine.detected_mood a
             /\ AIEngine.personality_tone response = PersonalityEngine.personality_tone a
       end.
Proof.
  destruct (generate_response_eq generate process self ctx message w)
    as (a & engine' & Ha & ->).
  cbv zeta. destruct (AIEngine._check_rate_limit _ _) as [allowed history].
  assert (Hapology : forall (e : AIEngine.emotional_context_t),
             (forall p, e <> AIEngine.Profile p) ->
             forall text : string,
             let response := @AIEngine.mkAIResponse Processed (inl text) "neutral"
                               "apologetic" e in
             AIEngine.mood response = "neutral"
             /\ (AIEngine.mood response ∉ map fst MOOD_STATES)
             /\ AIEngine.personality_tone response = "apologetic"
             /\ (AIEngine.personality_tone response ∉ COMMUNICATION_PATTERNS)
             /\ (forall a, AIEngine.emotional_context response <> AIEngine.Profile a)).
  { intros e He text. cbv zeta.
    cbn [AIEngine.mood AIEngine.personality_tone AIEngine.emotional_context].
    split; [reflexivity|]. split; [apply (bool_decide_unpack _); reflexivity|].
    split; [reflexivity|]. split; [apply (bool_decide_unpack _); reflexivity|]. exact He. }
  destruct allowed; cbn [negb].
  - destruct (generate ctx message a) as [answer | e].
    + destruct (process answer a ctx) as [processed | e].
      * eexists _, _. split; [reflexivity|]. cbn [AIEngine.content].
        exists a. cbn [AIEngine.personality_engine]. repeat split. exact Ha.
      * eexists _, _. split; [reflexivity|]. apply Hapology. discriminate.
    + eexists _, _. split; [reflexivity|]. apply Hapology. discriminate.
  - eexists _, _. split; [reflexivity|]. apply Hapology. discriminate.
Qed.

(** X22.  The hour limit is an invariant of the engine: a request history
    of at most 1000 entries has at most 1000 entries after any call, whatever
    the model and the processing do; and a call that the limiter refuses
    records nothing and does not touch the personality cache. *)
Theorem request_history_stays_bounded {Processed : Type}
    (generate : user_context -> string -> PersonalityEngine.MoodAnalysis -> pyresult string)
    (process : string -> PersonalityEngine.MoodAnalysis -> user_context
               -> pyresult Processed)
    (self : AIEngine.ai_engine) (ctx : user_context) (message : string) (w : world) :
  (length (AIEngine.request_history self) <= AIEngine.requests_per_hour)%nat ->
  exists response self',
    AIEngine.generate_response generate process self ctx message w
    = (Return (response, self'), w)
    /\ (length (AIEngine.request_history self') <= AIEngine.requests_per_hour)%nat
    /\ (AIEngine.emotional_context response = AIEngine.RateLimited ->
        AIEngine.personality_engine self' = AIEngine.personality_engine self
        /\ AIEngine.request_history self' `sublist_of` AIEngine.request_history self).
Proof.
  intros Hbound.
  destruct (generate_response_eq generate process self ctx message w)
    as (a & engine' & Ha & ->).
  cbv zeta.
  pose proof (check_rate_limit_history (inject_Z (w_now w) / 1000000)
                (AIEngine.request_history self)) as Hh.
  pose proof (check_rate_limit_allowed (inject_Z (w_now w) / 1000000)
                (AIEngine.request_history self)) as Hok.
  destruct (AIEngine._check_rate_limit _ _) as [allowed history].
  cbn [fst snd] in Hh, Hok.
  assert (Hsub : history `sublist_of` AIEngine.request_history self)
    by (rewrite Hh; apply sublist_filter).
  pose proof (sublist_length _ _ Hsub) as Hlen.
  destruct allowed; cbn [negb].
  - destruct Hok as [Hok _]. destruct (Hok eq_refl) as [_ Hhour]. rewrite <- Hh in Hhour.
    destruct (generate ctx message a) as [answer | e].
    + destruct (process answer a ctx) as [processed | e];
        (eexists _, _; split; [reflexivity|];
         cbn [AIEngine.request_history AIEngine.emotional_context];
         split; [rewrite length_app; simpl length; lia | discriminate]).
    + eexists _, _. split; [reflexivity|].
      cbn [AIEngine.request_history AIEngine.emotional_context].
      split; [lia | discriminate].
  - eexists _, _. split; [reflexivity|].
    cbn [AIEngine.request_history AIEngine.personality_engine]. split; [lia|].
    intros _. split; [reflexivity | exact Hsub].
Qed.

Lemma request_history_bounded_witness :
  exists response self',
    AIEngine.generate_response (fun _ _ _ => Return "ok") (fun answer _ _ => Return answer)
      fresh_ai_engine scenario_struggling "oi" (healthy_world 0 ∅)
    = (Return (response, self'), healthy_world 0 ∅)
    /\ (length (AIEngine.request_history self') <= 1000)%nat.
Proof.
  destruct (request_history_stays_bounded (fun _ _ _ => Return "ok")
              (fun answer _ _ => Return answer)
              fresh_ai_engine scenario_struggling "oi" (healthy_world 0 ∅))
    as (response & self' & Hrun & Hlen & _).
  - simpl. unfold AIEngine.requests_per_hour. lia.
  - exists response, self'. split; [exact Hrun | exact Hlen].
Defined.


(** X25.  For a snapshot in range, read at a clock hour in [0, 24), whose
    peak hour is known and lies in [1, 24), the [timing_alignment] indicator
    is emitted with the value [1 - |current_hour - peak_hour| / 12]. *)
Theorem timing_alignment_emitted_for_known_peak (current_hour peak : Z)
    (ctx : user_context) (patterns : gmap string Z) :
  snapshot_in_range ctx ->
  (0 <= current_hour < 24)%Z ->
  productivity_patterns ctx = Some patterns ->
  patterns !! "peak_hour" = Some peak ->
  (1 <= peak < 24)%Z ->
  timing_alignment_of (mood_indicators_at current_hour ctx)
  = Some (1.0 - inject_Z (Z.abs (current_hour - peak)) / 12.0).
Proof.
  intros _ _ Hctx Hpeak Hrange.
  apply (timing_alignment_emitted current_hour peak ctx patterns Hctx Hpeak). lia.
Qed.

(** The statement at ten o'clock for a peak hour of twelve. *)
Lemma timing_alignment_emitted_witness :
  timing_alignment_of (mood_indicators_at 10 (context_with_peak_hour 12))
  = Some (1.0 - inject_Z (Z.abs (10 - 12)) / 12.0).
Proof.
  apply (timing_alignment_emitted_for_known_peak 10 12 (context_with_peak_hour 12)
           {[ "peak_hour" := 12%Z ]}).
  - apply (bool_decide_unpack _). vm_compute. reflexivity.
  - lia.
  - reflexivity.
  - apply lookup_singleton_eq.
  - lia.
Defined.


(** ** The mood bonuses *)

(** X23.  Of the six bonuses only the one of ["struggling"] can exceed 1,
    and it does so exactly when all four of its conditions hold: at least
    two overdue tasks, a completion rate below [0.3], no streak and no
    completed session today.  Three of its increments, and all the
    increments of any other mood, stay below 1. *)
Theorem struggling_bonus_alone_exceeds_one (mood : string)
    (indicator_values : gmap string Q) :
  1 < mood_bonus mood indicator_values
  <-> mood = "struggling"
      /\ 2 <= get indicator_values "overdue_tasks" 0
      /\ get indicator_values "completion_rate" 0 < 0.3
      /\ get indicator_values "current_streak" 0 == 0
      /\ get indicator_values "today_pomodoros" 0 == 0.
Proof.
  unfold mood_bonus.
  destruct (String.eqb mood "motivated") eqn:Em.
  { apply String.eqb_eq in Em. subst mood. split.
    - unfold _calculate_motivated_bonus. intros H. exfalso. revert H. bonus_cases.
    - intros [Hs _]. discriminate Hs. }
  destruct (String.eqb mood "struggling") eqn:Es.
  { apply String.eqb_eq in Es. subst mood.
    unfold _calculate_struggling_bonus. cbv zeta.
    pose proof (Qle_bool_iff 2 (get indicator_values "overdue_tasks" 0)) as C1.
    pose proof (Qlt_bool_true (get indicator_values "completion_rate" 0) 0.3) as C2.
    pose proof (Qeq_bool_iff (get indicator_values "current_streak" 0) 0) as C3.
    pose proof (Qeq_bool_iff (get indicator_values "today_pomodoros" 0) 0) as C4.
    destruct (Qle_bool 2 (get indicator_values "overdue_tasks" 0)),
      (Qlt_bool (get indicator_values "completion_rate" 0) 0.3),
      (Qeq_bool (get indicator_values "current_streak" 0) 0),
      (Qeq_bool (get indicator_values "today_pomodoros" 0) 0);
      (split;
       [ intros H;
         first [ exfalso; lra
               | split; [reflexivity|]; split; [apply C1; reflexivity|];
                 split; [apply C2; reflexivity|];
                 split; [apply C3 | apply C4]; reflexivity ]
       | intros (_ & P1 & P2 & P3 & P4);
         apply C1 in P1; apply C2 in P2; apply C3 in P3; apply C4 in P4;
         first [ lra | discriminate ] ]). }
  destruct (String.eqb mood "focused").
  { split; [unfold _calculate_focused_bonus; intros H; exfalso; revert H; bonus_cases|].
    intros [Hs _]. apply String.eqb_neq in Es. contradiction. }
  destruct (String.eqb mood "overwhelmed").
  { split; [unfold _calculate_overwhelmed_bonus; intros H; exfalso; revert H; bonus_cases|].
    intros [Hs _]. apply String.eqb_neq in Es. contradiction. }
  destruct (String.eqb mood "celebrating").
  { split; [unfold _calculate_celebrating_bonus; intros H; exfalso; revert H; bonus_cases|].
    intros [Hs _]. apply String.eqb_neq in Es. contradiction. }
  destruct (String.eqb mood "returning").
  { split; [unfold _calculate_returning_bonus; intros H; exfalso; revert H; bonus_cases|].
    intros [Hs _]. apply String.eqb_neq in Es. contradiction. }
  split; [lra|]. intros [Hs _]. apply String.eqb_neq in Es. contradiction.
Qed.
